(** * ModelBootstrap: calibrated predictions with bootstrap confidence intervals

    A shallow embedding of the [ModelBootstrap] class of the notebook
    [ModelBootstrap.ipynb] (methods [__init__], [fit] and [predict]) and the
    properties of its interval computation.

    Conventions of the embedding:
    - NumPy floats are idealised as exact rationals ([Q]); equalities between
      computed probabilities are therefore stated with [==].
    - Python ints are [Z]; a value whose dynamic type the code inspects
      ([n_boot], [ci]) is a [PyVal].
    - The object [self] and NumPy's global generator form the mutable world
      threaded through every method; a raised exception leaves the world as
      it was at the point of the [raise].
    - scikit-learn's [CalibratedClassifierCV] is a black box behind the class
      [Calibrated]. Its [.fit] works on the object itself: when the training
      raises, the object keeps whatever the training had set on it by then.
    - Exact rationals have no NaN. A call whose returned array holds one ends
      in [NotANumber]; the embedding does not follow a computation past that
      point and states nothing about how it ends. *)

From Stdlib Require Import String DecimalString.
From Stdlib Require Import List ZArith QArith Qround Qminmax Lia Lqa Bool.
From Stdlib Require Import Sorting.Mergesort Sorting.Sorted Sorting.Permutation.
From Stdlib Require Import Orders.
Import ListNotations.

Local Open Scope Q_scope.

(** ** Order statistics on rationals *)

Module QOrder <: TotalLeBool.

Definition t := Q.

Definition leb (x y : Q) : bool := Qle_bool x y.

Theorem leb_total : forall x y, leb x y = true \/ leb y x = true.
Proof.
  intros x y. unfold leb. rewrite !Qle_bool_iff.
  destruct (Qlt_le_dec x y) as [H|H]; [left; apply Qlt_le_weak, H | right; exact H].
Qed.

End QOrder.

Module QSort := Sort QOrder.

(** [np.sort] along one axis: the order statistics of a column. *)
Definition np_sort (a : list Q) : list Q := QSort.sort a.

(** [np.take(ap, i)] on a one-dimensional array, for an index in range. *)
Definition np_take (a : list Q) (i : Z) : Q := nth (Z.to_nat i) a 0.

(** NumPy's [_lerp(a, b, t)]: [a + (b - a) * t], computed from the [b] end
    when [t >= 0.5]. *)
Definition lerp (a b t : Q) : Q :=
  if Qle_bool (1 # 2) t then b - (b - a) * (1 - t) else a + (b - a) * t.

(** [np.quantile(a, q)] for a one-dimensional [a], default method (linear):
    the virtual index is [q * (Nx - 1)], the neighbours are its floor and the
    next index clipped to [Nx - 1], the weight is the fractional part. *)
Definition quantile_1d (a : list Q) (q : Q) : Q :=
  let ap := np_sort a in
  let Nx := Z.of_nat (length a) in
  let indices := q * inject_Z (Nx - 1) in
  let indices_below := Qfloor indices in
  let indices_above :=
    if (indices_below + 1 >? Nx - 1)%Z then (Nx - 1)%Z else (indices_below + 1)%Z in
  let weights_above := indices - inject_Z indices_below in
  lerp (np_take ap indices_below) (np_take ap indices_above) weights_above.

(** Column [i] of a matrix stored as a list of rows. *)
Definition column (m : list (list Q)) (i : nat) : list Q :=
  map (fun row => nth i row 0) m.

(** [np.quantile(preds, q, axis = 0)] for a matrix with [S] columns. *)
Definition quantile_axis0 (preds : list (list Q)) (S : nat) (q : Q) : list Q :=
  map (fun i => quantile_1d (column preds i) q) (seq 0 S).

(** ** Python values, exceptions and the state monad of the methods *)

(** The values whose dynamic type the code tests with [type(v) != int].
    [bool] is a distinct type for that test. *)
Inductive PyVal : Type :=
| PyInt (z : Z)
| PyBool (b : bool)
| PyFloat (x : Q)
| PyStr (s : string)
| PyNone.

(** Exceptions, by origin: [Warning] is the only one the class raises itself. *)
Inductive exn : Type :=
| Warning (msg : string)
| ValueError (msg : string)
| IndexError (msg : string)
| AttributeError (attr : string)
| SklearnError (name : string).

(** How a call ends: it returns, it raises, or a NaN has come up. *)
Inductive Result (A : Type) : Type :=
| Ok (a : A)
| Raise (e : exn)
| NotANumber.
Arguments Ok {A} a.
Arguments Raise {A} e.
Arguments NotANumber {A}.

Definition Matrix : Type := list (list Q).
Definition Labels : Type := list Z.

(** The two accepted representations of a feature table. *)
Inductive ArrayLike : Type :=
| NdArray (m : Matrix)
| DataFrame (m : Matrix).

(** [if type(X) == pd.core.frame.DataFrame: X = X.to_numpy()] *)
Definition to_numpy (X : ArrayLike) : Matrix :=
  match X with NdArray m => m | DataFrame m => m end.

(** What [obj.predict_proba(X)[:,1]] comes to, for an object and a feature
    matrix: [predict_proba] raises inside scikit-learn; or it returns a matrix
    with fewer than two columns (it has one column per class the training has
    seen), on which the indexing [[:,1]] raises NumPy's [IndexError]; or
    column 1 of what it returns holds NaN (an average over no classifier); or
    column 1 holds numbers. *)
Inductive Column1 : Type :=
| RaisedInside (name : string)
| Narrow (width : nat)
| HoldsNaN
| Numbers (p : list Q).

(** The calibrated classifier of scikit-learn, as far as the class uses it:
    training on a dataset and the positive-class column of [predict_proba].
    The training may raise; numbers in column 1 are probabilities, one per
    input row; a matrix without column 1 has one column or none. A training
    that raises leaves the object half-way:
    [sk_fit_leaves] is what it has set on the object by then, and
    [sk_leftover_proba] what such an object answers. *)
Class Calibrated : Type := {
  Estimator : Type;
  CvScheme : Type;
  Model : Type;
  Leftover : Type;
  sk_fit : Estimator -> CvScheme -> Matrix -> Labels -> string + Model;
  sk_fit_leaves : Estimator -> CvScheme -> Matrix -> Labels -> Leftover;
  sk_predict_proba : Model -> Matrix -> Column1;
  sk_leftover_proba : Leftover -> Matrix -> Column1;
  sk_proba_shape : forall m X p,
      sk_predict_proba m X = Numbers p -> length p = length X;
  sk_proba_range : forall m X p,
      sk_predict_proba m X = Numbers p -> Forall (fun v => 0 <= v <= 1) p;
  sk_leftover_shape : forall d X p,
      sk_leftover_proba d X = Numbers p -> length p = length X;
  sk_leftover_range : forall d X p,
      sk_leftover_proba d X = Numbers p -> Forall (fun v => 0 <= v <= 1) p;
  sk_proba_narrow : forall m X width,
      sk_predict_proba m X = Narrow width -> (width < 2)%nat;
  sk_leftover_narrow : forall d X width,
      sk_leftover_proba d X = Narrow width -> (width < 2)%nat
}.

(** NumPy's global generator: a supply of raw draws and a cursor. *)
Record RandomState : Type := mkRandomState {
  entropy : nat -> nat;
  consumed : nat
}.

(** One bounded draw in [[0, a)]. *)
Definition randint (a : nat) (g : RandomState) : nat * RandomState :=
  ((entropy g (consumed g) mod a)%nat,
   mkRandomState (entropy g) (S (consumed g))).

Fixpoint draws (a k : nat) (g : RandomState) : list nat * RandomState :=
  match k with
  | O => ([], g)
  | S k' =>
      let (i, g1) := randint a g in
      let (rest, g2) := draws a k' g1 in
      (i :: rest, g2)
  end.

(** The generator about to hand out the raw draws [r]. *)
Definition replaying (r : list nat) : RandomState :=
  mkRandomState (fun j => nth j r O) 0.

(** All vectors of [k] indices over [[0, a)]: the equally likely outcomes of
    [k] independent uniform draws from [[0, a)]. *)
Fixpoint index_vectors (a k : nat) : list (list nat) :=
  match k with
  | O => [[]]
  | S k' => flat_map (fun i => map (cons i) (index_vectors a k')) (seq 0 a)
  end.

(** Fancy indexing [x[b_idx]] along the first axis. *)
Fixpoint take_rows {A : Type} (x : list A) (b_idx : list nat) : Result (list A) :=
  match b_idx with
  | [] => Ok []
  | i :: rest =>
      match nth_error x i with
      | None => Raise (IndexError "index out of bounds for axis 0")
      | Some r =>
          match take_rows x rest with
          | Ok rs => Ok (r :: rs)
          | Raise e => Raise e
          | NotANumber => NotANumber
          end
      end
  end.

Definition negative_size_msg : string := "negative dimensions are not allowed".

(** [np.zeros((rows, cols))]: a negative dimension is refused. *)
Definition np_zeros (rows : Z) (cols : nat) : Result Matrix :=
  if (rows <? 0)%Z then Raise (ValueError negative_size_msg)
  else Ok (repeat (repeat 0 cols) (Z.to_nat rows)).

Fixpoint replace_row (m : Matrix) (j : nat) (row : list Q) : Matrix :=
  match m, j with
  | [], _ => []
  | _ :: rest, O => row :: rest
  | r :: rest, S j' => r :: replace_row rest j' row
  end.

(** [preds[j] = row] *)
Definition set_row (preds : Matrix) (j : nat) (row : list Q) : Result Matrix :=
  if (j <? length preds)%nat then Ok (replace_row preds j row)
  else Raise (IndexError "index out of bounds for axis 0").

(** An integer strictly between 0 and 100. *)
Definition valid_ci (ci : PyVal) : Prop :=
  exists c, ci = PyInt c /\ (0 < c < 100)%Z.

(** A probability. *)
Definition prob (v : Q) : Prop := 0 <= v <= 1.

(** The interpolation at a virtual index [h] of a column of [Nx] values. *)
Definition interp_at (ap : list Q) (Nx : Z) (h : Q) : Q :=
  let below := Qfloor h in
  let above := if (below + 1 >? Nx - 1)%Z then (Nx - 1)%Z else (below + 1)%Z in
  lerp (np_take ap below) (np_take ap above) (h - inject_Z below).

Section Methods.

Context {C : Calibrated}.

(** A [CalibratedClassifierCV] object: its constructor arguments; once
    [.fit] has returned, the fitted model; once [.fit] has raised, what the
    training left on the object. *)
Record CalibratedClassifierCV : Type := mkObject {
  base_estimator : Estimator;
  cv : CvScheme;
  fitted : option Model;
  leftover : option Leftover
}.

(** An object on which no training has raised. *)
Definition mkCCV (e : Estimator) (c : CvScheme) (m : option Model)
  : CalibratedClassifierCV :=
  mkObject e c m None.

(** The attributes of [self]. [calibration_cv], [calibrated_estimator] and
    [boot_size] do not exist before the first [fit]: [None] stands for a
    missing attribute. *)
Record ModelBootstrap : Type := mkModelBootstrap {
  estimator : Estimator;
  n_boot : Z;
  b_estimators : list CalibratedClassifierCV;
  calibration_cv : option CvScheme;
  calibrated_estimator : option CalibratedClassifierCV;
  boot_size : option Z
}.

Record World : Type := mkWorld {
  self : ModelBootstrap;
  np_random : RandomState
}.

Definition M (A : Type) : Type := World -> Result A * World.

Definition ret {A : Type} (a : A) : M A := fun w => (Ok a, w).

Definition bind {A B : Type} (m : M A) (f : A -> M B) : M B :=
  fun w =>
    match m w with
    | (Ok a, w1) => f a w1
    | (Raise e, w1) => (Raise e, w1)
    | (NotANumber, w1) => (NotANumber, w1)
    end.

Definition raise {A : Type} (e : exn) : M A := fun w => (Raise e, w).

Definition lift {A : Type} (r : Result A) : M A := fun w => (r, w).

Definition get_self : M ModelBootstrap := fun w => (Ok (self w), w).

Definition modify_self (f : ModelBootstrap -> ModelBootstrap) : M unit :=
  fun w => (Ok tt, mkWorld (f (self w)) (np_random w)).

Notation "x <- c1 ;; c2" := (bind c1 (fun x => c2))
  (at level 61, c1 at next level, right associativity).
Notation "c1 ;;; c2" := (bind c1 (fun _ => c2))
  (at level 61, right associativity).

(** Attribute assignments [self.attr = v]. *)
Definition set_calibration_cv (v : CvScheme) (s : ModelBootstrap) : ModelBootstrap :=
  mkModelBootstrap (estimator s) (n_boot s) (b_estimators s)
                   (Some v) (calibrated_estimator s) (boot_size s).

Definition set_calibrated_estimator (v : CalibratedClassifierCV) (s : ModelBootstrap)
  : ModelBootstrap :=
  mkModelBootstrap (estimator s) (n_boot s) (b_estimators s)
                   (calibration_cv s) (Some v) (boot_size s).

Definition set_boot_size (v : Z) (s : ModelBootstrap) : ModelBootstrap :=
  mkModelBootstrap (estimator s) (n_boot s) (b_estimators s)
                   (calibration_cv s) (calibrated_estimator s) (Some v).

Definition set_b_estimators (v : list CalibratedClassifierCV) (s : ModelBootstrap)
  : ModelBootstrap :=
  mkModelBootstrap (estimator s) (n_boot s) v
                   (calibration_cv s) (calibrated_estimator s) (boot_size s).

(** Reading an attribute that only [fit] creates. *)
Definition get_attr {A : Type} (name : string) (proj : ModelBootstrap -> option A) : M A :=
  s <- get_self ;;
  match proj s with
  | Some v => ret v
  | None => raise (AttributeError name)
  end.

(** [CalibratedClassifierCV(base_estimator = e, cv = c)] *)
Definition new_ccv (e : Estimator) (c : CvScheme) : CalibratedClassifierCV :=
  mkCCV e c None.

(** [obj.fit(X, y)] as a call: it returns the object, fitted, or raises the
    exception of the training, which keeps its name. *)
Definition ccv_fit (obj : CalibratedClassifierCV) (X : Matrix) (y : Labels)
  : Result CalibratedClassifierCV :=
  match sk_fit (base_estimator obj) (cv obj) X y with
  | inr m => Ok (mkCCV (base_estimator obj) (cv obj) (Some m))
  | inl name => Raise (SklearnError name)
  end.

(** The object itself after [obj.fit(X, y)], whether the call returned or
    raised: fitted, or holding what the training left behind. *)
Definition ccv_fit_leaves (obj : CalibratedClassifierCV) (X : Matrix) (y : Labels)
  : CalibratedClassifierCV :=
  match sk_fit (base_estimator obj) (cv obj) X y with
  | inr m => mkCCV (base_estimator obj) (cv obj) (Some m)
  | inl _ =>
      mkObject (base_estimator obj) (cv obj) None
               (Some (sk_fit_leaves (base_estimator obj) (cv obj) X y))
  end.

(** NumPy's message for [a[:,1]] on a matrix without a column 1. *)
Definition no_column1_msg (width : nat) : string :=
  match width with
  | O => "index 1 is out of bounds for axis 1 with size 0"
  | _ => "index 1 is out of bounds for axis 1 with size 1"
  end.

(** How the expression [obj.predict_proba(X)[:,1]] ends. *)
Definition take_column1 (o : Column1) : Result (list Q) :=
  match o with
  | RaisedInside name => Raise (SklearnError name)
  | Narrow width => Raise (IndexError (no_column1_msg width))
  | HoldsNaN => NotANumber
  | Numbers p => Ok p
  end.

(** [obj.predict_proba(X)[:,1]]: on an object that was never trained,
    scikit-learn raises its [NotFittedError]. *)
Definition ccv_predict_proba (obj : CalibratedClassifierCV) (X : Matrix)
  : Result (list Q) :=
  match fitted obj with
  | Some m => take_column1 (sk_predict_proba m X)
  | None =>
      match leftover obj with
      | Some d => take_column1 (sk_leftover_proba d X)
      | None => Raise (SklearnError "NotFittedError")
      end
  end.

(** [np.random.choice(a, size = size)] for an integer [a]: [size] indices
    drawn with replacement from [[0, a)]. *)
Definition random_choice (a : nat) (size : Z) : M (list nat) :=
  fun w =>
    if (a =? 0)%nat && negb (size =? 0)%Z then
      (Raise (ValueError "a must be greater than 0 unless no samples are taken"), w)
    else if (size <? 0)%Z then
      (Raise (ValueError negative_size_msg), w)
    else
      let (b_idx, g) := draws a (Z.to_nat size) (np_random w) in
      (Ok b_idx, mkWorld (self w) g).

(** The resampling step of the [fit] loop:
    [b_idx = np.random.choice(X.shape[0], size = boot_size)],
    [X_resampled = X[b_idx]], [y_resampled = y[b_idx]]. *)
Definition resample (X : Matrix) (y : Labels) (size : Z) : M (Matrix * Labels) :=
  b_idx <- random_choice (length X) size ;;
  X_resampled <- lift (take_rows X b_idx) ;;
  y_resampled <- lift (take_rows y b_idx) ;;
  ret (X_resampled, y_resampled).

(** [for j in trange(n): body] *)
Fixpoint for_range (n : nat) (body : M unit) : M unit :=
  match n with
  | O => ret tt
  | S k => body ;;; for_range k body
  end.

Definition n_boot_msg : string := "n_boot must be an integer larger than 0".
Definition not_fitted_msg : string := "Use fit method first".
Definition ci_msg : string := "ci must be an integer between 0 and 100 exclusive".

(** [ModelBootstrap.__init__(self, estimator, n_boot = 100)] *)
Definition init (est : Estimator) (n : PyVal) : Result ModelBootstrap :=
  match n with
  | PyInt z =>
      if (z <? 0)%Z then Raise (Warning n_boot_msg)
      else Ok (mkModelBootstrap est z [] None None None)
  | _ => Raise (Warning n_boot_msg)
  end.

(** The default [boot_size = None] becomes the row count. *)
Definition resolve_boot_size (requested : option Z) (rows : nat) : Z :=
  match requested with
  | None => Z.of_nat rows
  | Some k => k
  end.

(** One iteration of the bootstrap loop of [fit]. *)
Definition fit_member (X : Matrix) (y : Labels) : M unit :=
  size <- get_attr "boot_size" boot_size ;;
  r <- resample X y size ;;
  s <- get_self ;;
  c <- get_attr "calibration_cv" calibration_cv ;;
  partial_estimator <- lift (ccv_fit (new_ccv (estimator s) c) (fst r) (snd r)) ;;
  modify_self (fun s => set_b_estimators (b_estimators s ++ [partial_estimator]) s).

(** [ModelBootstrap.fit(self, X, y, calibration_cv = None, boot_size = None)].
    The point model is trained as the object that [self.calibrated_estimator]
    holds, so the attribute shows what the training did to the object also
    when the training raises. *)
Definition fit (X0 : ArrayLike) (y : Labels) (cv0 : CvScheme) (size0 : option Z)
  : M unit :=
  let X := to_numpy X0 in
  modify_self (set_calibration_cv cv0) ;;;
  s <- get_self ;;
  c <- get_attr "calibration_cv" calibration_cv ;;
  modify_self (set_calibrated_estimator (new_ccv (estimator s) c)) ;;;
  obj <- get_attr "calibrated_estimator" calibrated_estimator ;;
  modify_self (set_calibrated_estimator (ccv_fit_leaves obj X y)) ;;;
  lift (ccv_fit obj X y) ;;;
  modify_self (set_boot_size (resolve_boot_size size0 (length X))) ;;;
  modify_self (set_b_estimators []) ;;;
  s <- get_self ;;
  for_range (Z.to_nat (n_boot s)) (fit_member X y).

(** The loop [for j, est in enumerate(self.b_estimators): preds[j] = ...]. *)
Fixpoint fill_preds (X : Matrix) (ests : list CalibratedClassifierCV) (j : nat)
    (preds : Matrix) : M Matrix :=
  match ests with
  | [] => ret preds
  | est :: rest =>
      b_y_pred <- lift (ccv_predict_proba est X) ;;
      preds' <- lift (set_row preds j b_y_pred) ;;
      fill_preds X rest (S j) preds'
  end.

(** [ci = (1 - ci / 100) / 2] *)
Definition tail_mass (c : Z) : Q := (1 - inject_Z c / 100) / 2.

(** [ModelBootstrap.predict(self, X, ci = 95)]: the triple
    [(y_pred, lower_bounds, upper_bounds)]. *)
Definition predict (X0 : ArrayLike) (ci : PyVal) : M (list Q * list Q * list Q) :=
  let X := to_numpy X0 in
  s <- get_self ;;
  match b_estimators s with
  | [] => raise (Warning not_fitted_msg)
  | _ :: _ =>
      match ci with
      | PyInt c =>
          if (c <=? 0)%Z || (c >=? 100)%Z then raise (Warning ci_msg)
          else
            let alpha := tail_mass c in
            preds <- lift (np_zeros (n_boot s) (length X)) ;;
            obj <- get_attr "calibrated_estimator" calibrated_estimator ;;
            y_pred <- lift (ccv_predict_proba obj X) ;;
            s' <- get_self ;;
            preds' <- fill_preds X (b_estimators s') 0 preds ;;
            ret (y_pred,
                 quantile_axis0 preds' (length X) alpha,
                 quantile_axis0 preds' (length X) (1 - alpha))
      | _ => raise (Warning ci_msg)
      end
  end.

(** ** Notions used to state the properties *)

(** The matrix [preds] at the end of the member loop. *)
Definition stacked (s : ModelBootstrap) (cols : nat) (P : Matrix) : Matrix :=
  P ++ repeat (repeat 0 cols) (Z.to_nat (n_boot s) - length (b_estimators s)).

(** [self] when the bootstrap loop of [fit] starts. *)
Definition before_loop (s : ModelBootstrap) (cv0 : CvScheme)
    (obj : CalibratedClassifierCV) (size : Z) : ModelBootstrap :=
  mkModelBootstrap (estimator s) (n_boot s) [] (Some cv0) (Some obj) (Some size).

(** The two states of the estimator: [Fitted] once the point-estimate model
    has been trained. *)
Inductive State : Type := Unfitted | Fitted.

Definition state_of (s : ModelBootstrap) : State :=
  match calibrated_estimator s with
  | Some obj => match fitted obj with Some _ => Fitted | None => Unfitted end
  | None => Unfitted
  end.

(** A computation that never writes the world. *)
Definition read_only {A : Type} (m : M A) : Prop := forall w, snd (m w) = w.

Definition raises_only {A : Type} (P : exn -> Prop) (m : M A) : Prop :=
  forall w e w', m w = (Raise e, w') -> P e.

Definition not_warning (e : exn) : Prop := forall msg, e <> Warning msg.

(** The validation of [predict] as the specification words it: the
    not-fitted error exactly in the [Unfitted] state, the invalid-argument
    error exactly for an invalid [ci], and no warning for a fitted estimator
    and a valid [ci]. *)
Definition predict_validation_as_specified (X0 : ArrayLike) (ci : PyVal) (w : World)
  : Prop :=
  (fst (predict X0 ci w) = Raise (Warning not_fitted_msg)
     <-> state_of (self w) = Unfitted) /\
  (fst (predict X0 ci w) = Raise (Warning ci_msg) <-> ~ valid_ci ci) /\
  (state_of (self w) = Fitted -> valid_ci ci ->
     forall msg, fst (predict X0 ci w) <> Raise (Warning msg)).

(** Rejection of a requested [boot_size] by the estimator itself, as the
    specification asks for it: a warning of the class, raised before anything
    is drawn from the generator. *)
Definition fit_rejects_boot_size (X0 : ArrayLike) (y : Labels) (cv0 : CvScheme)
    (k : Z) (w : World) : Prop :=
  exists msg w',
    fit X0 y cv0 (Some k) w = (Raise (Warning msg), w') /\
    np_random w' = np_random w.

(** The point estimate inside the interval, sample by sample. *)
Definition point_within_bounds (y_pred lo up : list Q) : Prop :=
  forall i, (i < length y_pred)%nat -> nth i lo 0 <= nth i y_pred 0 <= nth i up 0.

End Methods.

Arguments predict {C} X0 ci w.
Arguments fit {C} X0 y cv0 size0 w.

(** ** The plotting method *)

(** One row of the table [results]: the columns [y_pred], [lower_bound],
    [upper_bound], [y_true] and [y_binary]. *)
Record PlotRow : Type := mkPlotRow {
  row_y_pred : Q;
  row_lower_bound : Q;
  row_upper_bound : Q;
  row_y_true : Z;
  row_y_binary : Z
}.

Definition n_samples_msg : string :=
  "n_samples should be 'all' or an integer <= number of samples".

(** [str(n)] for a size. *)
Definition repr (n : nat) : string := NilEmpty.string_of_uint (Nat.to_uint n).

(** NumPy's message for a [vstack] whose array [i] has [ni] entries where
    array 0 has [n0], in the wording of the releases of the notebook's time
    (other releases word the beginning differently). *)
Definition vstack_msg (n0 i ni : nat) : string :=
  "all the input array dimensions for the concatenation axis must match exactly, "
  ++ "but along dimension 1, the array at index 0 has size " ++ repr n0
  ++ " and the array at index " ++ repr i ++ " has size " ++ repr ni.

(** The first of the arrays [i], [i + 1], ... whose size is not [n0]. *)
Fixpoint first_mismatch (n0 i : nat) (sizes : list nat) : option (nat * nat) :=
  match sizes with
  | [] => None
  | n :: rest => if (n =? n0)%nat then first_mismatch n0 (S i) rest else Some (i, n)
  end.

(** [np.array(y_true).any()]: some label is non-zero. A missing [y_true]
    ([None]) has none. *)
Definition any_label (y_true : option Labels) : bool :=
  match y_true with
  | None => false
  | Some l => existsb (fun v => negb (v =? 0)%Z) l
  end.

(** [(y_pred > threshold).astype(int)] *)
Definition binarize (threshold p : Q) : Z :=
  if Qle_bool p threshold then 0%Z else 1%Z.

Fixpoint zip_rows (y_pred lower_bound upper_bound : list Q) (y_true y_binary : list Z)
  : list PlotRow :=
  match y_pred, lower_bound, upper_bound, y_true, y_binary with
  | p :: ps, l :: ls, u :: us, t :: ts, b :: bs =>
      mkPlotRow p l u t b :: zip_rows ps ls us ts bs
  | _, _, _, _, _ => []
  end.

(** [np.vstack([y_pred, lower_bound, upper_bound, y_true, y_binary]).T]: the
    five vectors must have one length; the error names the first that has
    not the length of [y_pred]. *)
Definition vstack_T (y_pred lower_bound upper_bound : list Q) (y_true y_binary : list Z)
  : Result (list PlotRow) :=
  match first_mismatch (length y_pred) 1
          [length lower_bound; length upper_bound; length y_true; length y_binary] with
  | None => Ok (zip_rows y_pred lower_bound upper_bound y_true y_binary)
  | Some (i, ni) => Raise (ValueError (vstack_msg (length y_pred) i ni))
  end.

(** The labels that enter the table. *)
Definition table_labels (y_true : option Labels) (rows : nat) : Labels :=
  match y_true with
  | Some l => if negb (any_label y_true) then repeat 0%Z rows else l
  | None => repeat 0%Z rows
  end.

(** The table [results] built from a triple of [predict]. *)
Definition table (t : list Q * list Q * list Q) (y_true : option Labels)
    (threshold : Q) (rows : nat) : list PlotRow :=
  zip_rows (fst (fst t)) (snd (fst t)) (snd t) (table_labels y_true rows)
           (map (binarize threshold) (fst (fst t))).

(** What [plot_predict] hands back once the drawing is done. *)
Definition returned (t : list Q * list Q * list Q) (y_true : option Labels)
  : option (list Q * list Q * list Q) :=
  if negb (any_label y_true) then Some (fst (fst t), snd (fst t), snd t) else None.

Section Plotting.

Context {C : Calibrated}.

(** Everything of [plot_predict] from [order = np.argsort(results[:,0])] to
    the last [ax.legend()]: sorting the rows for display, building the frame
    and drawing. It receives the sub-sampled rows, the threshold and the flag
    [r], draws, and may raise. *)
Variable render : list PlotRow -> Q -> bool -> Result unit.

Notation "x <- c1 ;; c2" := (bind c1 (fun x => c2))
  (at level 61, c1 at next level, right associativity).
Notation "c1 ;;; c2" := (bind c1 (fun _ => c2))
  (at level 61, right associativity).

(** The row indices to plot: all of them for [n_samples = 'all'], otherwise
    [n_samples] indices drawn by [np.random.choice(X.shape[0], size = n_samples)]
    once [n_samples] is an [int] not above the row count. *)
Definition choose_rows (rows : nat) (n_samples : PyVal) : M (list nat) :=
  match n_samples with
  | PyStr name =>
      if String.eqb name "all" then ret (seq 0 rows)
      else raise (Warning n_samples_msg)
  | PyInt k =>
      if (k >? Z.of_nat rows)%Z then raise (Warning n_samples_msg)
      else random_choice rows k
  | _ => raise (Warning n_samples_msg)
  end.

(** [ModelBootstrap.plot_predict(self, X, y_true = None, ci = 95,
    threshold = 0.5, n_samples = 'all')]: the triple of [predict] when no
    non-zero label was given, [None] otherwise. *)
Definition plot_predict (X0 : ArrayLike) (y_true : option Labels) (ci : PyVal)
    (threshold : Q) (n_samples : PyVal) : M (option (list Q * list Q * list Q)) :=
  let X := to_numpy X0 in
  let r := negb (any_label y_true) in
  let y_true' :=
    match y_true with
    | Some l => if r then repeat 0%Z (length X) else l
    | None => repeat 0%Z (length X)
    end in
  s <- get_self ;;
  match b_estimators s with
  | [] => raise (Warning not_fitted_msg)
  | _ :: _ =>
      t <- predict (NdArray X) ci ;;
      let y_pred := fst (fst t) in
      let lower_bound := snd (fst t) in
      let upper_bound := snd t in
      let y_binary := map (binarize threshold) y_pred in
      results <- lift (vstack_T y_pred lower_bound upper_bound y_true' y_binary) ;;
      idx <- choose_rows (length X) n_samples ;;
      shown <- lift (take_rows results idx) ;;
      lift (render shown threshold r) ;;;
      ret (if r then Some (y_pred, lower_bound, upper_bound) else None)
  end.

End Plotting.

Arguments plot_predict {C} render X0 y_true ci threshold n_samples w.

(** ** The states an estimator can be in *)

Section States.

Context {C : Calibrated}.

(** What [__init__] establishes and [fit] keeps, whether it returns or raises:
    a non-negative [n_boot], at most [n_boot] members, all of them trained,
    and a point-model object as soon as there is a member. *)
Definition consistent (s : ModelBootstrap) : Prop :=
  (0 <= n_boot s)%Z /\
  (length (b_estimators s) <= Z.to_nat (n_boot s))%nat /\
  Forall (fun obj => fitted obj <> None) (b_estimators s) /\
  (b_estimators s <> [] -> calibrated_estimator s <> None).

(** The indices of the [j]-th resample of a [fit] that started with generator
    [g]: the [j]-th block of [k] draws. *)
Definition block_indices (g : RandomState) (rows k j : nat) : list nat :=
  map (fun t => (entropy g (consumed g + j * k + t) mod rows)%nat) (seq 0 k).

End States.

(** ** The quantile in the words of the specification

    Given the sorted values and the level [q], interpolate between the values
    at the floor and at the ceiling of the rank [q * (n - 1)], weighted by the
    fractional position of the rank. *)
Definition spec_quantile (sorted : list Q) (q : Q) : Q :=
  let rank := q * inject_Z (Z.of_nat (length sorted) - 1) in
  let lo := Qfloor rank in
  let hi := Qceiling rank in
  let frac := rank - inject_Z lo in
  (1 - frac) * np_take sorted lo + frac * np_take sorted hi.

(** * Properties *)

(** ** Interpolation and order statistics *)

Lemma lerp_eq (a b t : Q) : lerp a b t == a + (b - a) * t.
Proof. unfold lerp. destruct (Qle_bool (1 # 2) t); ring. Qed.

Lemma lerp_between (a b t : Q) :
  a <= b -> 0 <= t <= 1 -> a <= lerp a b t <= b.
Proof. intros Hab [H0 H1]. rewrite lerp_eq. split; nra. Qed.

Lemma Qle_bool_trans : Transitive (fun x y : Q => is_true (Qle_bool x y)).
Proof.
  intros x y z. unfold is_true. rewrite !Qle_bool_iff. apply Qle_trans.
Qed.

Lemma np_sort_length (a : list Q) : length (np_sort a) = length a.
Proof. symmetry. apply Permutation_length, QSort.Permuted_sort. Qed.

Lemma np_sort_sorted (a : list Q) : StronglySorted Qle (np_sort a).
Proof.
  pose proof (QSort.StronglySorted_sort a Qle_bool_trans) as H.
  unfold np_sort. induction H as [|x l Hs IH Hx]; constructor; auto.
  eapply Forall_impl; [|exact Hx]. intros y Hy. apply Qle_bool_iff, Hy.
Qed.

Lemma np_sort_Forall (P : Q -> Prop) (a : list Q) :
  Forall P a -> Forall P (np_sort a).
Proof.
  intros H. eapply Permutation_Forall; [apply QSort.Permuted_sort | exact H].
Qed.

Lemma sorted_nth_le (s : list Q) :
  StronglySorted Qle s ->
  forall i j, (i <= j < length s)%nat -> nth i s 0 <= nth j s 0.
Proof.
  induction 1 as [|x l Hs IH Hx]; intros i j [Hij Hj]; simpl in Hj; [lia|].
  destruct i as [|i], j as [|j]; simpl; try lia.
  - apply Qle_refl.
  - rewrite Forall_forall in Hx. apply Hx, nth_In. lia.
  - apply IH. lia.
Qed.

Lemma np_take_sorted_le (a : list Q) (i j : Z) :
  (0 <= i <= j)%Z -> (j < Z.of_nat (length a))%Z ->
  np_take (np_sort a) i <= np_take (np_sort a) j.
Proof.
  intros Hij Hj. unfold np_take. apply sorted_nth_le; [apply np_sort_sorted|].
  rewrite np_sort_length. lia.
Qed.

Lemma np_take_sorted_range (P : Q -> Prop) (a : list Q) (i : Z) :
  Forall P a -> (0 <= i < Z.of_nat (length a))%Z -> P (np_take (np_sort a) i).
Proof.
  intros Ha Hi. pose proof (np_sort_Forall P a Ha) as Hs.
  rewrite Forall_forall in Hs. apply Hs. unfold np_take. apply nth_In.
  rewrite np_sort_length. lia.
Qed.

Lemma quantile_1d_interp (a : list Q) (q : Q) :
  quantile_1d a q =
  interp_at (np_sort a) (Z.of_nat (length a))
            (q * inject_Z (Z.of_nat (length a) - 1)).
Proof. reflexivity. Qed.

Lemma Qfloor_bounds (h : Q) (N : Z) :
  0 <= h <= inject_Z N -> (0 <= Qfloor h <= N)%Z.
Proof.
  intros [H0 HN]. split.
  - change 0%Z with (Qfloor (inject_Z 0)). rewrite Qfloor_Z.
    rewrite <- (Qfloor_Z 0). apply Qfloor_resp_le. exact H0.
  - rewrite <- (Qfloor_Z N). apply Qfloor_resp_le. exact HN.
Qed.

Lemma frac_bounds (h : Q) : 0 <= h - inject_Z (Qfloor h) <= 1.
Proof.
  pose proof (Qfloor_le h) as H1. pose proof (Qlt_floor h) as H2.
  rewrite inject_Z_plus in H2. change (inject_Z 1) with 1 in H2.
  split; lra.
Qed.

Section Interpolation.

Variable a : list Q.
Let Nx : Z := Z.of_nat (length a).
Let ap : list Q := np_sort a.

Definition above_of (below : Z) : Z :=
  if (below + 1 >? Nx - 1)%Z then (Nx - 1)%Z else (below + 1)%Z.

Lemma above_of_bounds (k : Z) :
  (0 <= k <= Nx - 1)%Z -> (k <= above_of k <= Nx - 1)%Z /\ (above_of k <= k + 1)%Z.
Proof.
  intros Hk. unfold above_of. destruct (Z.gtb_spec (k + 1) (Nx - 1)); lia.
Qed.

Lemma interp_at_bracket (h : Q) :
  0 <= h <= inject_Z (Nx - 1) ->
  np_take ap (Qfloor h) <= interp_at ap Nx h <= np_take ap (above_of (Qfloor h)).
Proof.
  intros Hh. pose proof (Qfloor_bounds h (Nx - 1) Hh) as Hk.
  destruct (above_of_bounds _ Hk) as [Ha _].
  unfold interp_at. fold (above_of (Qfloor h)).
  apply lerp_between; [|apply frac_bounds].
  apply np_take_sorted_le; fold Nx; lia.
Qed.

Lemma interp_at_mono (h1 h2 : Q) :
  0 <= h1 -> h1 <= h2 -> h2 <= inject_Z (Nx - 1) ->
  interp_at ap Nx h1 <= interp_at ap Nx h2.
Proof.
  intros H0 H12 HN.
  assert (Hh1 : 0 <= h1 <= inject_Z (Nx - 1)) by (split; lra).
  assert (Hh2 : 0 <= h2 <= inject_Z (Nx - 1)) by (split; lra).
  pose proof (Qfloor_bounds _ _ Hh1) as Hk1.
  pose proof (Qfloor_bounds _ _ Hh2) as Hk2.
  pose proof (Qfloor_resp_le _ _ H12) as Hk12.
  destruct (Z.eq_dec (Qfloor h1) (Qfloor h2)) as [E|NE].
  - unfold interp_at. rewrite <- E. fold (above_of (Qfloor h1)).
    rewrite !lerp_eq.
    destruct (above_of_bounds _ Hk1) as [Ha _].
    assert (Hs : np_take ap (Qfloor h1) <= np_take ap (above_of (Qfloor h1)))
      by (apply np_take_sorted_le; fold Nx; lia).
    nra.
  - destruct (interp_at_bracket h1 Hh1) as [_ Hup].
    destruct (interp_at_bracket h2 Hh2) as [Hlo _].
    destruct (above_of_bounds _ Hk1) as [Ha Ha'].
    assert (Hs : np_take ap (above_of (Qfloor h1)) <= np_take ap (Qfloor h2))
      by (apply np_take_sorted_le; fold Nx; lia).
    lra.
Qed.

Lemma interp_at_range (lo hi : Q) (h : Q) :
  Forall (fun v => lo <= v <= hi) a ->
  0 <= h <= inject_Z (Nx - 1) ->
  lo <= interp_at ap Nx h <= hi.
Proof.
  intros Ha Hh. pose proof (Qfloor_bounds h (Nx - 1) Hh) as Hk.
  destruct (above_of_bounds _ Hk) as [Hab _].
  destruct (interp_at_bracket h Hh) as [H1 H2].
  assert (Hb : lo <= np_take ap (Qfloor h) <= hi)
    by (apply (np_take_sorted_range (fun v => lo <= v <= hi)); fold Nx; [exact Ha | lia]).
  assert (Hc : lo <= np_take ap (above_of (Qfloor h)) <= hi)
    by (apply (np_take_sorted_range (fun v => lo <= v <= hi)); fold Nx; [exact Ha | lia]).
  split; lra.
Qed.

End Interpolation.

Lemma virtual_index_bounds (n : nat) (q : Q) :
  (1 <= n)%nat -> 0 <= q <= 1 ->
  0 <= q * inject_Z (Z.of_nat n - 1) <= inject_Z (Z.of_nat n - 1).
Proof.
  intros Hn [H0 H1].
  assert (HN : 0 <= inject_Z (Z.of_nat n - 1))
    by (change 0 with (inject_Z 0); rewrite <- Zle_Qle; lia).
  split; nra.
Qed.

Lemma quantile_1d_mono (a : list Q) (q1 q2 : Q) :
  (1 <= length a)%nat -> 0 <= q1 -> q1 <= q2 -> q2 <= 1 ->
  quantile_1d a q1 <= quantile_1d a q2.
Proof.
  intros Hn H0 H12 H1. rewrite !quantile_1d_interp.
  assert (HN : 0 <= inject_Z (Z.of_nat (length a) - 1))
    by (change 0 with (inject_Z 0); rewrite <- Zle_Qle; lia).
  apply interp_at_mono; nra.
Qed.

Lemma quantile_1d_range (a : list Q) (lo hi q : Q) :
  (1 <= length a)%nat -> Forall (fun v => lo <= v <= hi) a -> 0 <= q <= 1 ->
  lo <= quantile_1d a q <= hi.
Proof.
  intros Hn Ha Hq. rewrite quantile_1d_interp.
  apply interp_at_range; [exact Ha | apply virtual_index_bounds; assumption].
Qed.

Lemma Qceiling_of_floor (h : Q) :
  (inject_Z (Qfloor h) == h /\ Qceiling h = Qfloor h) \/
  (inject_Z (Qfloor h) < h /\ Qceiling h = (Qfloor h + 1)%Z).
Proof.
  pose proof (Qfloor_le h) as Hfl. pose proof (Qlt_floor h) as Hlt.
  pose proof (Qle_ceiling h) as Hce. pose proof (Qceiling_lt h) as Hcl.
  destruct (Qlt_le_dec (inject_Z (Qfloor h)) h) as [Hs|Hs].
  - right. split; [exact Hs|].
    assert (H1 : (Qfloor h < Qceiling h)%Z) by (rewrite Zlt_Qlt; lra).
    assert (H2 : (Qceiling h - 1 < Qfloor h + 1)%Z) by (rewrite Zlt_Qlt; lra).
    lia.
  - left. assert (E : inject_Z (Qfloor h) == h) by lra. split; [exact E|].
    rewrite <- (Qceiling_comp _ _ E). apply Qceiling_Z.
Qed.

(** NumPy's linear method and the floor/ceiling wording agree on every
    non-empty column and every level in [[0, 1]]. *)
Lemma quantile_1d_spec (a : list Q) (q : Q) :
  (1 <= length a)%nat -> 0 <= q <= 1 ->
  quantile_1d a q == spec_quantile (np_sort a) q.
Proof.
  intros Hn Hq. unfold quantile_1d, spec_quantile. rewrite np_sort_length.
  set (Nx := Z.of_nat (length a)). set (h := q * inject_Z (Nx - 1)).
  cbv zeta. rewrite lerp_eq.
  pose proof (virtual_index_bounds _ _ Hn Hq) as Hh. fold Nx in Hh. fold h in Hh.
  destruct (Qceiling_of_floor h) as [[E Hc]|[Hs Hc]]; rewrite Hc.
  - assert (Hw : h - inject_Z (Qfloor h) == 0) by lra.
    rewrite Hw. ring.
  - assert (Hk : (Qfloor h < Nx - 1)%Z) by (rewrite Zlt_Qlt; lra).
    destruct (Z.gtb_spec (Qfloor h + 1) (Nx - 1)); [lia|]. ring.
Qed.

Lemma quantile_axis0_length (preds : Matrix) (S : nat) (q : Q) :
  length (quantile_axis0 preds S q) = S.
Proof. unfold quantile_axis0. rewrite length_map. apply length_seq. Qed.

Lemma quantile_axis0_nth (preds : Matrix) (S : nat) (q : Q) (i : nat) :
  (i < S)%nat ->
  nth i (quantile_axis0 preds S q) 0 = quantile_1d (column preds i) q.
Proof.
  intros Hi. unfold quantile_axis0.
  set (f := fun i => quantile_1d (column preds i) q).
  rewrite (nth_indep _ 0 (f O)) by (rewrite length_map, length_seq; exact Hi).
  rewrite map_nth. rewrite seq_nth by exact Hi. reflexivity.
Qed.

Lemma column_length (m : Matrix) (i : nat) : length (column m i) = length m.
Proof. apply length_map. Qed.

Lemma column_prob (m : Matrix) (i : nat) :
  Forall (Forall prob) m -> Forall prob (column m i).
Proof.
  intros H. unfold column. apply Forall_forall. intros v Hv.
  apply in_map_iff in Hv. destruct Hv as [row [<- Hrow]].
  rewrite Forall_forall in H. specialize (H row Hrow).
  destruct (Nat.lt_ge_cases i (length row)) as [Hi|Hi].
  - rewrite Forall_forall in H. apply H, nth_In, Hi.
  - rewrite nth_overflow by exact Hi. unfold prob. lra.
Qed.

(** ** The tail mass *)

Lemma tail_mass_bounds (c : Z) :
  (0 < c < 100)%Z -> 0 < tail_mass c /\ tail_mass c < 1 # 2.
Proof.
  intros [H0 H1]. unfold tail_mass.
  assert (Hc0 : 0 < inject_Z c) by (change 0 with (inject_Z 0); rewrite <- Zlt_Qlt; exact H0).
  assert (Hc1 : inject_Z c < 100) by (change 100 with (inject_Z 100); rewrite <- Zlt_Qlt; exact H1).
  assert (E : (1 - inject_Z c / 100) / 2 == (100 - inject_Z c) * (1 # 200)) by (field).
  rewrite E. split; lra.
Qed.

Lemma tail_mass_anti (c1 c2 : Z) :
  (c1 < c2)%Z -> tail_mass c2 < tail_mass c1.
Proof.
  intros H. unfold tail_mass.
  assert (Hc : inject_Z c1 < inject_Z c2) by (rewrite <- Zlt_Qlt; exact H).
  assert (E : forall x, (1 - x / 100) / 2 == (100 - x) * (1 # 200)) by (intros; field).
  rewrite !E. lra.
Qed.

(** ** Reasoning about the methods *)

Section MethodFacts.

Context {C : Calibrated}.

Lemma bind_Ok_inv {A B : Type} (m : M A) (f : A -> M B) (w w' : World) (b : B) :
  bind m f w = (Ok b, w') ->
  exists a w1, m w = (Ok a, w1) /\ f a w1 = (Ok b, w').
Proof.
  unfold bind. destruct (m w) as [[a|e|] w1]; intros H.
  - exists a, w1. split; [reflexivity | exact H].
  - discriminate.
  - discriminate.
Qed.

Lemma bind_Raise_inv {A B : Type} (m : M A) (f : A -> M B) (w w' : World) (e : exn) :
  bind m f w = (Raise e, w') ->
  m w = (Raise e, w') \/
  exists a w1, m w = (Ok a, w1) /\ f a w1 = (Raise e, w').
Proof.
  unfold bind. destruct (m w) as [[a|e0|] w1]; intros H.
  - right. exists a, w1. split; [reflexivity | exact H].
  - left. injection H as -> ->. reflexivity.
  - discriminate.
Qed.

Lemma read_only_ret {A : Type} (a : A) : read_only (ret a).
Proof. intros w. reflexivity. Qed.

Lemma read_only_raise {A : Type} (e : exn) : read_only (@raise _ A e).
Proof. intros w. reflexivity. Qed.

Lemma read_only_lift {A : Type} (r : Result A) : read_only (lift r).
Proof. intros w. reflexivity. Qed.

Lemma read_only_get_self : read_only get_self.
Proof. intros w. reflexivity. Qed.

Lemma read_only_bind {A B : Type} (m : M A) (f : A -> M B) :
  read_only m -> (forall a, read_only (f a)) -> read_only (bind m f).
Proof.
  intros Hm Hf w. unfold bind. specialize (Hm w).
  destruct (m w) as [[a|e|] w1]; simpl in Hm; subst w1.
  - apply Hf.
  - reflexivity.
  - reflexivity.
Qed.

Lemma read_only_get_attr {A : Type} (name : string) (proj : ModelBootstrap -> option A) :
  read_only (get_attr name proj).
Proof.
  unfold get_attr. apply read_only_bind; [apply read_only_get_self|].
  intros s. destruct (proj s); [apply read_only_ret | apply read_only_raise].
Qed.

Lemma read_only_fill_preds (X : Matrix) (ests : list CalibratedClassifierCV) :
  forall j preds, read_only (fill_preds X ests j preds).
Proof.
  induction ests as [|est rest IH]; intros j preds; simpl.
  - apply read_only_ret.
  - apply read_only_bind; [apply read_only_lift|]. intros p.
    apply read_only_bind; [apply read_only_lift|]. intros preds'. apply IH.
Qed.

Lemma read_only_predict (X0 : ArrayLike) (ci : PyVal) : read_only (predict X0 ci).
Proof.
  unfold predict. apply read_only_bind; [apply read_only_get_self|]. intros s.
  destruct (b_estimators s) as [|e0 es]; [apply read_only_raise|].
  destruct ci as [c| | | |]; try apply read_only_raise.
  destruct ((c <=? 0)%Z || (c >=? 100)%Z); [apply read_only_raise|].
  apply read_only_bind; [apply read_only_lift|]. intros preds.
  apply read_only_bind; [apply read_only_get_attr|]. intros obj.
  apply read_only_bind; [apply read_only_lift|]. intros y_pred.
  apply read_only_bind; [apply read_only_get_self|]. intros s'.
  apply read_only_bind; [apply read_only_fill_preds|]. intros preds'.
  apply read_only_ret.
Qed.

Lemma lift_inv {A : Type} (r x : Result A) (w w' : World) :
  lift r w = (x, w') -> r = x /\ w' = w.
Proof. unfold lift. intros H. injection H as -> ->. split; reflexivity. Qed.

Lemma replace_row_app (done todo : Matrix) (t row : list Q) :
  replace_row (done ++ t :: todo) (length done) row = done ++ row :: todo.
Proof.
  induction done as [|d done IH]; simpl; [reflexivity|]. rewrite IH. reflexivity.
Qed.

Lemma skipn_repeat_row (z : list Q) (n k : nat) :
  skipn k (repeat z n) = repeat z (n - k).
Proof.
  revert k. induction n as [|n IH]; intros [|k]; simpl; try reflexivity. apply IH.
Qed.

(** The member loop of [predict]: rows [0 .. len(b_estimators) - 1] receive the
    members' probability vectors, the other rows keep their zeros. *)
Lemma fill_preds_Ok (X : Matrix) (ests : list CalibratedClassifierCV) :
  forall (done todo preds' : Matrix) (w w' : World),
    fill_preds X ests (length done) (done ++ todo) w = (Ok preds', w') ->
    exists P : Matrix,
      Forall2 (fun est p => ccv_predict_proba est X = Ok p) ests P /\
      (length ests <= length todo)%nat /\
      preds' = done ++ P ++ skipn (length ests) todo.
Proof.
  induction ests as [|est rest IH]; intros done todo preds' w w' H; simpl in H.
  - injection H as <- _. exists []. split; [constructor|]. split; [simpl; lia|].
    reflexivity.
  - apply bind_Ok_inv in H. destruct H as [p [w1 [Hp H]]].
    apply lift_inv in Hp. destruct Hp as [Hp ->].
    apply bind_Ok_inv in H. destruct H as [preds1 [w2 [Hset H]]].
    apply lift_inv in Hset. destruct Hset as [Hset ->].
    unfold set_row in Hset.
    destruct (Nat.ltb_spec (length done) (length (done ++ todo))) as [Hlt|Hge];
      [|discriminate].
    rewrite length_app in Hlt. destruct todo as [|t todo]; [simpl in Hlt; lia|].
    rewrite replace_row_app in Hset. injection Hset as <-.
    assert (E : done ++ p :: todo = (done ++ [p]) ++ todo)
      by (rewrite <- app_assoc; reflexivity).
    assert (El : S (length done) = length (done ++ [p]))
      by (rewrite length_app; simpl; lia).
    rewrite E, El in H. apply IH in H. destruct H as [P [HP [Hlen ->]]].
    exists (p :: P). split; [constructor; assumption|]. split; [simpl; lia|].
    rewrite <- app_assoc. reflexivity.
Qed.

Lemma predict_Ok_inv (X0 : ArrayLike) (ci : PyVal) (w w' : World)
    (y_pred lo up : list Q) :
  predict X0 ci w = (Ok (y_pred, lo, up), w') ->
  exists (c : Z) (obj : CalibratedClassifierCV) (P : Matrix),
    ci = PyInt c /\ (0 < c < 100)%Z /\
    b_estimators (self w) <> [] /\
    calibrated_estimator (self w) = Some obj /\
    ccv_predict_proba obj (to_numpy X0) = Ok y_pred /\
    Forall2 (fun est p => ccv_predict_proba est (to_numpy X0) = Ok p)
            (b_estimators (self w)) P /\
    (length (b_estimators (self w)) <= Z.to_nat (n_boot (self w)))%nat /\
    lo = quantile_axis0 (stacked (self w) (length (to_numpy X0)) P)
                        (length (to_numpy X0)) (tail_mass c) /\
    up = quantile_axis0 (stacked (self w) (length (to_numpy X0)) P)
                        (length (to_numpy X0)) (1 - tail_mass c).
Proof.
  intros H. unfold predict in H.
  apply bind_Ok_inv in H. destruct H as [s [w1 [Hs H]]].
  unfold get_self in Hs. injection Hs as <- <-.
  destruct (b_estimators (self w)) as [|e0 es] eqn:Hb; [discriminate|].
  destruct ci as [c| | | |]; try discriminate.
  destruct (Z.leb_spec c 0) as [Hc0|Hc0]; [discriminate|].
  destruct (Z.geb_spec c 100) as [Hc1|Hc1]; [discriminate|]. simpl in H.
  apply bind_Ok_inv in H. destruct H as [preds [w1 [Hz H]]].
  apply lift_inv in Hz. destruct Hz as [Hz ->].
  unfold np_zeros in Hz. destruct (Z.ltb_spec (n_boot (self w)) 0); [discriminate|].
  injection Hz as <-.
  apply bind_Ok_inv in H. destruct H as [obj [w1 [Ho H]]].
  unfold get_attr in Ho. apply bind_Ok_inv in Ho. destruct Ho as [s1 [w2 [Hs1 Ho]]].
  unfold get_self in Hs1. injection Hs1 as <- <-.
  destruct (calibrated_estimator (self w)) as [obj0|] eqn:Hce; [|discriminate].
  injection Ho as -> <-.
  apply bind_Ok_inv in H. destruct H as [yp [w1 [Hy H]]].
  apply lift_inv in Hy. destruct Hy as [Hy ->].
  apply bind_Ok_inv in H. destruct H as [s2 [w1 [Hs2 H]]].
  unfold get_self in Hs2. injection Hs2 as <- <-.
  apply bind_Ok_inv in H. destruct H as [preds' [w1 [Hf H]]].
  apply (fill_preds_Ok _ _ []) in Hf. destruct Hf as [P [HP [Hlen ->]]].
  injection H as <- <- <- _.
  rewrite repeat_length in Hlen. rewrite skipn_repeat_row. simpl app.
  assert (Hne : b_estimators (self w) <> []) by (rewrite Hb; discriminate).
  exists c, obj, P.
  rewrite <- Hb.
  repeat (split; [first [assumption | lia | reflexivity]|]). reflexivity.
Qed.

End MethodFacts.

(** ** The intervals of [predict] *)

Section PredictFacts.

Context {C : Calibrated}.

Lemma ccv_predict_proba_Ok (obj : CalibratedClassifierCV) (X : Matrix) (p : list Q) :
  ccv_predict_proba obj X = Ok p -> length p = length X /\ Forall prob p.
Proof.
  unfold ccv_predict_proba. intros H.
  destruct (fitted obj) as [m|].
  - destruct (sk_predict_proba m X) as [name|width| |p'] eqn:Hp; try discriminate.
    injection H as ->. split.
    + eapply sk_proba_shape, Hp.
    + eapply sk_proba_range, Hp.
  - destruct (leftover obj) as [d|]; [|discriminate].
    destruct (sk_leftover_proba d X) as [name|width| |p'] eqn:Hp; try discriminate.
    injection H as ->. split.
    + eapply sk_leftover_shape, Hp.
    + eapply sk_leftover_range, Hp.
Qed.

Lemma member_probas_prob (X : Matrix) (ests : list CalibratedClassifierCV) (P : Matrix) :
  Forall2 (fun est p => ccv_predict_proba est X = Ok p) ests P ->
  Forall (Forall prob) P.
Proof.
  induction 1 as [|est p ests P Hp _ IH]; constructor; [|exact IH].
  apply (ccv_predict_proba_Ok _ _ _ Hp).
Qed.

Lemma member_probas_functional (X : Matrix) (ests : list CalibratedClassifierCV)
    (P1 P2 : Matrix) :
  Forall2 (fun est p => ccv_predict_proba est X = Ok p) ests P1 ->
  Forall2 (fun est p => ccv_predict_proba est X = Ok p) ests P2 ->
  P1 = P2.
Proof.
  intros H1. revert P2. induction H1 as [|est p ests P Hp _ IH]; intros P2 H2.
  - inversion H2. reflexivity.
  - inversion H2 as [|est' p' ests' P' Hp' H2']; subst.
    rewrite Hp in Hp'. injection Hp' as <-. f_equal. apply IH, H2'.
Qed.

Lemma stacked_length (s : ModelBootstrap) (cols : nat) (P : Matrix) :
  length P = length (b_estimators s) ->
  (length (b_estimators s) <= Z.to_nat (n_boot s))%nat ->
  length (stacked s cols P) = Z.to_nat (n_boot s).
Proof.
  intros HP Hle. unfold stacked. rewrite length_app, repeat_length. lia.
Qed.

Lemma stacked_prob (s : ModelBootstrap) (cols : nat) (P : Matrix) :
  Forall (Forall prob) P -> Forall (Forall prob) (stacked s cols P).
Proof.
  intros HP. unfold stacked. apply Forall_app. split; [exact HP|].
  apply Forall_forall. intros row Hrow. apply repeat_spec in Hrow. subst row.
  apply Forall_forall. intros v Hv. apply repeat_spec in Hv. subst v.
  unfold prob. lra.
Qed.

Lemma stacked_full (s : ModelBootstrap) (cols : nat) (P : Matrix) :
  length (b_estimators s) = Z.to_nat (n_boot s) -> stacked s cols P = P.
Proof.
  intros H. unfold stacked. rewrite H, Nat.sub_diag. apply app_nil_r.
Qed.

(** What every returned triple is made of: a non-empty matrix of
    probabilities whose column quantiles at [alpha] and [1 - alpha] are the
    bounds. *)
Lemma predict_Ok_columns (X0 : ArrayLike) (ci : PyVal) (w w' : World)
    (y_pred lo up : list Q) :
  predict X0 ci w = (Ok (y_pred, lo, up), w') ->
  exists (c : Z) (preds : Matrix),
    ci = PyInt c /\ (0 < c < 100)%Z /\
    (1 <= length preds)%nat /\ Forall (Forall prob) preds /\
    lo = quantile_axis0 preds (length (to_numpy X0)) (tail_mass c) /\
    up = quantile_axis0 preds (length (to_numpy X0)) (1 - tail_mass c).
Proof.
  intros H. apply predict_Ok_inv in H.
  destruct H as [c [obj [P [-> [Hc [Hne [_ [_ [HP [Hle [-> ->]]]]]]]]]]].
  exists c, (stacked (self w) (length (to_numpy X0)) P).
  repeat (split; [first [reflexivity | lia]|]). split; [|split; [|split; reflexivity]].
  - rewrite stacked_length; [| symmetry; apply (Forall2_length HP) | exact Hle].
    destruct (b_estimators (self w)); [contradiction | simpl in Hle; lia].
  - apply stacked_prob. eapply member_probas_prob, HP.
Qed.

Lemma fill_preds_returns (X : Matrix) (ests : list CalibratedClassifierCV) :
  forall (P done todo : Matrix) (w : World),
    Forall2 (fun est p => ccv_predict_proba est X = Ok p) ests P ->
    (length ests <= length todo)%nat ->
    fill_preds X ests (length done) (done ++ todo) w
    = (Ok (done ++ P ++ skipn (length ests) todo), w).
Proof.
  induction ests as [|est rest IH]; intros P done todo w HP Hlen;
    inversion HP as [|? p ? P' Hp HP']; subst; cbn [fill_preds].
  - reflexivity.
  - destruct todo as [|t todo]; [simpl in Hlen; lia|].
    unfold bind at 1. unfold lift at 1. rewrite Hp.
    unfold bind at 1. unfold lift at 1. unfold set_row.
    destruct (Nat.ltb_spec (length done) (length (done ++ t :: todo))) as [_|Hge];
      [|rewrite length_app in Hge; simpl in Hge; lia].
    rewrite replace_row_app.
    assert (E : done ++ p :: todo = (done ++ [p]) ++ todo)
      by (rewrite <- app_assoc; reflexivity).
    assert (El : S (length done) = length (done ++ [p]))
      by (rewrite length_app; simpl; lia).
    rewrite E, El, (IH P' (done ++ [p]) todo w HP') by (simpl in Hlen; lia).
    rewrite <- app_assoc. reflexivity.
Qed.

(** [predict] does return on an estimator with members, enough rows in
    [preds] for them, a point model and members that all answer, and a valid
    [ci]. *)
Lemma predict_returns (X0 : ArrayLike) (c : Z) (w : World)
    (obj : CalibratedClassifierCV) (y_pred : list Q) (P : Matrix) :
  (0 < c < 100)%Z ->
  b_estimators (self w) <> [] ->
  (length (b_estimators (self w)) <= Z.to_nat (n_boot (self w)))%nat ->
  calibrated_estimator (self w) = Some obj ->
  ccv_predict_proba obj (to_numpy X0) = Ok y_pred ->
  Forall2 (fun est p => ccv_predict_proba est (to_numpy X0) = Ok p)
          (b_estimators (self w)) P ->
  predict X0 (PyInt c) w
  = (Ok (y_pred,
         quantile_axis0 (stacked (self w) (length (to_numpy X0)) P)
                        (length (to_numpy X0)) (tail_mass c),
         quantile_axis0 (stacked (self w) (length (to_numpy X0)) P)
                        (length (to_numpy X0)) (1 - tail_mass c)), w).
Proof.
  intros Hc Hne Hle Hobj Hy HP. unfold predict. unfold bind at 1. unfold get_self at 1.
  destruct (b_estimators (self w)) as [|e0 es] eqn:Hb; [contradiction|].
  destruct (Z.leb_spec c 0); [lia|]. destruct (Z.geb_spec c 100); [lia|].
  cbn [orb]. unfold bind at 1. unfold lift at 1. unfold np_zeros.
  destruct (Z.ltb_spec (n_boot (self w)) 0); [simpl in Hle; lia|].
  unfold bind at 1. unfold get_attr. unfold bind at 1. unfold get_self at 1.
  rewrite Hobj. unfold ret at 1. unfold bind at 1. unfold lift at 1. rewrite Hy.
  unfold bind at 1. unfold get_self at 1. unfold bind at 1. rewrite Hb.
  assert (Hrows : (length (e0 :: es)
                   <= length (repeat (repeat 0%Q (length (to_numpy X0)))
                                     (Z.to_nat (n_boot (self w)))))%nat)
    by (rewrite repeat_length; exact Hle).
  pose proof (fill_preds_returns (to_numpy X0) _ P [] _ w HP Hrows) as Hf.
  cbn [length app] in Hf. cbn [length]. rewrite Hf.
  unfold ret. rewrite skipn_repeat_row. unfold stacked. rewrite Hb. reflexivity.
Qed.

End PredictFacts.

Section PredictTheorems.

Context {C : Calibrated}.

(** C7: whenever [predict] returns for an integer confidence level [c], the
    estimator holds at least one member ([n_boot >= 1]), the level lies in
    1..99, the tail mass [alpha] satisfies [0 < alpha < 1/2], and for every
    sample [i] the lower bound (the [alpha]-quantile of its column) does not
    exceed the upper bound (the [(1 - alpha)]-quantile of the same column). *)
Theorem predict_lower_le_upper (X0 : ArrayLike) (c : Z) (w w' : World)
    (y_pred lo up : list Q) :
  predict X0 (PyInt c) w = (Ok (y_pred, lo, up), w') ->
  b_estimators (self w) <> [] /\ (1 <= n_boot (self w))%Z /\
  (1 <= c <= 99)%Z /\
  0 < tail_mass c /\ tail_mass c < 1 # 2 /\
  length lo = length (to_numpy X0) /\ length up = length (to_numpy X0) /\
  forall i, (i < length (to_numpy X0))%nat -> nth i lo 0 <= nth i up 0.
Proof.
  intros H. pose proof (predict_Ok_inv _ _ _ _ _ _ _ H) as Hinv.
  destruct Hinv as [_ [_ [_ [_ [_ [Hne [_ [_ [_ [Hle _]]]]]]]]]].
  apply predict_Ok_columns in H.
  destruct H as [c' [preds [E [Hc [Hn [_ [-> ->]]]]]]]. injection E as <-.
  destruct (tail_mass_bounds c Hc) as [Ha0 Ha1].
  split; [exact Hne|]. split.
  { destruct (b_estimators (self w)); [contradiction | simpl in Hle; lia]. }
  split; [lia|]. split; [exact Ha0|]. split; [exact Ha1|].
  rewrite !quantile_axis0_length. split; [reflexivity|]. split; [reflexivity|].
  intros i Hi. rewrite !quantile_axis0_nth by exact Hi.
  apply quantile_1d_mono; [rewrite column_length; exact Hn | lra | lra | lra].
Qed.

(** C6: for one estimator state and one feature matrix, raising the
    confidence level from [c1] to [c2 > c1] never narrows the interval of any
    sample: [upper - lower] at [c2] is at least [upper - lower] at [c1]. *)
Theorem predict_interval_monotone (X0 : ArrayLike) (c1 c2 : Z) (w w1 w2 : World)
    (y1 lo1 up1 y2 lo2 up2 : list Q) :
  (c1 < c2)%Z ->
  predict X0 (PyInt c1) w = (Ok (y1, lo1, up1), w1) ->
  predict X0 (PyInt c2) w = (Ok (y2, lo2, up2), w2) ->
  forall i, (i < length (to_numpy X0))%nat ->
    nth i up1 0 - nth i lo1 0 <= nth i up2 0 - nth i lo2 0.
Proof.
  intros Hlt H1 H2 i Hi.
  apply predict_Ok_inv in H1.
  destruct H1 as [c1' [_ [P1 [E1 [Hc1 [Hne [_ [_ [HP1 [Hle [-> ->]]]]]]]]]]].
  apply predict_Ok_inv in H2.
  destruct H2 as [c2' [_ [P2 [E2 [Hc2 [_ [_ [_ [HP2 [_ [-> ->]]]]]]]]]]].
  injection E1 as <-. injection E2 as <-.
  rewrite (member_probas_functional _ _ _ _ HP2 HP1).
  rewrite !quantile_axis0_nth by exact Hi.
  set (col := column (stacked (self w) (length (to_numpy X0)) P1) i).
  assert (Hn : (1 <= length col)%nat).
  { unfold col. rewrite column_length.
    rewrite stacked_length; [| symmetry; apply (Forall2_length HP1) | exact Hle].
    destruct (b_estimators (self w)); [contradiction | simpl in Hle; lia]. }
  pose proof (tail_mass_anti c1 c2 Hlt) as Ha.
  destruct (tail_mass_bounds c1 Hc1) as [_ Ha1].
  destruct (tail_mass_bounds c2 Hc2) as [Ha2 _].
  assert (Hlo : quantile_1d col (tail_mass c2) <= quantile_1d col (tail_mass c1))
    by (apply quantile_1d_mono; [exact Hn | lra | lra | lra]).
  assert (Hup : quantile_1d col (1 - tail_mass c1) <= quantile_1d col (1 - tail_mass c2))
    by (apply quantile_1d_mono; [exact Hn | lra | lra | lra]).
  lra.
Qed.

(** C1 (amended): every triple returned by [predict] has one entry per input
    row in each component; the point estimate is the probability vector of the
    full-data calibrated model and the bounds are the column quantiles, at the
    tail mass and at its complement, of the matrix that stacks the members'
    probability vectors; for every sample [i] the point, the lower and the
    upper value lie in [[0, 1]] and [lower[i] <= upper[i]]. Nothing is said
    about the position of the point estimate relative to the bounds. *)
Theorem predict_triple_in_unit_interval (X0 : ArrayLike) (ci : PyVal) (w w' : World)
    (y_pred lo up : list Q) :
  predict X0 ci w = (Ok (y_pred, lo, up), w') ->
  (exists obj, calibrated_estimator (self w) = Some obj /\
               ccv_predict_proba obj (to_numpy X0) = Ok y_pred) /\
  (exists c P,
     ci = PyInt c /\
     Forall2 (fun est p => ccv_predict_proba est (to_numpy X0) = Ok p)
             (b_estimators (self w)) P /\
     lo = quantile_axis0 (stacked (self w) (length (to_numpy X0)) P)
                         (length (to_numpy X0)) (tail_mass c) /\
     up = quantile_axis0 (stacked (self w) (length (to_numpy X0)) P)
                         (length (to_numpy X0)) (1 - tail_mass c)) /\
  length y_pred = length (to_numpy X0) /\
  length lo = length (to_numpy X0) /\
  length up = length (to_numpy X0) /\
  forall i, (i < length (to_numpy X0))%nat ->
    prob (nth i y_pred 0) /\ prob (nth i lo 0) /\ prob (nth i up 0) /\
    nth i lo 0 <= nth i up 0.
Proof.
  intros H. pose proof (predict_Ok_inv _ _ _ _ _ _ _ H) as Hinv.
  destruct Hinv as [c [obj [P [Hci [_ [_ [Hobj [Hy [HP [_ [Hlo Hup]]]]]]]]]]].
  apply predict_Ok_columns in H.
  destruct H as [c' [preds [-> [Hc [Hn [Hpr [-> ->]]]]]]].
  destruct (ccv_predict_proba_Ok _ _ _ Hy) as [Hlen Hrange].
  destruct (tail_mass_bounds c' Hc) as [Ha0 Ha1].
  split; [exists obj; split; assumption|].
  split; [exists c, P; repeat split; assumption|]. split; [exact Hlen|].
  rewrite !quantile_axis0_length. split; [reflexivity|]. split; [reflexivity|].
  intros i Hi. rewrite !quantile_axis0_nth by exact Hi.
  assert (Hcol : Forall (fun v => 0 <= v <= 1) (column preds i))
    by (apply column_prob, Hpr).
  assert (Hcn : (1 <= length (column preds i))%nat)
    by (rewrite column_length; exact Hn).
  split; [|split; [|split]].
  - rewrite Forall_forall in Hrange. apply Hrange, nth_In. lia.
  - apply quantile_1d_range; [exact Hcn | exact Hcol | split; lra].
  - apply quantile_1d_range; [exact Hcn | exact Hcol | split; lra].
  - apply quantile_1d_mono; [exact Hcn | lra | lra | lra].
Qed.

(** C3: when [predict] returns for the integer level [c] on an estimator
    holding exactly [n_boot] members, then [0 < c < 100] and, with
    [alpha = (1 - c/100) / 2], the lower and upper bound of every sample [i]
    are the [alpha]- and [(1 - alpha)]-quantile, in the floor/ceiling
    interpolation between order statistics, of the [n_boot] probabilities the
    members give to sample [i]. *)
Theorem predict_bounds_are_interpolated_quantiles (X0 : ArrayLike) (c : Z)
    (w w' : World) (y_pred lo up : list Q) :
  predict X0 (PyInt c) w = (Ok (y_pred, lo, up), w') ->
  Z.of_nat (length (b_estimators (self w))) = n_boot (self w) ->
  (0 < c < 100)%Z /\
  exists P : Matrix,
    Forall2 (fun est p => ccv_predict_proba est (to_numpy X0) = Ok p)
            (b_estimators (self w)) P /\
    forall i, (i < length (to_numpy X0))%nat ->
      length (column P i) = Z.to_nat (n_boot (self w)) /\
      nth i lo 0 == spec_quantile (np_sort (column P i)) ((1 - inject_Z c / 100) / 2) /\
      nth i up 0 == spec_quantile (np_sort (column P i)) (1 - (1 - inject_Z c / 100) / 2).
Proof.
  intros H Hfull. apply predict_Ok_inv in H.
  destruct H as [c' [_ [P [E [Hc [Hne [_ [_ [HP [Hle [-> ->]]]]]]]]]]].
  injection E as <-. split; [exact Hc|]. exists P. split; [exact HP|].
  intros i Hi. rewrite !quantile_axis0_nth by exact Hi.
  rewrite stacked_full by lia.
  assert (Hlen : length (column P i) = Z.to_nat (n_boot (self w)))
    by (rewrite column_length, <- (Forall2_length HP); lia).
  assert (Hn : (1 <= length (column P i))%nat).
  { rewrite Hlen. destruct (b_estimators (self w)); [contradiction | simpl in Hle; lia]. }
  destruct (tail_mass_bounds c Hc) as [Ha0 Ha1]. fold (tail_mass c).
  split; [exact Hlen|]. split; apply quantile_1d_spec; try exact Hn; split; lra.
Qed.

(** C10: [predict] never writes: whatever it returns or raises, the estimator
    (base estimator, [n_boot], bootstrap members, point model, stored
    [boot_size] and [calibration_cv]) and the generator are as before. *)
Theorem predict_leaves_state_unchanged (X0 : ArrayLike) (ci : PyVal) (w : World) :
  snd (predict X0 ci w) = w /\
  estimator (self (snd (predict X0 ci w))) = estimator (self w) /\
  n_boot (self (snd (predict X0 ci w))) = n_boot (self w) /\
  b_estimators (self (snd (predict X0 ci w))) = b_estimators (self w) /\
  calibrated_estimator (self (snd (predict X0 ci w))) = calibrated_estimator (self w) /\
  boot_size (self (snd (predict X0 ci w))) = boot_size (self w) /\
  calibration_cv (self (snd (predict X0 ci w))) = calibration_cv (self w).
Proof.
  rewrite (read_only_predict X0 ci w). repeat split; reflexivity.
Qed.

End PredictTheorems.

(** ** Which exceptions a method can raise *)

Section Exceptions.

Context {C : Calibrated}.

Lemma raises_only_ret {A : Type} (P : exn -> Prop) (a : A) : raises_only P (ret a).
Proof. intros w e w' H. discriminate. Qed.

Lemma raises_only_get_self (P : exn -> Prop) : raises_only P get_self.
Proof. intros w e w' H. discriminate. Qed.

Lemma raises_only_modify_self (P : exn -> Prop) (f : ModelBootstrap -> ModelBootstrap) :
  raises_only P (modify_self f).
Proof. intros w e w' H. discriminate. Qed.

Lemma raises_only_raise {A : Type} (P : exn -> Prop) (e : exn) :
  P e -> raises_only P (@raise _ A e).
Proof. intros HP w e' w' H. injection H as <- _. exact HP. Qed.

Lemma raises_only_lift {A : Type} (P : exn -> Prop) (r : Result A) :
  (forall e, r = Raise e -> P e) -> raises_only P (lift r).
Proof. intros HP w e w' H. apply lift_inv in H. apply HP, H. Qed.

Lemma raises_only_bind {A B : Type} (P : exn -> Prop) (m : M A) (f : A -> M B) :
  raises_only P m -> (forall a, raises_only P (f a)) -> raises_only P (bind m f).
Proof.
  intros Hm Hf w e w' H. apply bind_Raise_inv in H.
  destruct H as [H|[a [w1 [_ H]]]]; [eapply Hm, H | eapply Hf, H].
Qed.

Lemma raises_only_get_attr {A : Type} (P : exn -> Prop) (name : string)
    (proj : ModelBootstrap -> option A) :
  P (AttributeError name) -> raises_only P (get_attr name proj).
Proof.
  intros HP. unfold get_attr. apply raises_only_bind; [apply raises_only_get_self|].
  intros s. destruct (proj s); [apply raises_only_ret | apply raises_only_raise, HP].
Qed.

Lemma take_column1_not_warning (o : Column1) (e : exn) :
  take_column1 o = Raise e -> not_warning e.
Proof.
  destruct o; cbn [take_column1]; intros H msg; try discriminate;
    injection H as <-; discriminate.
Qed.

Lemma ccv_predict_proba_not_warning (obj : CalibratedClassifierCV) (X : Matrix) (e : exn) :
  ccv_predict_proba obj X = Raise e -> not_warning e.
Proof.
  unfold ccv_predict_proba. destruct (fitted obj).
  - apply take_column1_not_warning.
  - destruct (leftover obj) as [d|].
    + apply take_column1_not_warning.
    + intros H msg. injection H as <-. discriminate.
Qed.

Lemma ccv_fit_not_warning (obj : CalibratedClassifierCV) (X : Matrix) (y : Labels) (e : exn) :
  ccv_fit obj X y = Raise e -> not_warning e.
Proof.
  unfold ccv_fit.
  destruct (sk_fit (base_estimator obj) (cv obj) X y); [|discriminate].
  intros H msg. injection H as <-. discriminate.
Qed.

Lemma np_zeros_not_warning (rows : Z) (cols : nat) (e : exn) :
  np_zeros rows cols = Raise e -> not_warning e.
Proof.
  unfold np_zeros. destruct (rows <? 0)%Z; [|discriminate].
  intros H msg. injection H as <-. discriminate.
Qed.

Lemma set_row_not_warning (preds : Matrix) (j : nat) (row : list Q) (e : exn) :
  set_row preds j row = Raise e -> not_warning e.
Proof.
  unfold set_row. destruct (j <? length preds)%nat; [discriminate|].
  intros H msg. injection H as <-. discriminate.
Qed.

Lemma take_rows_not_warning {A : Type} (x : list A) (b_idx : list nat) (e : exn) :
  take_rows x b_idx = Raise e -> not_warning e.
Proof.
  induction b_idx as [|i rest IH]; simpl; [discriminate|].
  destruct (nth_error x i); [|intros H msg; injection H as <-; discriminate].
  destruct (take_rows x rest); [discriminate| |discriminate].
  intros H. injection H as <-. apply IH. reflexivity.
Qed.

Lemma random_choice_not_warning (a : nat) (size : Z) :
  raises_only not_warning (random_choice a size).
Proof.
  intros w e w' H. unfold random_choice in H.
  destruct ((a =? 0)%nat && negb (size =? 0)%Z);
    [injection H as <- _; intros msg; discriminate|].
  destruct (size <? 0)%Z; [injection H as <- _; intros msg; discriminate|].
  destruct (draws a (Z.to_nat size) (np_random w)). discriminate.
Qed.

Lemma fill_preds_not_warning (X : Matrix) (ests : list CalibratedClassifierCV) :
  forall j preds, raises_only not_warning (fill_preds X ests j preds).
Proof.
  induction ests as [|est rest IH]; intros j preds; simpl.
  - apply raises_only_ret.
  - apply raises_only_bind;
      [apply raises_only_lift, ccv_predict_proba_not_warning|]. intros p.
    apply raises_only_bind; [apply raises_only_lift, set_row_not_warning|].
    intros preds'. apply IH.
Qed.

End Exceptions.

(** ** Validation in [predict] *)

Section Validation.

Context {C : Calibrated}.

Lemma predict_not_fitted (X0 : ArrayLike) (ci : PyVal) (w : World) :
  b_estimators (self w) = [] ->
  predict X0 ci w = (Raise (Warning not_fitted_msg), w).
Proof.
  intros Hb. unfold predict, bind, get_self. rewrite Hb. reflexivity.
Qed.

Lemma predict_invalid_ci (X0 : ArrayLike) (ci : PyVal) (w : World) :
  b_estimators (self w) <> [] -> ~ valid_ci ci ->
  predict X0 ci w = (Raise (Warning ci_msg), w).
Proof.
  intros Hb Hci. unfold predict, bind, get_self.
  destruct (b_estimators (self w)) as [|e0 es]; [contradiction|].
  destruct ci as [c| | | |]; try reflexivity.
  destruct (Z.leb_spec c 0); [reflexivity|].
  destruct (Z.geb_spec c 100); [reflexivity|].
  exfalso. apply Hci. exists c. split; [reflexivity | lia].
Qed.

Lemma predict_valid_no_warning (X0 : ArrayLike) (ci : PyVal) (w : World) :
  b_estimators (self w) <> [] -> valid_ci ci ->
  forall msg, fst (predict X0 ci w) <> Raise (Warning msg).
Proof.
  intros Hb [c [-> Hc]] msg. unfold predict. unfold bind at 1. unfold get_self at 1.
  destruct (b_estimators (self w)) as [|e0 es] eqn:Hbe; [contradiction|].
  destruct (Z.leb_spec c 0); [lia|]. destruct (Z.geb_spec c 100); [lia|].
  cbv beta iota. simpl orb. cbv iota.
  match goal with |- fst (?m w) <> _ => assert (Hm : raises_only not_warning m) end.
  { apply raises_only_bind; [apply raises_only_lift, np_zeros_not_warning|]. intros preds.
    apply raises_only_bind; [apply raises_only_get_attr; intros m; discriminate|].
    intros obj.
    apply raises_only_bind;
      [apply raises_only_lift, ccv_predict_proba_not_warning|]. intros y_pred.
    apply raises_only_bind; [apply raises_only_get_self|]. intros s'.
    apply raises_only_bind; [apply fill_preds_not_warning|]. intros preds'.
    apply raises_only_ret. }
  match goal with |- fst (?m w) <> _ => destruct (m w) as [r w1] eqn:E end.
  simpl. intros ->. apply Hm in E. apply (E msg). reflexivity.
Qed.

(** C8 (amended): [predict] raises the not-fitted warning exactly when the
    list of bootstrap members is empty; it raises the invalid-argument warning
    exactly when that list is non-empty and [ci] is not an integer strictly
    between 0 and 100 (so [ci = 100] is rejected on an estimator with
    members); with a non-empty member list and a valid [ci] no warning of the
    class is raised. The not-fitted check comes first. *)
Theorem predict_validation (X0 : ArrayLike) (ci : PyVal) (w : World) :
  (fst (predict X0 ci w) = Raise (Warning not_fitted_msg)
     <-> b_estimators (self w) = []) /\
  (fst (predict X0 ci w) = Raise (Warning ci_msg)
     <-> b_estimators (self w) <> [] /\ ~ valid_ci ci) /\
  (b_estimators (self w) <> [] -> ~ valid_ci (PyInt 100) /\
     fst (predict X0 (PyInt 100) w) = Raise (Warning ci_msg)) /\
  (b_estimators (self w) <> [] -> valid_ci ci ->
     forall msg, fst (predict X0 ci w) <> Raise (Warning msg)).
Proof.
  assert (Hdec : b_estimators (self w) = [] \/ b_estimators (self w) <> [])
    by (destruct (b_estimators (self w)); [left; reflexivity | right; discriminate]).
  assert (Hci : valid_ci ci \/ ~ valid_ci ci).
  { destruct ci as [c| | | |];
      try (right; intros [c' [E _]]; discriminate).
    destruct (Z_lt_dec 0 c) as [H0|H0]; [destruct (Z_lt_dec c 100) as [H1|H1]|].
    - left. exists c. split; [reflexivity | lia].
    - right. intros [c' [E Hc']]. injection E as <-. lia.
    - right. intros [c' [E Hc']]. injection E as <-. lia. }
  assert (H100 : ~ valid_ci (PyInt 100))
    by (intros [c' [E Hc']]; injection E as <-; lia).
  split; [|split; [|split]].
  - split; [|intros Hb; rewrite predict_not_fitted by exact Hb; reflexivity].
    intros H. destruct Hdec as [Hb|Hb]; [exact Hb|]. exfalso.
    destruct Hci as [Hv|Hv].
    + apply (predict_valid_no_warning X0 ci w Hb Hv _ H).
    + rewrite predict_invalid_ci in H by assumption. discriminate.
  - split.
    + intros H. destruct Hdec as [Hb|Hb].
      * rewrite predict_not_fitted in H by exact Hb. discriminate.
      * split; [exact Hb|]. intros Hv.
        apply (predict_valid_no_warning X0 ci w Hb Hv _ H).
    + intros [Hb Hv]. rewrite predict_invalid_ci by assumption. reflexivity.
  - intros Hb. split; [exact H100|].
    rewrite predict_invalid_ci by assumption. reflexivity.
  - apply predict_valid_no_warning.
Qed.

End Validation.

(** ** Resampling *)

Lemma draws_spec (a k : nat) :
  forall g,
    draws a k g =
    (map (fun j => (entropy g (consumed g + j) mod a)%nat) (seq 0 k),
     mkRandomState (entropy g) (consumed g + k)).
Proof.
  induction k as [|k IH]; intros g.
  - simpl. rewrite Nat.add_0_r. destruct g; reflexivity.
  - cbn [draws]. unfold randint. rewrite IH. cbn [entropy consumed].
    rewrite <- Nat.add_succ_comm. f_equal.
    cbn [seq map]. rewrite Nat.add_0_r. f_equal.
    rewrite <- seq_shift, map_map. apply map_ext. intros j.
    rewrite Nat.add_succ_comm. reflexivity.
Qed.

Lemma draws_length (a k : nat) (g : RandomState) : length (fst (draws a k g)) = k.
Proof. rewrite draws_spec. simpl. rewrite length_map. apply length_seq. Qed.

Lemma draws_in_range (a k : nat) (g : RandomState) :
  (0 < a)%nat -> Forall (fun i => (i < a)%nat) (fst (draws a k g)).
Proof.
  intros Ha. rewrite draws_spec. simpl. apply Forall_forall. intros i Hi.
  apply in_map_iff in Hi. destruct Hi as [j [<- _]]. apply Nat.mod_upper_bound. lia.
Qed.

(** Sampling is with replacement: every index vector over [[0, a)], repeated
    indices included, is the outcome for some state of the generator. *)
Lemma draws_any_vector (a : nat) (b_idx : list nat) :
  Forall (fun i => (i < a)%nat) b_idx ->
  fst (draws a (length b_idx) (replaying b_idx)) = b_idx.
Proof.
  intros H. unfold replaying. rewrite draws_spec. cbn [fst entropy consumed].
  apply (nth_ext _ _ O O); [rewrite length_map; apply length_seq|].
  intros n Hn. rewrite length_map, length_seq in Hn.
  rewrite (nth_indep _ O ((fun j => (nth (0 + j) b_idx O mod a)%nat) O))
    by (rewrite length_map, length_seq; exact Hn).
  rewrite (map_nth (fun j => (nth (0 + j) b_idx O mod a)%nat)).
  rewrite seq_nth by exact Hn. cbn [Nat.add]. apply Nat.mod_small.
  rewrite Forall_forall in H. apply H, nth_In, Hn.
Qed.

Lemma in_index_vectors (a k : nat) :
  forall v, In v (index_vectors a k) <->
            length v = k /\ Forall (fun i => (i < a)%nat) v.
Proof.
  induction k as [|k IH]; intros v; cbn [index_vectors].
  - split.
    + intros [<-|[]]. split; [reflexivity | constructor].
    + intros [Hl _]. left. symmetry. apply length_zero_iff_nil, Hl.
  - rewrite in_flat_map. split.
    + intros [i [Hi Hv]]. apply in_seq in Hi. apply in_map_iff in Hv.
      destruct Hv as [t [<- Ht]]. apply IH in Ht. destruct Ht as [Hl Hf].
      split; [simpl; lia | constructor; [lia | exact Hf]].
    + intros [Hl Hf]. destruct v as [|i t]; [discriminate|].
      inversion Hf as [|? ? Hi Ht]; subst. exists i. split; [apply in_seq; lia|].
      apply in_map, IH. split; [simpl in Hl; lia | exact Ht].
Qed.

Lemma NoDup_index_vectors (a k : nat) : NoDup (index_vectors a k).
Proof.
  induction k as [|k IH]; cbn [index_vectors].
  - constructor; [intros [] | constructor].
  - pose proof (seq_NoDup a 0) as Hseq.
    induction Hseq as [|i l Hi _ IHl]; cbn [flat_map]; [constructor|].
    apply NoDup_app.
    + apply NoDup_map_NoDup_ForallPairs; [|exact IH].
      intros x y _ _ E. injection E as ->. reflexivity.
    + exact IHl.
    + intros v Hv Hv'. apply in_map_iff in Hv. destruct Hv as [t [<- _]].
      apply in_flat_map in Hv'. destruct Hv' as [i' [Hi' Hv']].
      apply in_map_iff in Hv'. destruct Hv' as [t' [E _]].
      injection E as -> _. contradiction.
Qed.

Lemma length_index_vectors (a k : nat) : length (index_vectors a k) = (a ^ k)%nat.
Proof.
  induction k as [|k IH]; cbn [index_vectors]; [reflexivity|].
  rewrite (flat_map_constant_length (c := (a ^ k)%nat)).
  - rewrite length_seq. reflexivity.
  - intros i _. rewrite length_map. exact IH.
Qed.

(** Fed with equally likely raw vectors, the draw returns each index vector
    exactly once: the indices are uniform over [[0, a)] and independent. *)
Lemma draws_equidistributed (a k : nat) (v : list nat) :
  length v = k -> Forall (fun i => (i < a)%nat) v ->
  count_occ (list_eq_dec Nat.eq_dec)
            (map (fun r => fst (draws a k (replaying r))) (index_vectors a k)) v
  = 1%nat.
Proof.
  intros Hl Hf.
  assert (E : map (fun r => fst (draws a k (replaying r))) (index_vectors a k)
              = index_vectors a k).
  { rewrite <- (map_id (index_vectors a k)) at 2. apply map_ext_in.
    intros r Hr. apply in_index_vectors in Hr. destruct Hr as [Hrl Hrf].
    rewrite <- Hrl. apply draws_any_vector, Hrf. }
  rewrite E. apply NoDup_count_occ'; [apply NoDup_index_vectors|].
  apply in_index_vectors. split; assumption.
Qed.

Lemma map_nth_seq (r pre : list nat) :
  map (fun j => nth j (pre ++ r) O) (seq (length pre) (length r)) = r.
Proof.
  revert pre. induction r as [|x r IH]; intros pre; cbn [length seq map]; [reflexivity|].
  rewrite app_nth2 by lia. rewrite Nat.sub_diag. cbn [nth]. f_equal.
  replace (pre ++ x :: r) with ((pre ++ [x]) ++ r) by (rewrite <- app_assoc; reflexivity).
  replace (S (length pre)) with (length (pre ++ [x]))
    by (rewrite length_app; simpl; lia).
  apply IH.
Qed.

(** The draw from a replayed raw vector reduces each raw value on its own. *)
Lemma draws_replaying (a : nat) (r : list nat) :
  fst (draws a (length r) (replaying r)) = map (fun e => (e mod a)%nat) r.
Proof.
  unfold replaying. rewrite draws_spec. cbn [fst entropy consumed Nat.add].
  pose proof (map_nth_seq r []) as E. cbn [app length] in E.
  transitivity (map (fun e => (e mod a)%nat) (map (fun j => nth j r O) (seq 0 (length r)))).
  - rewrite map_map. reflexivity.
  - rewrite E. reflexivity.
Qed.

Section Counting.

Local Open Scope nat_scope.

Lemma count_occ_map_cons (h x : nat) (t : list nat) (L : list (list nat)) :
  count_occ (list_eq_dec Nat.eq_dec) (map (cons h) L) (x :: t)
  = if (h =? x)%nat then count_occ (list_eq_dec Nat.eq_dec) L t else 0%nat.
Proof.
  induction L as [|u L IH]; cbn [map count_occ].
  - destruct (h =? x)%nat; reflexivity.
  - destruct (list_eq_dec Nat.eq_dec (h :: u) (x :: t)) as [E|E].
    + injection E as -> ->. rewrite Nat.eqb_refl in *.
      destruct (list_eq_dec Nat.eq_dec t t); [|contradiction]. rewrite IH. reflexivity.
    + rewrite IH. destruct (Nat.eqb_spec h x) as [->|Hne]; [|reflexivity].
      destruct (list_eq_dec Nat.eq_dec u t) as [->|_]; [contradiction|reflexivity].
Qed.

Lemma count_occ_flat_map_cons (f : nat -> nat) (L : list (list nat)) (l : list nat)
    (x : nat) (t : list nat) :
  count_occ (list_eq_dec Nat.eq_dec) (flat_map (fun i => map (cons (f i)) L) l) (x :: t)
  = (length (filter (fun i => f i =? x) l) * count_occ (list_eq_dec Nat.eq_dec) L t)%nat.
Proof.
  induction l as [|i l IH]; cbn [flat_map filter]; [reflexivity|].
  rewrite count_occ_app, IH, count_occ_map_cons.
  destruct (f i =? x)%nat; cbn [length]; lia.
Qed.

Lemma filter_eqb_seq (y s n : nat) :
  length (filter (fun i => i =? y) (seq s n))
  = if andb (s <=? y)%nat (y <? s + n)%nat then 1%nat else 0%nat.
Proof.
  revert s. induction n as [|n IH]; intros s; cbn [seq filter].
  - destruct (Nat.leb_spec s y), (Nat.ltb_spec y (s + 0)); simpl; try reflexivity; lia.
  - rewrite <- Nat.add_succ_comm.
    destruct (Nat.eqb_spec s y) as [->|Hne]; cbn [length]; rewrite IH.
    + destruct (Nat.leb_spec (S y) y); [lia|]. cbn [andb].
      destruct (Nat.leb_spec y y); [|lia]. destruct (Nat.ltb_spec y (S y + n)); [|lia].
      reflexivity.
    + destruct (Nat.leb_spec (S s) y), (Nat.leb_spec s y), (Nat.ltb_spec y (S s + n));
        simpl; try reflexivity; lia.
Qed.

(** Among the raw values below [m * a], exactly [m] reduce to a given index. *)
Lemma residue_count (a m x : nat) :
  (x < a)%nat -> length (filter (fun i => i mod a =? x) (seq 0 (m * a))) = m.
Proof.
  intros Hx. induction m as [|m IH]; [reflexivity|].
  replace (S m * a)%nat with (m * a + a)%nat by lia.
  rewrite seq_app, filter_app, length_app, IH. cbn [Nat.add].
  rewrite (filter_ext_in (fun i => i mod a =? x) (fun i => i =? m * a + x)).
  - rewrite filter_eqb_seq.
    destruct (Nat.leb_spec (m * a) (m * a + x)); [|lia].
    destruct (Nat.ltb_spec (m * a + x) (m * a + a)); [|lia]. simpl. lia.
  - intros i Hi. apply in_seq in Hi.
    assert (E : i mod a = i - m * a).
    { replace i with ((i - m * a) + m * a)%nat at 1 by lia.
      rewrite Nat.Div0.mod_add. apply Nat.mod_small. lia. }
    rewrite E. destruct (Nat.eqb_spec (i - m * a) x), (Nat.eqb_spec i (m * a + x));
      try reflexivity; lia.
Qed.

Lemma map_flat_map {A B D : Type} (g : B -> D) (f : A -> list B) (l : list A) :
  map g (flat_map f l) = flat_map (fun i => map g (f i)) l.
Proof.
  induction l as [|i l IH]; cbn [flat_map map]; [reflexivity|].
  rewrite map_app, IH. reflexivity.
Qed.

Lemma reduced_vectors_count (a m k : nat) :
  forall v, length v = k -> Forall (fun i => (i < a)%nat) v ->
    count_occ (list_eq_dec Nat.eq_dec)
              (map (map (fun e => (e mod a)%nat)) (index_vectors (m * a) k)) v
    = (m ^ k)%nat.
Proof.
  induction k as [|k IH]; intros v Hl Hf.
  - apply length_zero_iff_nil in Hl. subst v. reflexivity.
  - destruct v as [|x t]; [discriminate|]. inversion Hf as [|? ? Hx Ht]; subst.
    cbn [index_vectors]. rewrite map_flat_map.
    rewrite (flat_map_ext _ (fun i => map (cons (i mod a))
               (map (map (fun e => e mod a)) (index_vectors (m * a) k)))).
    + rewrite (count_occ_flat_map_cons (fun i => i mod a)), residue_count by exact Hx.
      rewrite IH by (simpl in Hl; try lia; assumption). rewrite Nat.pow_succ_r'. reflexivity.
    + intros i. rewrite !map_map. reflexivity.
Qed.

End Counting.

(** Fed with the equally likely raw vectors over [[0, m * a)], the draw
    returns every index vector over [[0, a)] equally often, [m ^ k] times:
    [m] times per position, whatever the other positions hold. *)
Lemma draws_equidistributed_wide (a k m : nat) (v : list nat) :
  length v = k -> Forall (fun i => (i < a)%nat) v ->
  count_occ (list_eq_dec Nat.eq_dec)
            (map (fun r => fst (draws a k (replaying r))) (index_vectors (m * a) k)) v
  = (m ^ k)%nat.
Proof.
  intros Hl Hf.
  rewrite (map_ext_in _ (map (fun e => (e mod a)%nat))).
  - apply reduced_vectors_count; assumption.
  - intros r Hr. apply in_index_vectors in Hr. destruct Hr as [Hrl _].
    rewrite <- Hrl. apply draws_replaying.
Qed.

Lemma take_rows_Ok {A : Type} (x : list A) (b_idx : list nat) :
  Forall (fun i => (i < length x)%nat) b_idx ->
  exists rs, take_rows x b_idx = Ok rs /\ length rs = length b_idx /\
    forall j i, nth_error b_idx j = Some i -> nth_error rs j = nth_error x i.
Proof.
  induction 1 as [|i rest Hi _ [rs [IH [Hlen Hnth]]]]; simpl.
  - exists []. split; [reflexivity|]. split; [reflexivity|].
    intros [|j] i H; discriminate.
  - destruct (nth_error x i) as [r|] eqn:Hr;
      [|apply nth_error_None in Hr; lia].
    rewrite IH. exists (r :: rs). split; [reflexivity|]. split; [simpl; lia|].
    intros [|j] i' H; simpl in *.
    + injection H as <-. symmetry. exact Hr.
    + apply Hnth, H.
Qed.

Section ResampleTheorems.

Context {C : Calibrated}.

Lemma random_choice_Ok (a : nat) (size : Z) (w : World) :
  (0 < a)%nat -> (0 <= size)%Z ->
  random_choice a size w =
  (Ok (fst (draws a (Z.to_nat size) (np_random w))),
   mkWorld (self w) (snd (draws a (Z.to_nat size) (np_random w)))).
Proof.
  intros Ha Hs. unfold random_choice.
  destruct (Nat.eqb_spec a 0); [lia|]. destruct (Z.ltb_spec size 0); [lia|].
  cbn [andb]. destruct (draws a (Z.to_nat size) (np_random w)). reflexivity.
Qed.

Lemma random_choice_self (a : nat) (size : Z) (w w' : World) (r : Result (list nat)) :
  random_choice a size w = (r, w') -> self w' = self w.
Proof.
  unfold random_choice.
  destruct ((a =? 0)%nat && negb (size =? 0)%Z); [intros H; injection H as _ <-; reflexivity|].
  destruct (size <? 0)%Z; [intros H; injection H as _ <-; reflexivity|].
  destruct (draws a (Z.to_nat size) (np_random w)).
  intros H. injection H as _ <-. reflexivity.
Qed.

(** C4: on a dataset with [R > 0] rows (one label per row), the resampling
    step with the size that [fit] passes to it (the requested [boot_size], or
    [R] when none is requested) returns a dataset with exactly that many rows;
    the drawn indices are the generator's next draws, each in [[0, R)]; row
    [j] of the result and its label are row [b_idx[j]] of the input and its
    label. The draw is with replacement, uniform and independent: every index
    vector over [[0, R)] of that length, repeated indices included, is drawn
    for some state of the generator, and over the [R ^ size] equally likely
    raw vectors of the generator each index vector comes out exactly once.
    More generally, index [j] is the [j]-th of the next raw draws reduced to
    [[0, R)] and depends on no other draw; of the [m * R] equally likely raw
    values below [m * R], exactly [m] give any one index; and over the
    [(m * R) ^ size] equally likely raw vectors with entries below [m * R]
    every index vector comes out the same number of times, [m ^ size]: [m]
    times per position, whatever the other positions hold. The call leaves
    the generator advanced by exactly [size] raw draws, so that the next
    resample reads fresh ones. *)
Theorem resample_rows_from_dataset (X : Matrix) (y : Labels) (size0 : option Z)
    (w : World) :
  (0 < length X)%nat -> length y = length X ->
  (0 <= resolve_boot_size size0 (length X))%Z ->
  exists (b_idx : list nat) (X_resampled : Matrix) (y_resampled : Labels) (w' : World),
    resample X y (resolve_boot_size size0 (length X)) w
      = (Ok (X_resampled, y_resampled), w') /\
    self w' = self w /\
    length X_resampled
      = match size0 with None => length X | Some k => Z.to_nat k end /\
    length y_resampled = length X_resampled /\
    b_idx = fst (draws (length X) (length X_resampled) (np_random w)) /\
    length b_idx = length X_resampled /\
    (forall j, (j < length X_resampled)%nat ->
       exists i row label,
         nth_error b_idx j = Some i /\ (i < length X)%nat /\
         nth_error X i = Some row /\ nth_error y i = Some label /\
         nth_error X_resampled j = Some row /\
         nth_error y_resampled j = Some label) /\
    (forall v, length v = length X_resampled ->
       Forall (fun i => (i < length X)%nat) v ->
       fst (draws (length X) (length X_resampled) (replaying v)) = v /\
       count_occ (list_eq_dec Nat.eq_dec)
         (map (fun r => fst (draws (length X) (length X_resampled) (replaying r)))
              (index_vectors (length X) (length X_resampled))) v = 1%nat) /\
    length (index_vectors (length X) (length X_resampled))
      = (length X ^ length X_resampled)%nat /\
    (forall j, (j < length X_resampled)%nat ->
       nth_error b_idx j
       = Some (entropy (np_random w) (consumed (np_random w) + j) mod length X)%nat) /\
    (forall m i, (i < length X)%nat ->
       length (filter (fun e => (fst (randint (length X) (replaying [e])) =? i)%nat)
                      (seq 0 (m * length X))) = m) /\
    (forall m v, length v = length X_resampled ->
       Forall (fun i => (i < length X)%nat) v ->
       length (index_vectors (m * length X) (length X_resampled))
         = ((m * length X) ^ length X_resampled)%nat /\
       count_occ (list_eq_dec Nat.eq_dec)
         (map (fun r => fst (draws (length X) (length X_resampled) (replaying r)))
              (index_vectors (m * length X) (length X_resampled))) v
       = (m ^ length X_resampled)%nat) /\
    np_random w'
    = mkRandomState (entropy (np_random w))
                    (consumed (np_random w) + length X_resampled).
Proof.
  intros HR Hy Hk. set (k := resolve_boot_size size0 (length X)) in *.
  set (b_idx := fst (draws (length X) (Z.to_nat k) (np_random w))).
  assert (Hidx : Forall (fun i => (i < length X)%nat) b_idx)
    by (apply draws_in_range, HR).
  assert (Hlen : length b_idx = Z.to_nat k) by apply draws_length.
  destruct (take_rows_Ok X b_idx Hidx) as [Xr [HXr [HlX HnX]]].
  assert (Hidy : Forall (fun i => (i < length y)%nat) b_idx) by (rewrite Hy; exact Hidx).
  destruct (take_rows_Ok y b_idx Hidy) as [yr [Hyr [Hly Hny]]].
  assert (HlenX : length Xr = Z.to_nat k) by lia.
  exists b_idx, Xr, yr,
    (mkWorld (self w) (snd (draws (length X) (Z.to_nat k) (np_random w)))).
  split.
  { unfold resample, bind. rewrite random_choice_Ok by assumption.
    fold b_idx. unfold lift. rewrite HXr, Hyr. reflexivity. }
  split; [reflexivity|]. split.
  { rewrite HlenX. unfold k, resolve_boot_size. destruct size0; [reflexivity|].
    apply Nat2Z.id. }
  split; [lia|]. split; [rewrite HlenX; reflexivity|]. split; [lia|]. split.
  - intros j Hj.
    destruct (nth_error b_idx j) as [i|] eqn:Hi;
      [|apply nth_error_None in Hi; lia].
    assert (HiR : (i < length X)%nat)
      by (rewrite Forall_forall in Hidx; apply Hidx; eapply nth_error_In, Hi).
    destruct (nth_error X i) as [row|] eqn:Hrow;
      [|apply nth_error_None in Hrow; lia].
    destruct (nth_error y i) as [label|] eqn:Hlab;
      [|apply nth_error_None in Hlab; lia].
    exists i, row, label. rewrite (HnX _ _ Hi), (Hny _ _ Hi).
    repeat split; assumption.
  - split; [|split; [apply length_index_vectors|]].
    { intros v Hv Hrange. split.
      + rewrite <- Hv. apply draws_any_vector, Hrange.
      + apply draws_equidistributed; assumption. }
    split; [|split; [|split]].
    + intros j Hj. unfold b_idx. rewrite draws_spec. cbn [fst].
      rewrite nth_error_map, nth_error_seq.
      destruct (Nat.ltb_spec j (Z.to_nat k)); [reflexivity | lia].
    + intros m i Hi. unfold randint, replaying. cbn [fst entropy consumed nth].
      apply residue_count, Hi.
    + intros m v Hv Hrange. split; [apply length_index_vectors|].
      apply draws_equidistributed_wide; assumption.
    + cbn [np_random]. rewrite draws_spec, HlenX. reflexivity.
Qed.

End ResampleTheorems.

(** ** Fitting *)

Section FitTheorems.

Context {C : Calibrated}.

Lemma fit_unfold (X0 : ArrayLike) (y : Labels) (cv0 : CvScheme) (size0 : option Z)
    (w : World) :
  fit X0 y cv0 size0 w =
  match ccv_fit (new_ccv (estimator (self w)) cv0) (to_numpy X0) y with
  | Ok obj =>
      for_range (Z.to_nat (n_boot (self w))) (fit_member (to_numpy X0) y)
        (mkWorld (before_loop (self w) cv0 obj
                    (resolve_boot_size size0 (length (to_numpy X0))))
                 (np_random w))
  | Raise e =>
      (Raise e,
       mkWorld (set_calibrated_estimator
                  (ccv_fit_leaves (new_ccv (estimator (self w)) cv0) (to_numpy X0) y)
                  (set_calibration_cv cv0 (self w)))
               (np_random w))
  | NotANumber =>
      (NotANumber,
       mkWorld (set_calibrated_estimator
                  (ccv_fit_leaves (new_ccv (estimator (self w)) cv0) (to_numpy X0) y)
                  (set_calibration_cv cv0 (self w)))
               (np_random w))
  end.
Proof.
  unfold fit, bind, get_attr, bind, get_self, modify_self, ret, lift.
  unfold ccv_fit, ccv_fit_leaves, new_ccv, mkCCV. cbn.
  destruct (sk_fit (estimator (self w)) cv0 (to_numpy X0) y); reflexivity.
Qed.

Lemma ccv_fit_Ok (obj obj' : CalibratedClassifierCV) (X : Matrix) (y : Labels) :
  ccv_fit obj X y = Ok obj' ->
  exists m, sk_fit (base_estimator obj) (cv obj) X y = inr m /\
            obj' = mkCCV (base_estimator obj) (cv obj) (Some m).
Proof.
  unfold ccv_fit.
  destruct (sk_fit (base_estimator obj) (cv obj) X y) as [name|m]; [discriminate|].
  intros H. injection H as <-. exists m. split; reflexivity.
Qed.

Lemma ccv_fit_returns_or_raises (obj : CalibratedClassifierCV) (X : Matrix) (y : Labels) :
  ccv_fit obj X y <> NotANumber.
Proof.
  unfold ccv_fit. destruct (sk_fit (base_estimator obj) (cv obj) X y); discriminate.
Qed.

Lemma resample_self (X : Matrix) (y : Labels) (size : Z) (w w' : World)
    (r : Result (Matrix * Labels)) :
  resample X y size w = (r, w') -> self w' = self w.
Proof.
  unfold resample, bind, lift, ret.
  destruct (random_choice (length X) size w) as [[b_idx|e|] w1] eqn:E;
    apply random_choice_self in E.
  - destruct (take_rows X b_idx); [destruct (take_rows y b_idx)| |];
      intros H; injection H as _ <-; exact E.
  - intros H. injection H as _ <-. exact E.
  - intros H. injection H as _ <-. exact E.
Qed.

(** One successful iteration appends one fitted member and changes nothing
    else of [self]. *)
Lemma fit_member_Ok (X : Matrix) (y : Labels) (w w' : World) :
  fit_member X y w = (Ok tt, w') ->
  exists obj m,
    fitted obj = Some m /\
    self w' = set_b_estimators (b_estimators (self w) ++ [obj]) (self w).
Proof.
  unfold fit_member. intros H.
  apply bind_Ok_inv in H. destruct H as [size [w1 [Hsize H]]].
  pose proof (read_only_get_attr "boot_size" boot_size w) as Hro.
  rewrite Hsize in Hro. simpl in Hro. subst w1.
  apply bind_Ok_inv in H. destruct H as [r [w1 [Hr H]]].
  apply resample_self in Hr.
  apply bind_Ok_inv in H. destruct H as [s [w2 [Hs H]]].
  unfold get_self in Hs. injection Hs as <- <-.
  apply bind_Ok_inv in H. destruct H as [c [w2 [Hc H]]].
  pose proof (read_only_get_attr "calibration_cv" calibration_cv w1) as Hro.
  rewrite Hc in Hro. simpl in Hro. subst w2.
  apply bind_Ok_inv in H. destruct H as [obj [w2 [Hobj H]]].
  apply lift_inv in Hobj. destruct Hobj as [Hobj ->].
  apply ccv_fit_Ok in Hobj. destruct Hobj as [m [_ ->]].
  unfold modify_self in H. injection H as <-. cbn [self]. rewrite Hr.
  eexists (mkCCV _ _ (Some m)), m. split; reflexivity.
Qed.

Lemma for_range_fit_member_Ok (X : Matrix) (y : Labels) (n : nat) :
  forall w w',
    for_range n (fit_member X y) w = (Ok tt, w') ->
    exists new,
      length new = n /\ Forall (fun obj => fitted obj <> None) new /\
      self w' = set_b_estimators (b_estimators (self w) ++ new) (self w).
Proof.
  induction n as [|n IH]; intros w w' H; cbn [for_range] in H.
  - injection H as <-. exists []. split; [reflexivity|]. split; [constructor|].
    rewrite app_nil_r. destruct (self w); reflexivity.
  - apply bind_Ok_inv in H. destruct H as [[] [w1 [H1 H]]].
    apply fit_member_Ok in H1. destruct H1 as [obj [m [Hm Hw1]]].
    apply IH in H. destruct H as [new [Hlen [Hfit Hw']]].
    exists (obj :: new). split; [simpl; lia|]. split.
    + constructor; [rewrite Hm; discriminate | exact Hfit].
    + rewrite Hw', Hw1. cbn [set_b_estimators b_estimators estimator n_boot
        calibration_cv calibrated_estimator boot_size].
      rewrite <- app_assoc. reflexivity.
Qed.

(** C5: after a successful [fit] the estimator is fitted: it holds the point
    model trained on the full dataset and exactly [n_boot] bootstrap members,
    all of them trained; base estimator and [n_boot] are unchanged. Nothing of
    a previous ensemble survives: started from any estimator with the same
    base estimator and [n_boot], whatever members and point model it held, the
    call ends in the same state. *)
Theorem fit_postcondition (X0 : ArrayLike) (y : Labels) (cv0 : CvScheme)
    (size0 : option Z) (w w' : World) :
  fit X0 y cv0 size0 w = (Ok tt, w') ->
  state_of (self w') = Fitted /\
  (exists m,
     sk_fit (estimator (self w)) cv0 (to_numpy X0) y = inr m /\
     calibrated_estimator (self w') = Some (mkCCV (estimator (self w)) cv0 (Some m))) /\
  length (b_estimators (self w')) = Z.to_nat (n_boot (self w')) /\
  ((0 <= n_boot (self w))%Z ->
     Z.of_nat (length (b_estimators (self w'))) = n_boot (self w')) /\
  Forall (fun obj => fitted obj <> None) (b_estimators (self w')) /\
  estimator (self w') = estimator (self w) /\
  n_boot (self w') = n_boot (self w) /\
  (forall s0 : ModelBootstrap,
     estimator s0 = estimator (self w) -> n_boot s0 = n_boot (self w) ->
     fit X0 y cv0 size0 (mkWorld s0 (np_random w)) = (Ok tt, w')).
Proof.
  intros H. pose proof H as Hfit. rewrite fit_unfold in H.
  destruct (ccv_fit (new_ccv (estimator (self w)) cv0) (to_numpy X0) y)
    as [obj|e|] eqn:Hobj; [|discriminate|discriminate].
  pose proof (ccv_fit_Ok _ _ _ _ Hobj) as [m [Hm ->]]. cbn in Hm.
  pose proof (for_range_fit_member_Ok _ _ _ _ _ H) as [new [Hlen [Hnew Hw']]].
  cbn in Hw'.
  assert (Hn : n_boot (self w') = n_boot (self w)) by (rewrite Hw'; reflexivity).
  assert (Hb : b_estimators (self w') = new) by (rewrite Hw'; reflexivity).
  split; [rewrite Hw'; reflexivity|].
  split; [exists m; split; [exact Hm | rewrite Hw'; reflexivity]|].
  split; [rewrite Hb, Hn; exact Hlen|].
  split; [intros H0; rewrite Hb, Hn, Hlen; lia|].
  split; [rewrite Hb; exact Hnew|].
  split; [rewrite Hw'; reflexivity|]. split; [exact Hn|].
  intros s0 He Hn0. rewrite fit_unfold. cbn [self np_random].
  rewrite He, Hobj. unfold before_loop. rewrite He, Hn0. exact H.
Qed.

(** C2 (amended): for an estimator constructed with [n_boot = 0] and a
    dataset on which the point model trains, [fit] succeeds, leaves the list
    of bootstrap members empty and draws nothing; every subsequent [predict]
    then raises the not-fitted warning, as it does on an estimator that was
    never fitted, and computes no bounds. *)
Theorem fit_predict_without_members (est : Estimator) (X0 : ArrayLike) (y : Labels)
    (cv0 : CvScheme) (size0 : option Z) (g : RandomState) (s0 : ModelBootstrap)
    (m : Model) :
  init est (PyInt 0) = Ok s0 ->
  sk_fit est cv0 (to_numpy X0) y = inr m ->
  exists w1,
    fit X0 y cv0 size0 (mkWorld s0 g) = (Ok tt, w1) /\
    b_estimators (self w1) = [] /\
    state_of (self w1) = Fitted /\
    np_random w1 = g /\
    forall X' ci, predict X' ci w1 = (Raise (Warning not_fitted_msg), w1).
Proof.
  intros Hinit Hm. cbn in Hinit. injection Hinit as <-.
  eexists. split.
  { rewrite fit_unfold. cbn [self np_random estimator n_boot].
    unfold ccv_fit, new_ccv, mkCCV. cbn [base_estimator cv]. rewrite Hm.
    cbn [Z.to_nat for_range ret]. reflexivity. }
  cbn [self np_random before_loop b_estimators].
  split; [reflexivity|]. split; [reflexivity|]. split; [reflexivity|].
  intros X' ci. apply predict_not_fitted. reflexivity.
Qed.

Lemma resample_not_warning (X : Matrix) (y : Labels) (size : Z) :
  raises_only not_warning (resample X y size).
Proof.
  unfold resample. apply raises_only_bind; [apply random_choice_not_warning|].
  intros b_idx. apply raises_only_bind; [apply raises_only_lift, take_rows_not_warning|].
  intros Xr. apply raises_only_bind; [apply raises_only_lift, take_rows_not_warning|].
  intros yr. apply raises_only_ret.
Qed.

Lemma fit_member_not_warning (X : Matrix) (y : Labels) :
  raises_only not_warning (fit_member X y).
Proof.
  unfold fit_member.
  apply raises_only_bind; [apply raises_only_get_attr; intros m; discriminate|].
  intros size. apply raises_only_bind; [apply resample_not_warning|]. intros r.
  apply raises_only_bind; [apply raises_only_get_self|]. intros s.
  apply raises_only_bind; [apply raises_only_get_attr; intros m; discriminate|].
  intros c. apply raises_only_bind; [apply raises_only_lift, ccv_fit_not_warning|].
  intros obj. apply raises_only_modify_self.
Qed.

Lemma for_range_not_warning (n : nat) (body : M unit) :
  raises_only not_warning body -> raises_only not_warning (for_range n body).
Proof.
  intros Hb. induction n as [|n IH]; cbn [for_range].
  - apply raises_only_ret.
  - apply raises_only_bind; [exact Hb | intros _; exact IH].
Qed.

(** [fit] has no check of its own: it never raises the class's [Warning]. *)
Lemma fit_not_warning (X0 : ArrayLike) (y : Labels) (cv0 : CvScheme) (size0 : option Z) :
  raises_only not_warning (fit X0 y cv0 size0).
Proof.
  intros w e w' H. rewrite fit_unfold in H.
  destruct (ccv_fit (new_ccv (estimator (self w)) cv0) (to_numpy X0) y) as [obj|e0|] eqn:E.
  - eapply for_range_not_warning; [apply fit_member_not_warning | exact H].
  - injection H as <- _. eapply ccv_fit_not_warning, E.
  - discriminate.
Qed.

Lemma resample_negative (X : Matrix) (y : Labels) (k : Z) (w : World) :
  (0 < length X)%nat -> (k < 0)%Z ->
  resample X y k w = (Raise (ValueError negative_size_msg), w).
Proof.
  intros HR Hk. unfold resample, bind, random_choice.
  destruct (Nat.eqb_spec (length X) 0); [lia|]. cbn [andb].
  destruct (Z.ltb_spec k 0); [reflexivity | lia].
Qed.

Lemma resample_zero (X : Matrix) (y : Labels) (w : World) :
  resample X y 0 w = (Ok ([], []), w).
Proof.
  unfold resample, bind, random_choice. rewrite andb_false_r. cbn.
  destruct w; reflexivity.
Qed.

(** C9 (amended): [fit] does not check a requested [boot_size <= 0]; it
    never raises a warning of its own and passes the size on to the
    resampling step. With a trained point model and [n_boot >= 1]: for a
    negative size on a non-empty dataset the first resampling draw raises
    NumPy's [ValueError], which [fit] propagates, leaving the new point model
    and an empty member list; for size 0 the resampling step returns the
    empty dataset, and the first member is trained on it. *)
Theorem fit_passes_boot_size_unchecked (X0 : ArrayLike) (y : Labels) (cv0 : CvScheme)
    (k : Z) (w : World) (obj : CalibratedClassifierCV) :
  (k <= 0)%Z ->
  ccv_fit (new_ccv (estimator (self w)) cv0) (to_numpy X0) y = Ok obj ->
  (1 <= n_boot (self w))%Z ->
  let w1 := mkWorld (before_loop (self w) cv0 obj k) (np_random w) in
  (forall msg, fst (fit X0 y cv0 (Some k) w) <> Raise (Warning msg)) /\
  ((k < 0)%Z -> (0 < length (to_numpy X0))%nat ->
     resample (to_numpy X0) y k w1 = (Raise (ValueError negative_size_msg), w1) /\
     fit X0 y cv0 (Some k) w = (Raise (ValueError negative_size_msg), w1)) /\
  (k = 0%Z ->
     resample (to_numpy X0) y k w1 = (Ok ([], []), w1) /\
     fit_member (to_numpy X0) y w1
     = match ccv_fit (new_ccv (estimator (self w)) cv0) [] [] with
       | Ok member => (Ok tt, mkWorld (set_b_estimators [member] (self w1)) (np_random w))
       | Raise e => (Raise e, w1)
       | NotANumber => (NotANumber, w1)
       end /\
     forall e, ccv_fit (new_ccv (estimator (self w)) cv0) [] [] = Raise e ->
       fit X0 y cv0 (Some k) w = (Raise e, w1)).
Proof.
  intros Hk Hobj Hn w1.
  assert (Hloop : fit X0 y cv0 (Some k) w =
                  for_range (Z.to_nat (n_boot (self w))) (fit_member (to_numpy X0) y) w1)
    by (rewrite fit_unfold, Hobj; reflexivity).
  destruct (Z.to_nat (n_boot (self w))) as [|n] eqn:En; [lia|].
  split; [|split].
  - intros msg Heq. destruct (fit X0 y cv0 (Some k) w) as [r w'] eqn:E.
    simpl in Heq. subst r. apply fit_not_warning in E. apply (E msg). reflexivity.
  - intros Hneg HR. pose proof (resample_negative _ y k w1 HR Hneg) as Hres.
    split; [exact Hres|]. rewrite Hloop. cbn [for_range].
    unfold bind at 1. unfold fit_member. unfold bind at 1.
    unfold get_attr, bind at 1. unfold get_self at 1. cbn [self w1 before_loop boot_size ret].
    unfold bind at 1. fold w1. rewrite Hres. reflexivity.
  - intros ->. pose proof (resample_zero (to_numpy X0) y w1) as Hres.
    assert (Hstep : fit_member (to_numpy X0) y w1
                    = match ccv_fit (new_ccv (estimator (self w)) cv0) [] [] with
                      | Ok member =>
                          (Ok tt, mkWorld (set_b_estimators [member] (self w1)) (np_random w))
                      | Raise e => (Raise e, w1)
                      | NotANumber => (NotANumber, w1)
                      end).
    { unfold fit_member. unfold bind at 1.
      unfold get_attr, bind at 1. unfold get_self at 1.
      cbn [self w1 before_loop boot_size ret].
      unfold bind at 1. fold w1. rewrite Hres.
      unfold bind at 1. unfold get_self at 1. unfold bind at 1.
      unfold get_attr, bind at 1. unfold get_self at 1.
      cbn [self w1 before_loop calibration_cv estimator ret fst snd].
      unfold bind at 1. unfold lift at 1.
      destruct (ccv_fit (new_ccv (estimator (self w)) cv0) [] []); reflexivity. }
    split; [exact Hres|]. split; [exact Hstep|].
    intros e He. rewrite Hloop. cbn [for_range]. unfold bind at 1.
    rewrite Hstep, He. reflexivity.
Qed.

End FitTheorems.

(** * Further properties of the methods *)

(** ** Construction, and what every [fit] keeps *)

Section Lifecycle.

Context {C : Calibrated}.

Lemma bind_inv {A B : Type} (m : M A) (f : A -> M B) (w w' : World) (r : Result B) :
  bind m f w = (r, w') ->
  (exists e, m w = (Raise e, w') /\ r = Raise e) \/
  (m w = (NotANumber, w') /\ r = NotANumber) \/
  (exists a w1, m w = (Ok a, w1) /\ f a w1 = (r, w')).
Proof.
  unfold bind. destruct (m w) as [[a|e|] w1]; intros H.
  - right. right. exists a, w1. split; [reflexivity | exact H].
  - left. injection H as <- <-. exists e. split; reflexivity.
  - right. left. injection H as <- <-. split; reflexivity.
Qed.

Lemma get_attr_inv {A : Type} (name : string) (proj : ModelBootstrap -> option A)
    (w w' : World) (r : Result A) :
  get_attr name proj w = (r, w') ->
  w' = w /\
  match proj (self w) with
  | Some v => r = Ok v
  | None => r = Raise (AttributeError name)
  end.
Proof.
  unfold get_attr, bind, get_self. destruct (proj (self w)); intros H;
    injection H as <- <-; split; reflexivity.
Qed.

Lemma get_attr_answers {A : Type} (name : string) (proj : ModelBootstrap -> option A)
    (w w' : World) :
  get_attr name proj w <> (NotANumber, w').
Proof.
  intros H. apply get_attr_inv in H. destruct H as [_ H].
  destruct (proj (self w)); discriminate.
Qed.

Lemma take_rows_answers {A : Type} (x : list A) (b_idx : list nat) :
  take_rows x b_idx <> NotANumber.
Proof.
  induction b_idx as [|i rest IH]; cbn [take_rows]; [discriminate|].
  destruct (nth_error x i); [|discriminate].
  destruct (take_rows x rest); [discriminate | discriminate | contradiction].
Qed.

Lemma random_choice_answers (a : nat) (size : Z) (w w' : World) :
  random_choice a size w <> (NotANumber, w').
Proof.
  unfold random_choice.
  destruct ((a =? 0)%nat && negb (size =? 0)%Z); [discriminate|].
  destruct (size <? 0)%Z; [discriminate|].
  destruct (draws a (Z.to_nat size) (np_random w)). discriminate.
Qed.

Lemma resample_answers (X : Matrix) (y : Labels) (size : Z) (w w' : World) :
  resample X y size w <> (NotANumber, w').
Proof.
  unfold resample. intros H.
  apply bind_inv in H. destruct H as [[e [_ E]]|[[H _]|[b_idx [w1 [_ H]]]]];
    [discriminate | apply random_choice_answers in H; exact H |].
  apply bind_inv in H. destruct H as [[e [_ E]]|[[H _]|[Xr [w2 [_ H]]]]];
    [discriminate | apply lift_inv in H; destruct H as [H _];
                    apply take_rows_answers in H; exact H |].
  apply bind_inv in H. destruct H as [[e [_ E]]|[[H _]|[yr [w3 [_ H]]]]];
    [discriminate | apply lift_inv in H; destruct H as [H _];
                    apply take_rows_answers in H; exact H |].
  discriminate.
Qed.

Lemma set_b_estimators_same (s : ModelBootstrap) :
  set_b_estimators (b_estimators s ++ []) s = s.
Proof. rewrite app_nil_r. destruct s; reflexivity. Qed.

(** One iteration of the loop of [fit] either leaves [self] alone (and
    raises) or appends one trained member (and returns). *)
Lemma fit_member_outcome (X : Matrix) (y : Labels) (w w' : World) (r : Result unit) :
  fit_member X y w = (r, w') ->
  (self w' = self w /\ exists e, r = Raise e) \/
  (exists obj m,
     r = Ok tt /\ fitted obj = Some m /\
     self w' = set_b_estimators (b_estimators (self w) ++ [obj]) (self w)).
Proof.
  unfold fit_member. intros H.
  apply bind_inv in H. destruct H as [[e [H ->]]|[[H _]|[size [w1 [H1 H]]]]].
  { apply get_attr_inv in H. destruct H as [-> _]. left. split; [reflexivity | eauto]. }
  { apply get_attr_answers in H. contradiction. }
  apply get_attr_inv in H1. destruct H1 as [-> _].
  apply bind_inv in H. destruct H as [[e [H ->]]|[[H _]|[rs [w1 [H1 H]]]]].
  { apply resample_self in H. left. split; [exact H | eauto]. }
  { apply resample_answers in H. contradiction. }
  apply resample_self in H1.
  apply bind_inv in H. destruct H as [[e [H _]]|[[H _]|[s [w2 [H2 H]]]]];
    [discriminate | discriminate |].
  unfold get_self in H2. injection H2 as <- <-.
  apply bind_inv in H. destruct H as [[e [H ->]]|[[H _]|[c [w2 [H2 H]]]]].
  { apply get_attr_inv in H. destruct H as [-> _]. left. split; [exact H1 | eauto]. }
  { apply get_attr_answers in H. contradiction. }
  apply get_attr_inv in H2. destruct H2 as [-> _].
  apply bind_inv in H. destruct H as [[e [H ->]]|[[H _]|[obj [w2 [H2 H]]]]].
  { apply lift_inv in H. destruct H as [_ ->]. left. split; [exact H1 | eauto]. }
  { apply lift_inv in H. destruct H as [H _].
    apply ccv_fit_returns_or_raises in H. contradiction. }
  apply lift_inv in H2. destruct H2 as [H2 ->].
  apply ccv_fit_Ok in H2. destruct H2 as [m [_ ->]].
  unfold modify_self in H. injection H as <- <-. right.
  exists (mkCCV (estimator (self w1)) c (Some m)), m.
  split; [reflexivity|]. split; [reflexivity|]. cbn [self]. rewrite H1. reflexivity.
Qed.

Lemma for_range_fit_member_outcome (X : Matrix) (y : Labels) (n : nat) :
  forall (w w' : World) (r : Result unit),
    for_range n (fit_member X y) w = (r, w') ->
    r <> NotANumber /\
    exists new,
      (length new <= n)%nat /\ (r = Ok tt -> length new = n) /\
      Forall (fun obj => fitted obj <> None) new /\
      self w' = set_b_estimators (b_estimators (self w) ++ new) (self w).
Proof.
  induction n as [|n IH]; intros w w' r H; cbn [for_range] in H.
  - injection H as <- <-. split; [discriminate|].
    exists []. split; [simpl; lia|]. split; [reflexivity|].
    split; [constructor|]. symmetry. apply set_b_estimators_same.
  - apply bind_inv in H. destruct H as [[e [H ->]]|[[H _]|[[] [w1 [H1 H]]]]].
    + apply fit_member_outcome in H. destruct H as [[Hs _]|[obj [m [E _]]]];
        [|discriminate].
      split; [discriminate|].
      exists []. split; [simpl; lia|]. split; [discriminate|]. split; [constructor|].
      rewrite Hs. symmetry. apply set_b_estimators_same.
    + apply fit_member_outcome in H.
      destruct H as [[_ [e E]]|[obj [m [E _]]]]; discriminate.
    + apply fit_member_outcome in H1.
      destruct H1 as [[_ [e E]]|[obj [m [_ [Hm Hw1]]]]]; [discriminate|].
      apply IH in H. destruct H as [Hr [new [Hle [Hlen [Hfit Hw']]]]].
      split; [exact Hr|].
      exists (obj :: new). split; [simpl; lia|].
      split; [intros E; simpl; rewrite (Hlen E); reflexivity|].
      split; [constructor; [rewrite Hm; discriminate | exact Hfit]|].
      rewrite Hw', Hw1. cbn [set_b_estimators b_estimators estimator n_boot
        calibration_cv calibrated_estimator boot_size].
      rewrite <- app_assoc. reflexivity.
Qed.

(** Every way [fit] can end: the training of the point model raises, and
    [self] holds the new object as that training left it beside the members
    it had; or the point model is trained and the loop has appended trained
    members to an empty list. *)
Lemma fit_outcome (X0 : ArrayLike) (y : Labels) (cv0 : CvScheme) (size0 : option Z)
    (w w' : World) (r : Result unit) :
  fit X0 y cv0 size0 w = (r, w') ->
  estimator (self w') = estimator (self w) /\
  n_boot (self w') = n_boot (self w) /\
  ((exists e,
      r = Raise e /\
      ccv_fit (new_ccv (estimator (self w)) cv0) (to_numpy X0) y = Raise e /\
      b_estimators (self w') = b_estimators (self w) /\
      calibrated_estimator (self w')
        = Some (ccv_fit_leaves (new_ccv (estimator (self w)) cv0) (to_numpy X0) y) /\
      np_random w' = np_random w) \/
   (exists obj,
      r <> NotANumber /\
      ccv_fit (new_ccv (estimator (self w)) cv0) (to_numpy X0) y = Ok obj /\
      calibrated_estimator (self w') = Some obj /\
      (length (b_estimators (self w')) <= Z.to_nat (n_boot (self w)))%nat /\
      (r = Ok tt -> length (b_estimators (self w')) = Z.to_nat (n_boot (self w))) /\
      Forall (fun member => fitted member <> None) (b_estimators (self w')))).
Proof.
  rewrite fit_unfold.
  destruct (ccv_fit (new_ccv (estimator (self w)) cv0) (to_numpy X0) y)
    as [obj|e|] eqn:E.
  - intros H. apply for_range_fit_member_outcome in H.
    destruct H as [Hr [new [Hle [Hlen [Hfit Hw']]]]]. cbn in Hw'. rewrite Hw'. cbn.
    split; [reflexivity|]. split; [reflexivity|]. right. exists obj.
    repeat split; assumption.
  - intros H. injection H as <- <-. cbn.
    split; [reflexivity|]. split; [reflexivity|]. left. exists e.
    repeat split; reflexivity.
  - apply ccv_fit_returns_or_raises in E. contradiction.
Qed.

(** The member loop of [predict] raises only what a member raises when asked
    for its probabilities: the row assignments stay in range. *)
Lemma fill_preds_Raise (X : Matrix) (ests : list CalibratedClassifierCV) :
  forall (done todo : Matrix) (w w' : World) (e : exn),
    (length ests <= length todo)%nat ->
    fill_preds X ests (length done) (done ++ todo) w = (Raise e, w') ->
    exists est, In est ests /\ ccv_predict_proba est X = Raise e.
Proof.
  induction ests as [|est rest IH]; intros done todo w w' e Hlen H; cbn [fill_preds] in H.
  - discriminate.
  - destruct todo as [|t todo]; [simpl in Hlen; lia|].
    apply bind_inv in H. destruct H as [[e0 [H E]]|[[_ E]|[p [w1 [Hp H]]]]];
      [|discriminate|].
    { injection E as <-. apply lift_inv in H. destruct H as [H _].
      exists est. split; [left; reflexivity | exact H]. }
    apply lift_inv in Hp. destruct Hp as [_ ->].
    apply bind_inv in H. destruct H as [[e0 [H E]]|[[_ E]|[preds1 [w1 [Hset H]]]]];
      [|discriminate|].
    { apply lift_inv in H. destruct H as [H _]. unfold set_row in H.
      destruct (Nat.ltb_spec (length done) (length (done ++ t :: todo))) as [_|Hge];
        [discriminate | rewrite length_app in Hge; simpl in Hge; lia]. }
    apply lift_inv in Hset. destruct Hset as [Hset ->]. unfold set_row in Hset.
    destruct (Nat.ltb_spec (length done) (length (done ++ t :: todo))) as [_|Hge];
      [|discriminate].
    rewrite replace_row_app in Hset. injection Hset as <-.
    assert (E : done ++ p :: todo = (done ++ [p]) ++ todo)
      by (rewrite <- app_assoc; reflexivity).
    assert (El : S (length done) = length (done ++ [p]))
      by (rewrite length_app; simpl; lia).
    rewrite E, El in H.
    destruct (IH (done ++ [p]) todo w w' e ltac:(simpl in Hlen; lia) H)
      as [est' [Hin Hest]].
    exists est'. split; [right; exact Hin | exact Hest].
Qed.

End Lifecycle.

Section LifecycleTheorems.

Context {C : Calibrated}.

(** X1: [__init__] succeeds exactly for an [int] [n_boot >= 0] (zero
    included; [bool], [float], [str] and [None] are refused) and otherwise
    raises the [n_boot] warning. The estimator it builds has that [n_boot], no
    member and no point model, and every [predict] on it raises the not-fitted
    warning, whatever the features and the confidence level. *)
Theorem init_accepts_non_negative_ints (est : Estimator) (n : PyVal) :
  (forall s, init est n = Ok s <->
             exists z, n = PyInt z /\ (0 <= z)%Z /\
                       s = mkModelBootstrap est z [] None None None) /\
  (forall e, init est n = Raise e -> e = Warning n_boot_msg) /\
  (forall s, init est n = Ok s ->
     consistent s /\ state_of s = Unfitted /\
     forall X0 ci g,
       predict X0 ci (mkWorld s g) = (Raise (Warning not_fitted_msg), mkWorld s g)).
Proof.
  assert (Hiff : forall s, init est n = Ok s <->
             exists z, n = PyInt z /\ (0 <= z)%Z /\
                       s = mkModelBootstrap est z [] None None None).
  { intros s. unfold init. split.
    - destruct n as [z| | | |]; try discriminate.
      destruct (Z.ltb_spec z 0) as [Hz|Hz]; [discriminate|].
      intros E. injection E as <-. exists z. repeat split. assumption.
    - intros [z [-> [Hz ->]]]. destruct (Z.ltb_spec z 0); [lia | reflexivity]. }
  split; [exact Hiff|]. split.
  - unfold init. destruct n as [z| | | |]; intros e H;
      try (injection H as <-; reflexivity).
    destruct (z <? 0)%Z; [injection H as <-; reflexivity | discriminate].
  - intros s Hs. apply Hiff in Hs. destruct Hs as [z [_ [Hz ->]]].
    split; [|split].
    + unfold consistent. cbn. repeat split; try assumption; try lia.
      * constructor.
      * intros H. contradiction.
    + reflexivity.
    + intros X0 ci g. apply predict_not_fitted. reflexivity.
Qed.

(** X2: whether [fit] returns or raises, it leaves the base estimator and
    [n_boot] alone and keeps the estimator consistent: [n_boot >= 0], at most
    [n_boot] members, every member trained, and a point-model object whenever
    there is a member. *)
Theorem fit_keeps_consistent (X0 : ArrayLike) (y : Labels) (cv0 : CvScheme)
    (size0 : option Z) (w : World) :
  consistent (self w) ->
  consistent (self (snd (fit X0 y cv0 size0 w))) /\
  estimator (self (snd (fit X0 y cv0 size0 w))) = estimator (self w) /\
  n_boot (self (snd (fit X0 y cv0 size0 w))) = n_boot (self w).
Proof.
  intros [H0 [Hle [Hfit Hpt]]].
  destruct (fit X0 y cv0 size0 w) as [r w'] eqn:E. cbn [snd].
  apply fit_outcome in E. destruct E as [He [Hn Hcases]].
  split; [|split; assumption]. unfold consistent. rewrite Hn.
  destruct Hcases as [[e [_ [_ [Hb [Hc _]]]]]|[obj [_ [_ [Hc [Hlen [_ Hall]]]]]]].
  - rewrite Hb, Hc. repeat split; try assumption. intros _. discriminate.
  - rewrite Hc. repeat split; try assumption. intros _. discriminate.
Qed.

(** X3: on a consistent estimator, an exception of [predict] is one of its
    two warnings (not fitted, invalid [ci]) or arises in a step
    [obj.predict_proba(X)[:,1]], for the point model or for a member: the
    allocation of [preds], the attribute reads and the row assignments
    [preds[j] = ...] never fail. *)
Theorem predict_raises_only_warnings_or_classifier_errors (X0 : ArrayLike) (ci : PyVal)
    (w : World) (e : exn) :
  consistent (self w) ->
  fst (predict X0 ci w) = Raise e ->
  e = Warning not_fitted_msg \/ e = Warning ci_msg \/
  exists obj,
    (calibrated_estimator (self w) = Some obj \/ In obj (b_estimators (self w))) /\
    ccv_predict_proba obj (to_numpy X0) = Raise e.
Proof.
  intros [H0 [Hle [_ Hpt]]] H.
  unfold predict in H. unfold bind at 1 in H. unfold get_self at 1 in H.
  destruct (b_estimators (self w)) as [|e0 es] eqn:Hb.
  { injection H as <-. left. reflexivity. }
  specialize (Hpt ltac:(discriminate)).
  destruct (calibrated_estimator (self w)) as [obj|] eqn:Hobj; [|contradiction].
  destruct ci as [c| | | |];
    try (injection H as <-; right; left; reflexivity).
  destruct ((c <=? 0)%Z || (c >=? 100)%Z);
    [injection H as <-; right; left; reflexivity|].
  unfold bind at 1 in H. unfold lift at 1, np_zeros in H.
  destruct (Z.ltb_spec (n_boot (self w)) 0); [lia|].
  unfold bind at 1 in H. unfold get_attr in H. unfold bind at 1 in H.
  unfold get_self at 1 in H. rewrite Hobj in H. unfold ret at 1 in H.
  unfold bind at 1 in H. unfold lift at 1 in H.
  destruct (ccv_predict_proba obj (to_numpy X0)) as [y_pred|e1|] eqn:Hy;
    [| |discriminate].
  2:{ injection H as <-. right. right. exists obj.
      split; [left; reflexivity | exact Hy]. }
  unfold bind at 1 in H. unfold get_self at 1 in H. unfold bind at 1 in H.
  match type of H with
  | fst (match ?m with _ => _ end) = _ => destruct m as [[preds'|e1|] w1] eqn:Hf
  end; [discriminate| |discriminate].
  cbn [fst] in H. injection H as <-. right. right.
  apply (fill_preds_Raise _ _ [] _ w w1) in Hf;
    [|rewrite repeat_length, Hb; exact Hle].
  destruct Hf as [est [Hin Hest]]. exists est.
  split; [right; rewrite Hb in Hin; exact Hin | exact Hest].
Qed.



End LifecycleTheorems.

(** ** What the members of a fitted ensemble are *)

Section Ensemble.

Context {C : Calibrated}.

Lemma random_choice_Ok_inv (a : nat) (size : Z) (w w' : World) (b_idx : list nat) :
  random_choice a size w = (Ok b_idx, w') ->
  (0 <= size)%Z /\
  b_idx = map (fun t => (entropy (np_random w) (consumed (np_random w) + t) mod a)%nat)
              (seq 0 (Z.to_nat size)) /\
  w' = mkWorld (self w)
               (mkRandomState (entropy (np_random w))
                              (consumed (np_random w) + Z.to_nat size)).
Proof.
  unfold random_choice.
  destruct ((a =? 0)%nat && negb (size =? 0)%Z); [discriminate|].
  destruct (Z.ltb_spec size 0) as [Hs|Hs]; [discriminate|].
  rewrite draws_spec. intros E. injection E as <- <-.
  split; [assumption|]. split; reflexivity.
Qed.

Lemma resample_Ok_inv (X : Matrix) (y : Labels) (size : Z) (w w' : World)
    (r : Matrix * Labels) :
  resample X y size w = (Ok r, w') ->
  (0 <= size)%Z /\
  take_rows X (map (fun t => (entropy (np_random w) (consumed (np_random w) + t)
                              mod length X)%nat) (seq 0 (Z.to_nat size))) = Ok (fst r) /\
  take_rows y (map (fun t => (entropy (np_random w) (consumed (np_random w) + t)
                              mod length X)%nat) (seq 0 (Z.to_nat size))) = Ok (snd r) /\
  w' = mkWorld (self w)
               (mkRandomState (entropy (np_random w))
                              (consumed (np_random w) + Z.to_nat size)).
Proof.
  unfold resample. intros H.
  apply bind_Ok_inv in H. destruct H as [b_idx [w1 [Hc H]]].
  apply random_choice_Ok_inv in Hc. destruct Hc as [Hs [-> ->]].
  apply bind_Ok_inv in H. destruct H as [Xr [w1 [HX H]]].
  apply lift_inv in HX. destruct HX as [HX ->].
  apply bind_Ok_inv in H. destruct H as [yr [w1 [Hy H]]].
  apply lift_inv in Hy. destruct Hy as [Hy ->].
  unfold ret in H. injection H as <- <-. cbn [fst snd].
  repeat split; assumption.
Qed.

Lemma take_rows_length {A : Type} (x : list A) (b_idx : list nat) (rs : list A) :
  take_rows x b_idx = Ok rs -> length rs = length b_idx.
Proof.
  revert rs. induction b_idx as [|i rest IH]; intros rs; simpl.
  - intros H. injection H as <-. reflexivity.
  - destruct (nth_error x i); [|discriminate].
    destruct (take_rows x rest) as [rs'| |]; [|discriminate|discriminate].
    intros H. injection H as <-. simpl. rewrite (IH rs' eq_refl). reflexivity.
Qed.

(** One returning iteration: the next [size] draws select the rows, the new
    member is trained on them and appended. *)
Lemma fit_member_Ok_inv (X : Matrix) (y : Labels) (w w' : World) (size : Z)
    (c : CvScheme) :
  boot_size (self w) = Some size ->
  calibration_cv (self w) = Some c ->
  fit_member X y w = (Ok tt, w') ->
  exists Xr yr m,
    (0 <= size)%Z /\
    take_rows X (map (fun t => (entropy (np_random w) (consumed (np_random w) + t)
                                mod length X)%nat) (seq 0 (Z.to_nat size))) = Ok Xr /\
    take_rows y (map (fun t => (entropy (np_random w) (consumed (np_random w) + t)
                                mod length X)%nat) (seq 0 (Z.to_nat size))) = Ok yr /\
    sk_fit (estimator (self w)) c Xr yr = inr m /\
    w' = mkWorld (set_b_estimators
                    (b_estimators (self w) ++ [mkCCV (estimator (self w)) c (Some m)])
                    (self w))
                 (mkRandomState (entropy (np_random w))
                                (consumed (np_random w) + Z.to_nat size)).
Proof.
  intros Hsize Hcv H. unfold fit_member in H.
  apply bind_Ok_inv in H. destruct H as [size' [w1 [H1 H]]].
  apply get_attr_inv in H1. rewrite Hsize in H1. destruct H1 as [-> E].
  injection E as <-.
  apply bind_Ok_inv in H. destruct H as [r [w1 [Hr H]]].
  apply resample_Ok_inv in Hr. destruct Hr as [Hs [HX [Hy ->]]].
  apply bind_Ok_inv in H. destruct H as [s [w1 [H1 H]]].
  unfold get_self in H1. injection H1 as <- <-. cbn [self] in H.
  apply bind_Ok_inv in H. destruct H as [c' [w1 [H1 H]]].
  apply get_attr_inv in H1. cbn [self] in H1. rewrite Hcv in H1.
  destruct H1 as [-> E]. injection E as <-.
  apply bind_Ok_inv in H. destruct H as [obj [w1 [H1 H]]].
  apply lift_inv in H1. destruct H1 as [H1 ->].
  apply ccv_fit_Ok in H1. cbn [new_ccv base_estimator cv] in H1.
  destruct H1 as [m [Hm ->]].
  unfold modify_self in H. injection H as <-. cbn [self np_random].
  exists (fst r), (snd r), m. repeat split; assumption.
Qed.

Lemma for_range_fit_member_blocks (X : Matrix) (y : Labels) (g : RandomState)
    (size : Z) (c : CvScheme) (n : nat) :
  forall (j0 : nat) (w w' : World),
    boot_size (self w) = Some size ->
    calibration_cv (self w) = Some c ->
    np_random w = mkRandomState (entropy g) (consumed g + j0 * Z.to_nat size) ->
    for_range n (fit_member X y) w = (Ok tt, w') ->
    exists new,
      self w' = set_b_estimators (b_estimators (self w) ++ new) (self w) /\
      np_random w' = mkRandomState (entropy g) (consumed g + (j0 + n) * Z.to_nat size) /\
      length new = n /\
      forall j, (j < n)%nat ->
        exists Xr yr m,
          take_rows X (block_indices g (length X) (Z.to_nat size) (j0 + j)) = Ok Xr /\
          take_rows y (block_indices g (length X) (Z.to_nat size) (j0 + j)) = Ok yr /\
          sk_fit (estimator (self w)) c Xr yr = inr m /\
          nth_error new j = Some (mkCCV (estimator (self w)) c (Some m)).
Proof.
  induction n as [|n IH]; intros j0 w w' Hsize Hcv Hg H; cbn [for_range] in H.
  - injection H as <-. exists []. split; [symmetry; apply set_b_estimators_same|].
    split; [rewrite Nat.add_0_r; exact Hg|]. split; [reflexivity|]. intros j Hj. lia.
  - apply bind_Ok_inv in H. destruct H as [[] [w1 [H1 H]]].
    apply (fit_member_Ok_inv X y w w1 size c Hsize Hcv) in H1.
    destruct H1 as [Xr [yr [m [Hs [HX [Hy [Hm ->]]]]]]].
    rewrite Hg in HX, Hy, H. cbn [entropy consumed] in HX, Hy, H.
    apply (IH (S j0)) in H; [|exact Hsize|exact Hcv|
      cbn [np_random]; f_equal; lia].
    cbn [self set_b_estimators b_estimators estimator] in H.
    destruct H as [new [Hw' [Hg' [Hlen Hall]]]].
    exists (mkCCV (estimator (self w)) c (Some m) :: new).
    split; [rewrite Hw'; cbn [set_b_estimators estimator n_boot calibration_cv
                              calibrated_estimator boot_size];
            rewrite <- app_assoc; reflexivity|].
    split; [rewrite Hg'; f_equal; lia|]. split; [simpl; lia|].
    intros [|j] Hj.
    + exists Xr, yr, m. rewrite Nat.add_0_r. unfold block_indices.
      repeat split; assumption.
    + destruct (Hall j ltac:(lia)) as [Xr' [yr' [m' [HX' [Hy' [Hm' Hnth]]]]]].
      exists Xr', yr', m'. rewrite <- Nat.add_succ_comm.
      repeat split; assumption.
Qed.

(** X5: after a [fit] that returned, the estimator stores the calibration
    scheme and the effective [boot_size] (the row count when none was
    requested); the generator has advanced by [n_boot] blocks of [boot_size]
    draws; and member [j] is the calibrated classifier, with the estimator's
    base estimator and the given scheme, trained on the rows and labels that
    the [j]-th block of draws selects. *)
Theorem fit_members_are_trained_on_resamples (X0 : ArrayLike) (y : Labels)
    (cv0 : CvScheme) (size0 : option Z) (w w' : World) :
  fit X0 y cv0 size0 w = (Ok tt, w') ->
  calibration_cv (self w') = Some cv0 /\
  boot_size (self w') = Some (resolve_boot_size size0 (length (to_numpy X0))) /\
  np_random w'
  = mkRandomState (entropy (np_random w))
      (consumed (np_random w)
       + Z.to_nat (n_boot (self w))
         * Z.to_nat (resolve_boot_size size0 (length (to_numpy X0)))) /\
  forall j, (j < Z.to_nat (n_boot (self w)))%nat ->
    exists Xr yr m,
      take_rows (to_numpy X0)
        (block_indices (np_random w) (length (to_numpy X0))
           (Z.to_nat (resolve_boot_size size0 (length (to_numpy X0)))) j) = Ok Xr /\
      take_rows y
        (block_indices (np_random w) (length (to_numpy X0))
           (Z.to_nat (resolve_boot_size size0 (length (to_numpy X0)))) j) = Ok yr /\
      length Xr = Z.to_nat (resolve_boot_size size0 (length (to_numpy X0))) /\
      length yr = length Xr /\
      sk_fit (estimator (self w)) cv0 Xr yr = inr m /\
      nth_error (b_estimators (self w')) j
      = Some (mkCCV (estimator (self w)) cv0 (Some m)).
Proof.
  intros H. rewrite fit_unfold in H.
  destruct (ccv_fit (new_ccv (estimator (self w)) cv0) (to_numpy X0) y)
    as [obj|e|]; [|discriminate|discriminate].
  apply (for_range_fit_member_blocks _ _ (np_random w)
           (resolve_boot_size size0 (length (to_numpy X0))) cv0 _ 0) in H;
    [|reflexivity|reflexivity|
     cbn [np_random]; rewrite Nat.add_0_r; destruct (np_random w); reflexivity].
  cbn [self before_loop b_estimators estimator app] in H.
  destruct H as [new [Hw' [Hg' [Hlen Hall]]]].
  rewrite Hw', Hg'. cbn [set_b_estimators calibration_cv boot_size b_estimators].
  split; [reflexivity|]. split; [reflexivity|]. split; [reflexivity|].
  intros j Hj. destruct (Hall j Hj) as [Xr [yr [m [HX [Hy [Hm Hnth]]]]]].
  exists Xr, yr, m. cbn [Nat.add] in HX, Hy.
  pose proof (take_rows_length _ _ _ HX) as HlX.
  pose proof (take_rows_length _ _ _ Hy) as Hly.
  unfold block_indices in HlX, Hly. rewrite length_map, length_seq in HlX, Hly.
  repeat split; try assumption; lia.
Qed.

End Ensemble.

(** ** Order statistics do not depend on the order of the values *)

(** How many values of [l] are at most [v]. *)
Definition count_le (v : Q) (l : list Q) : nat :=
  length (filter (fun x => Qle_bool x v) l).

Lemma count_le_Permutation (v : Q) (l1 l2 : list Q) :
  Permutation l1 l2 -> count_le v l1 = count_le v l2.
Proof.
  unfold count_le. induction 1 as [|x l l' _ IH|x x' l|l l' l'' _ IH1 _ IH2]; simpl.
  - reflexivity.
  - destruct (Qle_bool x v); simpl; rewrite IH; reflexivity.
  - destruct (Qle_bool x v), (Qle_bool x' v); reflexivity.
  - rewrite IH1. exact IH2.
Qed.

Lemma count_le_above (s : list Q) :
  StronglySorted Qle s ->
  forall k, (k < length s)%nat -> (k + 1 <= count_le (nth k s 0%Q) s)%nat.
Proof.
  induction 1 as [|x t Hs IH Hx]; intros k Hk; simpl in Hk; [lia|].
  unfold count_le in *. destruct k as [|k]; simpl.
  - destruct (Qle_bool x x) eqn:E; [simpl; lia|].
    assert (Hxx : Qle_bool x x = true) by (apply Qle_bool_iff, Qle_refl). congruence.
  - assert (Hle : Qle_bool x (nth k t 0) = true).
    { apply Qle_bool_iff. rewrite Forall_forall in Hx. apply Hx, nth_In. lia. }
    rewrite Hle. simpl. specialize (IH k ltac:(lia)). lia.
Qed.

Lemma count_le_below (s : list Q) :
  StronglySorted Qle s ->
  forall k v, (k < length s)%nat -> v < nth k s 0 -> (count_le v s <= k)%nat.
Proof.
  induction 1 as [|x t Hs IH Hx]; intros k v Hk Hv; simpl in Hk; [lia|].
  unfold count_le in *. destruct k as [|k]; simpl in Hv |- *.
  - assert (Hx' : Qle_bool x v = false).
    { destruct (Qle_bool x v) eqn:E; [|reflexivity].
      apply Qle_bool_iff in E. lra. }
    rewrite Hx'. clear IH Hk. induction Hx as [|z t' Hz _ IHt]; simpl; [lia|].
    assert (Hz' : Qle_bool z v = false).
    { destruct (Qle_bool z v) eqn:E; [|reflexivity].
      apply Qle_bool_iff in E. lra. }
    rewrite Hz'. apply IHt. inversion Hs. assumption.
  - specialize (IH k v ltac:(lia) Hv).
    destruct (Qle_bool x v); simpl; lia.
Qed.

Lemma sorted_Permutation_nth (l1 l2 : list Q) :
  StronglySorted Qle l1 -> StronglySorted Qle l2 -> Permutation l1 l2 ->
  forall k, nth k l1 0 == nth k l2 0.
Proof.
  intros H1 H2 HP k. pose proof (Permutation_length HP) as Hlen.
  destruct (Nat.lt_ge_cases k (length l1)) as [Hk|Hk].
  2:{ rewrite !nth_overflow by lia. reflexivity. }
  assert (Hno : forall a b, StronglySorted Qle a -> StronglySorted Qle b ->
                  Permutation a b -> (k < length a)%nat ->
                  ~ nth k a 0 < nth k b 0).
  { intros a b Ha Hb Hab Hka Hlt.
    pose proof (count_le_above a Ha k Hka) as Hup.
    rewrite (count_le_Permutation _ _ _ Hab) in Hup.
    pose proof (count_le_below b Hb k (nth k a 0)
                  ltac:(rewrite <- (Permutation_length Hab); exact Hka) Hlt).
    lia. }
  pose proof (Hno l1 l2 H1 H2 HP Hk) as Ha.
  pose proof (Hno l2 l1 H2 H1 (Permutation_sym HP) ltac:(lia)) as Hb.
  apply Qle_antisym; apply Qnot_lt_le; assumption.
Qed.

(** The quantile of a column is the same for every arrangement of its
    values. *)
Lemma quantile_1d_Permutation (a1 a2 : list Q) (q : Q) :
  Permutation a1 a2 -> quantile_1d a1 q == quantile_1d a2 q.
Proof.
  intros HP. unfold quantile_1d. rewrite <- (Permutation_length HP).
  assert (Hs : Permutation (np_sort a1) (np_sort a2)).
  { unfold np_sort. eapply Permutation_trans;
      [apply Permutation_sym, QSort.Permuted_sort|].
    eapply Permutation_trans; [exact HP | apply QSort.Permuted_sort]. }
  pose proof (sorted_Permutation_nth _ _ (np_sort_sorted a1) (np_sort_sorted a2) Hs) as Hn.
  cbv zeta. rewrite !lerp_eq. unfold np_take. rewrite !Hn. reflexivity.
Qed.

Lemma Forall2_Permutation {A B : Type} (R : A -> B -> Prop) (l1 l2 : list A) :
  Permutation l1 l2 ->
  forall l1', Forall2 R l1 l1' ->
  exists l2', Forall2 R l2 l2' /\ Permutation l1' l2'.
Proof.
  induction 1 as [|x l l' _ IH|x x' l|l l' l'' _ IH1 _ IH2]; intros l1' HF.
  - inversion HF; subst. exists []. split; constructor.
  - inversion HF as [|? y ? t Hxy Ht]; subst.
    destruct (IH t Ht) as [t' [Ht' Hp]].
    exists (y :: t'). split; constructor; assumption.
  - inversion HF as [|? y ? t Hxy Ht]; subst.
    inversion Ht as [|? y' ? t' Hxy' Ht']; subst.
    exists (y' :: y :: t'). split; [repeat constructor; assumption | apply perm_swap].
  - destruct (IH1 l1' HF) as [m [Hm Hp1]]. destruct (IH2 m Hm) as [m' [Hm' Hp2]].
    exists m'. split; [exact Hm' | eapply Permutation_trans; eassumption].
Qed.

Lemma Forall2_In_r {A B : Type} (R : A -> B -> Prop) (l : list A) (l' : list B) (y : B) :
  Forall2 R l l' -> In y l' -> exists x, In x l /\ R x y.
Proof.
  induction 1 as [|x y' l l' Hxy _ IH]; intros Hin; [contradiction|].
  destruct Hin as [<-|Hin].
  - exists x. split; [left; reflexivity | exact Hxy].
  - destruct (IH Hin) as [x0 [Hx0 Hr]]. exists x0. split; [right; exact Hx0 | exact Hr].
Qed.

Section Aggregation.

Context {C : Calibrated}.

(** X6: on an estimator that holds its [n_boot] members, the two bounds of a
    sample never leave the range of the probabilities the members give to
    that sample; when all members agree on a sample, both bounds are that
    common value and the interval has width zero, whatever the confidence
    level. *)
Theorem predict_bounds_within_member_range (X0 : ArrayLike) (c : Z) (w w' : World)
    (y_pred lo up : list Q) (i : nat) (a b : Q) :
  predict X0 (PyInt c) w = (Ok (y_pred, lo, up), w') ->
  length (b_estimators (self w)) = Z.to_nat (n_boot (self w)) ->
  (i < length (to_numpy X0))%nat ->
  (forall est p, In est (b_estimators (self w)) ->
                 ccv_predict_proba est (to_numpy X0) = Ok p -> a <= nth i p 0 <= b) ->
  a <= nth i lo 0 <= b /\ a <= nth i up 0 <= b /\
  (a == b -> nth i lo 0 == a /\ nth i up 0 == a /\ nth i up 0 - nth i lo 0 == 0).
Proof.
  intros H Hfull Hi Hrange. apply predict_Ok_inv in H.
  destruct H as [c' [_ [P [E [Hc [Hne [_ [_ [HP [Hle [-> ->]]]]]]]]]]].
  injection E as <-. rewrite !quantile_axis0_nth by exact Hi.
  rewrite stacked_full by exact Hfull.
  assert (Hcol : Forall (fun v => a <= v <= b) (column P i)).
  { unfold column. apply Forall_forall. intros v Hv.
    apply in_map_iff in Hv. destruct Hv as [p [<- Hp]].
    destruct (Forall2_In_r _ _ _ _ HP Hp) as [est [Hest Hpr]].
    eapply Hrange; eassumption. }
  assert (Hn : (1 <= length (column P i))%nat).
  { rewrite column_length, <- (Forall2_length HP).
    destruct (b_estimators (self w)); [contradiction | simpl; lia]. }
  destruct (tail_mass_bounds c Hc) as [Ha0 Ha1].
  assert (Hlo : a <= quantile_1d (column P i) (tail_mass c) <= b)
    by (apply quantile_1d_range; [exact Hn | exact Hcol | split; lra]).
  assert (Hup : a <= quantile_1d (column P i) (1 - tail_mass c) <= b)
    by (apply quantile_1d_range; [exact Hn | exact Hcol | split; lra]).
  split; [exact Hlo|]. split; [exact Hup|]. intros Hab.
  repeat split; lra.
Qed.

(** X7: the order of the bootstrap members does not matter: with the same
    point model and [n_boot], an estimator whose members are a rearrangement
    of another's returns the same point estimates and, sample by sample, the
    same bounds. *)
Theorem predict_ignores_member_order (X0 : ArrayLike) (c : Z) (w1 w1' w2 : World)
    (y_pred lo up : list Q) :
  Permutation (b_estimators (self w1)) (b_estimators (self w2)) ->
  n_boot (self w2) = n_boot (self w1) ->
  calibrated_estimator (self w2) = calibrated_estimator (self w1) ->
  predict X0 (PyInt c) w1 = (Ok (y_pred, lo, up), w1') ->
  exists lo2 up2,
    predict X0 (PyInt c) w2 = (Ok (y_pred, lo2, up2), w2) /\
    length lo2 = length lo /\ length up2 = length up /\
    forall i, (i < length (to_numpy X0))%nat ->
      nth i lo2 0 == nth i lo 0 /\ nth i up2 0 == nth i up 0.
Proof.
  intros Hperm Hn Hpt H. apply predict_Ok_inv in H.
  destruct H as [c' [obj [P1 [E [Hc [Hne [Hobj [Hy [HP1 [Hle [-> ->]]]]]]]]]]].
  injection E as <-.
  destruct (Forall2_Permutation _ _ _ Hperm P1 HP1) as [P2 [HP2 HPP]].
  pose proof (Permutation_length Hperm) as Hlen.
  assert (Hne2 : b_estimators (self w2) <> []).
  { intros E. rewrite E in Hlen.
    destruct (b_estimators (self w1)); [contradiction | discriminate]. }
  eexists _, _. split.
  { apply (predict_returns X0 c w2 obj y_pred P2); try assumption.
    - rewrite <- Hlen, Hn. exact Hle.
    - rewrite Hpt. exact Hobj. }
  rewrite !quantile_axis0_length. split; [reflexivity|]. split; [reflexivity|].
  intros i Hi. rewrite !quantile_axis0_nth by exact Hi.
  assert (Hst : Permutation (stacked (self w2) (length (to_numpy X0)) P2)
                            (stacked (self w1) (length (to_numpy X0)) P1)).
  { unfold stacked. rewrite Hn, <- Hlen. apply Permutation_app_tail.
    apply Permutation_sym, HPP. }
  split; apply quantile_1d_Permutation; unfold column; apply Permutation_map, Hst.
Qed.

End Aggregation.

(** ** The plotting method *)

Lemma zip_rows_length (y_pred lower_bound upper_bound : list Q) (y_true y_binary : list Z) :
  length lower_bound = length y_pred -> length upper_bound = length y_pred ->
  length y_true = length y_pred -> length y_binary = length y_pred ->
  length (zip_rows y_pred lower_bound upper_bound y_true y_binary) = length y_pred.
Proof.
  revert lower_bound upper_bound y_true y_binary.
  induction y_pred as [|p ps IH]; intros [|l ls] [|u us] [|t ts] [|b bs];
    simpl; intros H1 H2 H3 H4; try discriminate; try reflexivity.
  rewrite IH by lia. reflexivity.
Qed.

Lemma vstack_T_Ok (y_pred lower_bound upper_bound : list Q) (y_true y_binary : list Z) :
  length lower_bound = length y_pred -> length upper_bound = length y_pred ->
  length y_true = length y_pred -> length y_binary = length y_pred ->
  vstack_T y_pred lower_bound upper_bound y_true y_binary
  = Ok (zip_rows y_pred lower_bound upper_bound y_true y_binary).
Proof.
  intros H1 H2 H3 H4. unfold vstack_T. rewrite H1, H2, H3, H4.
  cbn [first_mismatch]. rewrite !Nat.eqb_refl. reflexivity.
Qed.

Lemma take_rows_seq {A : Type} (x pre : list A) :
  take_rows (pre ++ x) (seq (length pre) (length x)) = Ok x.
Proof.
  revert pre. induction x as [|a x IH]; intros pre; simpl; [reflexivity|].
  rewrite nth_error_app2 by lia. rewrite Nat.sub_diag. simpl.
  assert (E : pre ++ a :: x = (pre ++ [a]) ++ x) by (rewrite <- app_assoc; reflexivity).
  assert (El : S (length pre) = length (pre ++ [a]))
    by (rewrite length_app; simpl; lia).
  rewrite E, El, IH. reflexivity.
Qed.

Section PlotTheorems.

Context {C : Calibrated}.

Variable render : list PlotRow -> Q -> bool -> Result unit.

Lemma predict_NdArray (X0 : ArrayLike) (ci : PyVal) (w : World) :
  predict (NdArray (to_numpy X0)) ci w = predict X0 ci w.
Proof. reflexivity. Qed.

Lemma plot_predict_not_fitted (X0 : ArrayLike) (y_true : option Labels) (ci : PyVal)
    (threshold : Q) (n_samples : PyVal) (w : World) :
  b_estimators (self w) = [] ->
  plot_predict render X0 y_true ci threshold n_samples w
  = (Raise (Warning not_fitted_msg), w).
Proof.
  intros Hb. unfold plot_predict, bind, get_self. rewrite Hb. reflexivity.
Qed.

Lemma plot_predict_predict_raises (X0 : ArrayLike) (y_true : option Labels) (ci : PyVal)
    (threshold : Q) (n_samples : PyVal) (w : World) (e : exn) :
  b_estimators (self w) <> [] ->
  fst (predict X0 ci w) = Raise e ->
  plot_predict render X0 y_true ci threshold n_samples w = (Raise e, w).
Proof.
  intros Hb He. unfold plot_predict. unfold bind at 1. unfold get_self at 1.
  destruct (b_estimators (self w)) as [|e0 es]; [contradiction|].
  unfold bind at 1. rewrite predict_NdArray.
  pose proof (read_only_predict X0 ci w) as Hro.
  destruct (predict X0 ci w) as [r w1]. simpl in He, Hro. subst r w1. reflexivity.
Qed.

Lemma plot_predict_predict_nan (X0 : ArrayLike) (y_true : option Labels) (ci : PyVal)
    (threshold : Q) (n_samples : PyVal) (w : World) :
  b_estimators (self w) <> [] ->
  fst (predict X0 ci w) = NotANumber ->
  plot_predict render X0 y_true ci threshold n_samples w = (NotANumber, w).
Proof.
  intros Hb He. unfold plot_predict. unfold bind at 1. unfold get_self at 1.
  destruct (b_estimators (self w)) as [|e0 es]; [contradiction|].
  unfold bind at 1. rewrite predict_NdArray.
  pose proof (read_only_predict X0 ci w) as Hro.
  destruct (predict X0 ci w) as [r w1]. simpl in He, Hro. subst r w1. reflexivity.
Qed.

(** After the two checks on the ensemble and a returning [predict], the rest
    of [plot_predict]: build the table, choose the rows, draw, return. *)
Lemma plot_predict_after_predict (X0 : ArrayLike) (y_true : option Labels) (ci : PyVal)
    (threshold : Q) (n_samples : PyVal) (w : World) (t : list Q * list Q * list Q) :
  b_estimators (self w) <> [] ->
  predict X0 ci w = (Ok t, w) ->
  plot_predict render X0 y_true ci threshold n_samples w
  = bind (lift (vstack_T (fst (fst t)) (snd (fst t)) (snd t)
                  (table_labels y_true (length (to_numpy X0)))
                  (map (binarize threshold) (fst (fst t)))))
      (fun results =>
         bind (choose_rows (length (to_numpy X0)) n_samples)
           (fun idx =>
              bind (lift (take_rows results idx))
                (fun shown =>
                   bind (lift (render shown threshold (negb (any_label y_true))))
                     (fun _ => ret (returned t y_true))))) w.
Proof.
  intros Hb Hp. unfold plot_predict. unfold bind at 1. unfold get_self at 1.
  destruct (b_estimators (self w)) as [|e0 es]; [contradiction|].
  unfold bind at 1. rewrite predict_NdArray, Hp.
  unfold table_labels, returned. destruct y_true as [l|]; reflexivity.
Qed.

Lemma predict_Ok_lengths (X0 : ArrayLike) (ci : PyVal) (w w' : World)
    (t : list Q * list Q * list Q) :
  predict X0 ci w = (Ok t, w') ->
  w' = w /\
  length (fst (fst t)) = length (to_numpy X0) /\
  length (snd (fst t)) = length (to_numpy X0) /\
  length (snd t) = length (to_numpy X0).
Proof.
  intros H. pose proof (read_only_predict X0 ci w) as Hro. rewrite H in Hro.
  simpl in Hro. destruct t as [[y_pred lo] up]. apply predict_Ok_inv in H.
  destruct H as [c [obj [P [_ [_ [_ [_ [Hy [_ [_ [-> ->]]]]]]]]]]].
  cbn [fst snd]. rewrite !quantile_axis0_length.
  destruct (ccv_predict_proba_Ok _ _ _ Hy) as [Hlen _].
  repeat split; try assumption; reflexivity.
Qed.

Lemma choose_rows_frame (rows : nat) (n_samples : PyVal) (w w' : World)
    (r : Result (list nat)) :
  choose_rows rows n_samples w = (r, w') ->
  self w' = self w /\ ((forall k, n_samples <> PyInt k) -> w' = w).
Proof.
  unfold choose_rows. destruct n_samples as [k| | |name|].
  - destruct (k >? Z.of_nat rows)%Z.
    + intros H. injection H as _ <-. split; [reflexivity | intros _; reflexivity].
    + intros H. apply random_choice_self in H. split; [exact H|].
      intros Hk. exfalso. apply (Hk k). reflexivity.
  - intros H. injection H as _ <-. split; [reflexivity | intros _; reflexivity].
  - intros H. injection H as _ <-. split; [reflexivity | intros _; reflexivity].
  - destruct (String.eqb name "all"); intros H; injection H as _ <-;
      (split; [reflexivity | intros _; reflexivity]).
  - intros H. injection H as _ <-. split; [reflexivity | intros _; reflexivity].
Qed.

Lemma table_labels_length (y_true : option Labels) (rows : nat) :
  any_label y_true = false \/
  (exists l, y_true = Some l /\ length l = rows) ->
  length (table_labels y_true rows) = rows.
Proof.
  unfold table_labels. intros [H|[l [-> Hl]]].
  - rewrite H. destruct y_true; apply repeat_length.
  - destruct (negb (any_label (Some l))); [apply repeat_length | exact Hl].
Qed.

Lemma vstack_T_table (t : list Q * list Q * list Q) (y_true : option Labels)
    (threshold : Q) (rows : nat) :
  length (fst (fst t)) = rows -> length (snd (fst t)) = rows -> length (snd t) = rows ->
  length (table_labels y_true rows) = rows ->
  vstack_T (fst (fst t)) (snd (fst t)) (snd t) (table_labels y_true rows)
           (map (binarize threshold) (fst (fst t)))
  = Ok (table t y_true threshold rows) /\
  length (table t y_true threshold rows) = rows.
Proof.
  intros H1 H2 H3 H4. unfold table. split.
  - apply vstack_T_Ok; rewrite ?length_map; lia.
  - rewrite zip_rows_length; rewrite ?length_map; lia.
Qed.

Lemma plot_predict_frame (X0 : ArrayLike) (y_true : option Labels)
    (ci : PyVal) (threshold : Q) (n_samples : PyVal) (w : World) :
  self (snd (plot_predict render X0 y_true ci threshold n_samples w)) = self w /\
  ((forall k, n_samples <> PyInt k) ->
     snd (plot_predict render X0 y_true ci threshold n_samples w) = w).
Proof.
  destruct (plot_predict render X0 y_true ci threshold n_samples w) as [r w'] eqn:H.
  cbn [snd].
  destruct (b_estimators (self w)) as [|e0 es] eqn:Hb.
  { rewrite plot_predict_not_fitted in H by exact Hb. injection H as _ <-.
    split; [reflexivity | intros _; reflexivity]. }
  assert (Hne : b_estimators (self w) <> []) by (rewrite Hb; discriminate).
  pose proof (read_only_predict X0 ci w) as Hro.
  destruct (predict X0 ci w) as [[t|e|] w1] eqn:Hp; simpl in Hro; subst w1.
  2:{ rewrite (plot_predict_predict_raises _ _ _ _ _ _ e Hne) in H
        by (rewrite Hp; reflexivity).
      injection H as _ <-. split; [reflexivity | intros _; reflexivity]. }
  2:{ rewrite (plot_predict_predict_nan _ _ _ _ _ _ Hne) in H
        by (rewrite Hp; reflexivity).
      injection H as _ <-. split; [reflexivity | intros _; reflexivity]. }
  rewrite (plot_predict_after_predict _ _ _ _ _ _ t Hne Hp) in H.
  apply bind_inv in H. destruct H as [[e [H _]]|[[H _]|[results [w1 [H1 H]]]]].
  { apply lift_inv in H. destruct H as [_ ->].
    split; [reflexivity | intros _; reflexivity]. }
  { apply lift_inv in H. destruct H as [_ ->].
    split; [reflexivity | intros _; reflexivity]. }
  apply lift_inv in H1. destruct H1 as [_ ->].
  apply bind_inv in H. destruct H as [[e [H _]]|[[H _]|[idx [w1 [H1 H]]]]].
  { apply choose_rows_frame in H. exact H. }
  { apply choose_rows_frame in H. exact H. }
  apply choose_rows_frame in H1. destruct H1 as [Hs Hw].
  apply bind_inv in H. destruct H as [[e [H _]]|[[H _]|[shown [w2 [H2 H]]]]].
  { apply lift_inv in H. destruct H as [_ ->]. split; assumption. }
  { apply lift_inv in H. destruct H as [_ ->]. split; assumption. }
  apply lift_inv in H2. destruct H2 as [_ ->].
  apply bind_inv in H. destruct H as [[e [H _]]|[[H _]|[[] [w2 [H2 H]]]]].
  { apply lift_inv in H. destruct H as [_ ->]. split; assumption. }
  { apply lift_inv in H. destruct H as [_ ->]. split; assumption. }
  apply lift_inv in H2. destruct H2 as [_ ->].
  unfold ret in H. injection H as _ <-. split; assumption.
Qed.

(** X8: [plot_predict] never changes the estimator, and unless [n_samples]
    is an [int] it does not touch the generator either. On an estimator
    without members it raises the not-fitted warning; otherwise an exception
    of [predict] (an invalid [ci], a failing classifier) comes out unchanged,
    before the labels or [n_samples] are looked at. *)
Theorem plot_predict_keeps_estimator (X0 : ArrayLike) (y_true : option Labels)
    (ci : PyVal) (threshold : Q) (n_samples : PyVal) (w : World) :
  self (snd (plot_predict render X0 y_true ci threshold n_samples w)) = self w /\
  ((forall k, n_samples <> PyInt k) ->
     snd (plot_predict render X0 y_true ci threshold n_samples w) = w) /\
  (b_estimators (self w) = [] ->
     plot_predict render X0 y_true ci threshold n_samples w
     = (Raise (Warning not_fitted_msg), w)) /\
  (forall e, b_estimators (self w) <> [] -> fst (predict X0 ci w) = Raise e ->
     plot_predict render X0 y_true ci threshold n_samples w = (Raise e, w)).
Proof.
  destruct (plot_predict_frame X0 y_true ci threshold n_samples w) as [H1 H2]. split; [exact H1|]. split; [exact H2|].
  split; [apply plot_predict_not_fitted|].
  intros e Hne He. apply plot_predict_predict_raises; assumption.
Qed.

(** X9: whenever [plot_predict] returns, [predict] returns on the same
    arguments, and the value handed back is exactly the triple of [predict]
    when no label was given or every given label is zero, and [None] as soon
    as one label is non-zero; the estimator is unchanged. *)
Theorem plot_predict_returns_the_triple_without_labels (X0 : ArrayLike)
    (y_true : option Labels) (ci : PyVal) (threshold : Q) (n_samples : PyVal)
    (w w' : World) (res : option (list Q * list Q * list Q)) :
  plot_predict render X0 y_true ci threshold n_samples w = (Ok res, w') ->
  exists y_pred lower_bound upper_bound,
    predict X0 ci w = (Ok (y_pred, lower_bound, upper_bound), w) /\
    (any_label y_true = false -> res = Some (y_pred, lower_bound, upper_bound)) /\
    (any_label y_true = true -> res = None) /\
    self w' = self w.
Proof.
  intros H.
  assert (Hself : self w' = self w).
  { pose proof (plot_predict_frame X0 y_true ci threshold n_samples w) as [Hs _].
    rewrite H in Hs. exact Hs. }
  destruct (b_estimators (self w)) as [|e0 es] eqn:Hb.
  { rewrite plot_predict_not_fitted in H by exact Hb. discriminate. }
  assert (Hne : b_estimators (self w) <> []) by (rewrite Hb; discriminate).
  pose proof (read_only_predict X0 ci w) as Hro.
  destruct (predict X0 ci w) as [[t|e|] w1] eqn:Hp; simpl in Hro; subst w1.
  2:{ rewrite (plot_predict_predict_raises _ _ _ _ _ _ e Hne) in H
        by (rewrite Hp; reflexivity). discriminate. }
  2:{ rewrite (plot_predict_predict_nan _ _ _ _ _ _ Hne) in H
        by (rewrite Hp; reflexivity). discriminate. }
  rewrite (plot_predict_after_predict _ _ _ _ _ _ t Hne Hp) in H.
  apply bind_Ok_inv in H. destruct H as [results [w1 [_ H]]].
  apply bind_Ok_inv in H. destruct H as [idx [w2 [_ H]]].
  apply bind_Ok_inv in H. destruct H as [shown [w3 [_ H]]].
  apply bind_Ok_inv in H. destruct H as [[] [w4 [_ H]]].
  unfold ret in H. injection H as <- _.
  destruct t as [[y_pred lo] up]. exists y_pred, lo, up.
  split; [reflexivity|]. unfold returned. cbn [fst snd].
  split; [intros ->; reflexivity|]. split; [intros ->; reflexivity | exact Hself].
Qed.

(** Labels without a non-zero entry are treated as if no labels had been
    given. *)
Lemma plot_predict_zero_labels (X0 : ArrayLike) (l : Labels) (ci : PyVal)
    (threshold : Q) (n_samples : PyVal) (w : World) :
  any_label (Some l) = false ->
  plot_predict render X0 (Some l) ci threshold n_samples w
  = plot_predict render X0 None ci threshold n_samples w.
Proof.
  intros H. unfold plot_predict. rewrite H. reflexivity.
Qed.

(** X10: once [predict] has returned on an estimator with members, the labels
    and [n_samples] are checked in this order. Labels with a non-zero entry
    whose number differs from the number of rows raise NumPy's [ValueError],
    whereas labels that are all zero are never compared with the rows: in any
    number, they give the outcome and final state of a call without labels.
    With fitting labels, an [n_samples] that is neither ['all'] nor an [int],
    or an [int] above the number of rows, raises the [n_samples] warning; a
    negative [int] is not caught by that check and raises the [ValueError] of
    the draw. In all these cases nothing is drawn and nothing is rendered. *)
Theorem plot_predict_checks_after_predict (X0 : ArrayLike) (y_true : option Labels)
    (ci : PyVal) (threshold : Q) (w : World) (t : list Q * list Q * list Q) :
  b_estimators (self w) <> [] ->
  predict X0 ci w = (Ok t, w) ->
  (forall l n_samples,
     y_true = Some l -> any_label y_true = true ->
     length l <> length (to_numpy X0) ->
     exists msg,
       plot_predict render X0 y_true ci threshold n_samples w
       = (Raise (ValueError msg), w)) /\
  (forall l n_samples,
     y_true = Some l -> any_label y_true = false ->
     plot_predict render X0 y_true ci threshold n_samples w
     = plot_predict render X0 None ci threshold n_samples w) /\
  (any_label y_true = false \/
   (exists l, y_true = Some l /\ length l = length (to_numpy X0)) ->
   (forall n_samples,
      (forall k, n_samples <> PyInt k) -> n_samples <> PyStr "all" ->
      plot_predict render X0 y_true ci threshold n_samples w
      = (Raise (Warning n_samples_msg), w)) /\
   (forall k, (Z.of_nat (length (to_numpy X0)) < k)%Z ->
      plot_predict render X0 y_true ci threshold (PyInt k) w
      = (Raise (Warning n_samples_msg), w)) /\
   (forall k, (k < 0)%Z -> (0 < length (to_numpy X0))%nat ->
      plot_predict render X0 y_true ci threshold (PyInt k) w
      = (Raise (ValueError negative_size_msg), w))).
Proof.
  intros Hne Hp. destruct (predict_Ok_lengths _ _ _ _ _ Hp) as [_ [H1 [H2 H3]]].
  split; [|split].
  - intros l n_samples -> Hany Hlen.
    rewrite (plot_predict_after_predict _ _ _ _ _ _ t Hne Hp).
    unfold bind at 1. unfold lift at 1. unfold vstack_T, table_labels.
    rewrite Hany. cbn [negb]. rewrite H1, H2, H3. cbn [first_mismatch].
    rewrite !Nat.eqb_refl.
    destruct (Nat.eqb_spec (length l) (length (to_numpy X0))); [contradiction|].
    eexists. reflexivity.
  - intros l n_samples -> Hany. apply plot_predict_zero_labels. exact Hany.
  - intros Hlab. pose proof (table_labels_length _ _ Hlab) as H4.
    destruct (vstack_T_table t y_true threshold _ H1 H2 H3 H4) as [Hv _].
    split; [|split].
    + intros n_samples Hint Hall.
      rewrite (plot_predict_after_predict _ _ _ _ _ _ t Hne Hp).
      unfold bind at 1. unfold lift at 1. rewrite Hv. unfold bind at 1.
      unfold choose_rows. destruct n_samples as [k| | |name|]; try reflexivity.
      * exfalso. apply (Hint k). reflexivity.
      * destruct (String.eqb_spec name "all") as [->|_]; [contradiction | reflexivity].
    + intros k Hk. rewrite (plot_predict_after_predict _ _ _ _ _ _ t Hne Hp).
      unfold bind at 1. unfold lift at 1. rewrite Hv. unfold bind at 1.
      unfold choose_rows. destruct (Z.gtb_spec k (Z.of_nat (length (to_numpy X0))));
        [reflexivity | lia].
    + intros k Hk HR. rewrite (plot_predict_after_predict _ _ _ _ _ _ t Hne Hp).
      unfold bind at 1. unfold lift at 1. rewrite Hv. unfold bind at 1.
      unfold choose_rows. destruct (Z.gtb_spec k (Z.of_nat (length (to_numpy X0))));
        [lia|].
      unfold random_choice. destruct (Nat.eqb_spec (length (to_numpy X0)) 0); [lia|].
      cbn [andb]. destruct (Z.ltb_spec k 0); [reflexivity | lia].
Qed.

(** X11: once [predict] has returned and the labels fit, [n_samples = 'all']
    renders the whole table in row order and draws nothing; an [int]
    [0 <= n_samples <= rows] renders exactly [n_samples] rows, each of them a
    row of the table, chosen by the next [n_samples] draws of the generator
    with replacement. The call then returns if the rendering does, and raises
    what the rendering raises. *)
Theorem plot_predict_renders_chosen_rows (X0 : ArrayLike) (y_true : option Labels)
    (ci : PyVal) (threshold : Q) (w : World) (t : list Q * list Q * list Q) :
  b_estimators (self w) <> [] ->
  predict X0 ci w = (Ok t, w) ->
  any_label y_true = false \/
  (exists l, y_true = Some l /\ length l = length (to_numpy X0)) ->
  plot_predict render X0 y_true ci threshold (PyStr "all") w
  = (match render (table t y_true threshold (length (to_numpy X0))) threshold
                  (negb (any_label y_true)) with
     | Ok _ => Ok (returned t y_true)
     | Raise e => Raise e
     | NotANumber => NotANumber
     end, w) /\
  forall k, (0 <= k <= Z.of_nat (length (to_numpy X0)))%Z ->
            (0 < length (to_numpy X0))%nat ->
    exists shown,
      length shown = Z.to_nat k /\
      Forall (fun row => In row (table t y_true threshold (length (to_numpy X0)))) shown /\
      take_rows (table t y_true threshold (length (to_numpy X0)))
                (fst (draws (length (to_numpy X0)) (Z.to_nat k) (np_random w)))
      = Ok shown /\
      plot_predict render X0 y_true ci threshold (PyInt k) w
      = (match render shown threshold (negb (any_label y_true)) with
         | Ok _ => Ok (returned t y_true)
         | Raise e => Raise e
         | NotANumber => NotANumber
         end,
         mkWorld (self w)
                 (mkRandomState (entropy (np_random w))
                                (consumed (np_random w) + Z.to_nat k))).
Proof.
  intros Hne Hp Hlab. destruct (predict_Ok_lengths _ _ _ _ _ Hp) as [_ [H1 [H2 H3]]].
  pose proof (table_labels_length _ _ Hlab) as H4.
  destruct (vstack_T_table t y_true threshold _ H1 H2 H3 H4) as [Hv Hlen].
  split.
  - rewrite (plot_predict_after_predict _ _ _ _ _ _ t Hne Hp).
    unfold bind at 1. unfold lift at 1. rewrite Hv. unfold bind at 1.
    cbn [choose_rows String.eqb Ascii.eqb Bool.eqb andb]. unfold ret at 1.
    unfold bind at 1. unfold lift at 1.
    pose proof (take_rows_seq (table t y_true threshold (length (to_numpy X0))) [])
      as Hall.
    cbn [length app] in Hall. rewrite Hlen in Hall. rewrite Hall.
    unfold bind at 1. unfold lift at 1.
    destruct (render _ _ _); reflexivity.
  - intros k Hk HR.
    set (idx := fst (draws (length (to_numpy X0)) (Z.to_nat k) (np_random w))).
    assert (Hidx : Forall (fun i => (i < length (table t y_true threshold
                                                    (length (to_numpy X0))))%nat) idx)
      by (rewrite Hlen; apply draws_in_range, HR).
    destruct (take_rows_Ok _ idx Hidx) as [shown [Hshown [Hl Hnth]]].
    exists shown. split; [rewrite Hl; apply draws_length|]. split.
    { apply Forall_forall. intros row Hrow.
      apply In_nth_error in Hrow. destruct Hrow as [j Hj].
      destruct (nth_error idx j) as [i|] eqn:Hi.
      - rewrite (Hnth _ _ Hi) in Hj. eapply nth_error_In, Hj.
      - apply nth_error_None in Hi.
        assert (Hsome : nth_error shown j <> None) by (rewrite Hj; discriminate).
        apply nth_error_Some in Hsome. lia. }
    split; [exact Hshown|].
    rewrite (plot_predict_after_predict _ _ _ _ _ _ t Hne Hp).
    unfold bind at 1. unfold lift at 1. rewrite Hv. unfold bind at 1.
    unfold choose_rows. destruct (Z.gtb_spec k (Z.of_nat (length (to_numpy X0))));
      [lia|].
    rewrite random_choice_Ok by (assumption || lia). fold idx.
    unfold bind at 1. unfold lift at 1. rewrite Hshown.
    unfold bind at 1. unfold lift at 1.
    rewrite draws_spec. cbn [snd].
    destruct (render _ _ _); reflexivity.
Qed.

End PlotTheorems.


(** ** More on the intervals *)

Lemma count_le_app (v : Q) (l1 l2 : list Q) :
  count_le v (l1 ++ l2) = (count_le v l1 + count_le v l2)%nat.
Proof. unfold count_le. rewrite filter_app, length_app. reflexivity. Qed.

Lemma count_le_zeros (z : nat) : count_le 0 (repeat 0 z) = z.
Proof.
  unfold count_le. induction z as [|z IH]; simpl; [reflexivity|]. rewrite IH. reflexivity.
Qed.

(** In a sorted column of non-negative values, as many leading entries are
    zero as there are zeros in the column. *)
Lemma sorted_leading_zeros (s : list Q) (z k : nat) :
  StronglySorted Qle s -> Forall (fun v => 0 <= v) s ->
  (z <= count_le 0 s)%nat -> (k < z)%nat -> nth k s 0 == 0.
Proof.
  intros Hs Hpos Hz Hk.
  assert (Hlen : (count_le 0 s <= length s)%nat) by (unfold count_le; apply filter_length_le).
  assert (Hks : (k < length s)%nat) by lia.
  assert (H0 : 0 <= nth k s 0) by (rewrite Forall_forall in Hpos; apply Hpos, nth_In, Hks).
  destruct (Qlt_le_dec 0 (nth k s 0)) as [Hlt|Hle]; [|lra].
  pose proof (count_le_below s Hs k 0 Hks Hlt). lia.
Qed.

Lemma column_app (m1 m2 : Matrix) (i : nat) :
  column (m1 ++ m2) i = column m1 i ++ column m2 i.
Proof. unfold column. apply map_app. Qed.

Lemma column_zero_rows (cols z i : nat) :
  column (repeat (repeat 0 cols) z) i = repeat 0 z.
Proof.
  unfold column. induction z as [|z IH]; simpl; [reflexivity|]. rewrite IH. f_equal.
  destruct (Nat.lt_ge_cases i cols) as [Hi|Hi].
  - apply nth_repeat_lt. exact Hi.
  - apply nth_overflow. rewrite repeat_length. exact Hi.
Qed.

Section Intervals.

Context {C : Calibrated}.

(** X12: the rows of [preds] that no member fills stay zero and enter the
    quantiles. On an estimator holding fewer members than [n_boot] (as a
    [fit] leaves it when the training of a member raises), as soon as the
    number of missing members exceeds [alpha * (n_boot - 1) + 1] the lower
    bound of every sample is exactly 0, whatever the members predict. *)
Theorem predict_lower_bound_zero_on_partial_ensemble (X0 : ArrayLike) (c : Z)
    (w w' : World) (y_pred lo up : list Q) :
  predict X0 (PyInt c) w = (Ok (y_pred, lo, up), w') ->
  tail_mass c * inject_Z (n_boot (self w) - 1) + 1
    < inject_Z (n_boot (self w) - Z.of_nat (length (b_estimators (self w)))) ->
  forall i, (i < length (to_numpy X0))%nat -> nth i lo 0 == 0.
Proof.
  intros H Hmiss i Hi. apply predict_Ok_inv in H.
  destruct H as [c' [_ [P [E [Hc [Hne [_ [_ [HP [Hle [-> _]]]]]]]]]]].
  injection E as <-. rewrite quantile_axis0_nth by exact Hi.
  destruct (tail_mass_bounds c Hc) as [Ha0 Ha1].
  set (n := Z.to_nat (n_boot (self w))) in *.
  set (m := length (b_estimators (self w))) in *.
  set (col := column (stacked (self w) (length (to_numpy X0)) P) i).
  assert (Hm1 : (1 <= m)%nat)
    by (unfold m; destruct (b_estimators (self w)); [contradiction | simpl; lia]).
  assert (Hnb : n_boot (self w) = Z.of_nat n) by (unfold n; lia).
  assert (Hcol : col = column P i ++ repeat 0 (n - m)).
  { unfold col, stacked. rewrite column_app, column_zero_rows. reflexivity. }
  assert (Hlen : length col = n).
  { rewrite Hcol, length_app, repeat_length, column_length, <- (Forall2_length HP).
    fold m. lia. }
  assert (Hprob : Forall prob col).
  { unfold col. apply column_prob, stacked_prob. eapply member_probas_prob, HP. }
  assert (Hpos : Forall (fun v => 0 <= v) (np_sort col)).
  { apply np_sort_Forall. eapply Forall_impl; [|exact Hprob]. intros v [Hv _]. exact Hv. }
  assert (Hz : (n - m <= count_le 0 (np_sort col))%nat).
  { rewrite <- (count_le_Permutation 0 col (np_sort col))
      by (apply QSort.Permuted_sort).
    rewrite Hcol, count_le_app, count_le_zeros. lia. }
  unfold quantile_1d. rewrite Hlen. cbv zeta. rewrite lerp_eq.
  set (h := tail_mass c * inject_Z (Z.of_nat n - 1)).
  assert (Hh0 : 0 <= h).
  { unfold h. assert (0 <= inject_Z (Z.of_nat n - 1))
      by (change 0 with (inject_Z 0); rewrite <- Zle_Qle; lia). nra. }
  assert (Hfl0 : (0 <= Qfloor h)%Z).
  { rewrite <- (Qfloor_Z 0). apply Qfloor_resp_le. exact Hh0. }
  assert (Hfl1 : (Qfloor h + 1 < Z.of_nat (n - m))%Z).
  { rewrite Zlt_Qlt. pose proof (Qfloor_le h) as Hf.
    rewrite inject_Z_plus. change (inject_Z 1) with 1.
    rewrite Hnb in Hmiss. fold h in Hmiss.
    assert (E : (Z.of_nat n - Z.of_nat m = Z.of_nat (n - m))%Z) by lia.
    rewrite E in Hmiss. lra. }
  assert (Hbelow : np_take (np_sort col) (Qfloor h) == 0).
  { unfold np_take. apply (sorted_leading_zeros _ (n - m));
      [apply np_sort_sorted | exact Hpos | exact Hz | lia]. }
  assert (Habove : np_take (np_sort col)
                     (if (Qfloor h + 1 >? Z.of_nat n - 1)%Z then (Z.of_nat n - 1)%Z
                      else (Qfloor h + 1)%Z) == 0).
  { unfold np_take. apply (sorted_leading_zeros _ (n - m));
      [apply np_sort_sorted | exact Hpos | exact Hz|].
    destruct (Z.gtb_spec (Qfloor h + 1) (Z.of_nat n - 1)); lia. }
  rewrite Hbelow, Habove. ring.
Qed.

(** X13: the point estimate depends on the point model and the features
    only: two calls that return, at any two confidence levels and on
    estimators with any members, give the same point estimates when the
    estimators hold the same point model. *)
Theorem predict_point_estimate_ignores_level_and_members (X0 : ArrayLike)
    (c1 c2 : Z) (w1 w1' w2 w2' : World) (y1 lo1 up1 y2 lo2 up2 : list Q) :
  calibrated_estimator (self w1) = calibrated_estimator (self w2) ->
  predict X0 (PyInt c1) w1 = (Ok (y1, lo1, up1), w1') ->
  predict X0 (PyInt c2) w2 = (Ok (y2, lo2, up2), w2') ->
  y1 = y2.
Proof.
  intros Hpt H1 H2.
  apply predict_Ok_inv in H1. destruct H1 as [_ [obj1 [_ [_ [_ [_ [Ho1 [Hy1 _]]]]]]]].
  apply predict_Ok_inv in H2. destruct H2 as [_ [obj2 [_ [_ [_ [_ [Ho2 [Hy2 _]]]]]]]].
  rewrite Hpt, Ho2 in Ho1. injection Ho1 as ->. rewrite Hy1 in Hy2.
  injection Hy2 as ->. reflexivity.
Qed.

(** X14: intervals are nested: for one estimator and one feature matrix, the
    interval of every sample at a confidence level [c2 > c1] contains its
    interval at [c1]. *)
Theorem predict_intervals_nested (X0 : ArrayLike) (c1 c2 : Z) (w w1 w2 : World)
    (y1 lo1 up1 y2 lo2 up2 : list Q) :
  (c1 < c2)%Z ->
  predict X0 (PyInt c1) w = (Ok (y1, lo1, up1), w1) ->
  predict X0 (PyInt c2) w = (Ok (y2, lo2, up2), w2) ->
  forall i, (i < length (to_numpy X0))%nat ->
    nth i lo2 0 <= nth i lo1 0 /\ nth i lo1 0 <= nth i up1 0 /\
    nth i up1 0 <= nth i up2 0.
Proof.
  intros Hlt H1 H2 i Hi.
  apply predict_Ok_inv in H1.
  destruct H1 as [c1' [_ [P1 [E1 [Hc1 [Hne [_ [_ [HP1 [Hle [-> ->]]]]]]]]]]].
  apply predict_Ok_inv in H2.
  destruct H2 as [c2' [_ [P2 [E2 [Hc2 [_ [_ [_ [HP2 [_ [-> ->]]]]]]]]]]].
  injection E1 as <-. injection E2 as <-.
  rewrite (member_probas_functional _ _ _ _ HP2 HP1).
  rewrite !quantile_axis0_nth by exact Hi.
  set (col := column (stacked (self w) (length (to_numpy X0)) P1) i).
  assert (Hn : (1 <= length col)%nat).
  { unfold col. rewrite column_length.
    rewrite stacked_length; [| symmetry; apply (Forall2_length HP1) | exact Hle].
    destruct (b_estimators (self w)); [contradiction | simpl in Hle; lia]. }
  pose proof (tail_mass_anti c1 c2 Hlt) as Ha.
  destruct (tail_mass_bounds c1 Hc1) as [_ Ha1].
  destruct (tail_mass_bounds c2 Hc2) as [Ha2 _].
  repeat split; apply quantile_1d_mono; try exact Hn; lra.
Qed.

Lemma members_answer (X : Matrix) (ests : list CalibratedClassifierCV) :
  (forall obj, In obj ests -> exists p, ccv_predict_proba obj X = Ok p) ->
  exists P, Forall2 (fun est p => ccv_predict_proba est X = Ok p) ests P.
Proof.
  induction ests as [|est ests IH]; intros Hans.
  - exists []. constructor.
  - destruct (Hans est (or_introl eq_refl)) as [p Hp].
    destruct (IH (fun obj Hin => Hans obj (or_intror Hin))) as [P HP].
    exists (p :: P). constructor; assumption.
Qed.

(** X15: [fit] followed by [predict] works: after a [fit] that returned on an
    estimator with [n_boot >= 1], [predict] with an integer [0 < ci < 100]
    returns a triple with one entry per row, leaving the estimator as [fit]
    left it, provided the classifiers this [fit] has trained (the point model
    and the members now on the estimator) answer for the features. *)
Theorem fit_then_predict_returns (X0 X1 : ArrayLike) (y : Labels) (cv0 : CvScheme)
    (size0 : option Z) (w w' : World) (c : Z) :
  fit X0 y cv0 size0 w = (Ok tt, w') ->
  (1 <= n_boot (self w))%Z ->
  (0 < c < 100)%Z ->
  (forall obj,
     calibrated_estimator (self w') = Some obj \/ In obj (b_estimators (self w')) ->
     exists p, ccv_predict_proba obj (to_numpy X1) = Ok p) ->
  exists y_pred lo up,
    predict X1 (PyInt c) w' = (Ok (y_pred, lo, up), w') /\
    length y_pred = length (to_numpy X1) /\
    length lo = length (to_numpy X1) /\
    length up = length (to_numpy X1).
Proof.
  intros Hfit Hn Hc Hans. apply fit_outcome in Hfit.
  destruct Hfit as [_ [Hnb [[e [E _]]|[obj [_ [_ [Hpt [_ [Hlen _]]]]]]]]];
    [discriminate|].
  specialize (Hlen eq_refl).
  destruct (Hans obj (or_introl Hpt)) as [y_pred Hy].
  destruct (members_answer (to_numpy X1) (b_estimators (self w'))
              (fun member Hin => Hans member (or_intror Hin))) as [P HP].
  assert (Hne : b_estimators (self w') <> []).
  { intros E. rewrite E in Hlen. simpl in Hlen. lia. }
  eexists y_pred, _, _. split.
  { eapply (predict_returns X1 c w' _ y_pred P Hc Hne).
    - rewrite Hnb, Hlen. lia.
    - exact Hpt.
    - exact Hy.
    - exact HP. }
  rewrite !quantile_axis0_length.
  split; [apply (ccv_predict_proba_Ok _ _ _ Hy)|]. split; reflexivity.
Qed.

End Intervals.

(** * Worked examples

    ** A concrete classifier

    It predicts, for every row, the share of positive labels in its training
    set, and refuses an empty training set. When it refuses, it has recorded
    the classes it saw and trained nothing: asked for probabilities, such an
    object builds one column per class, so with fewer than two classes there
    is no column 1, and with two the average over no classifier is NaN. *)

Definition positives (y : Labels) : Z :=
  fold_right (fun l acc => if (l =? 1)%Z then (acc + 1)%Z else acc) 0%Z y.

Definition clip01 (q : Q) : Q := Qmax 0 (Qmin 1 q).

Definition prior_fit (_ _ : unit) (X : Matrix) (y : Labels) : string + Q :=
  match y with
  | [] => inl "ValueError"%string
  | _ :: _ => inr (positives y # Pos.of_nat (length y))
  end.

Definition prior_proba (m : Q) (X : Matrix) : Column1 :=
  Numbers (map (fun _ => clip01 m) X).

Lemma clip01_range (q : Q) : 0 <= clip01 q <= 1.
Proof.
  unfold clip01. split.
  - apply Q.le_max_l.
  - apply Q.max_lub; [discriminate | apply Q.le_min_l].
Qed.

Lemma prior_proba_shape (m : Q) (X : Matrix) (p : list Q) :
  prior_proba m X = Numbers p -> length p = length X.
Proof. intros H. injection H as <-. apply length_map. Qed.

Lemma prior_proba_range (m : Q) (X : Matrix) (p : list Q) :
  prior_proba m X = Numbers p -> Forall (fun v => 0 <= v <= 1) p.
Proof.
  intros H. injection H as <-. apply Forall_forall. intros v Hv.
  apply in_map_iff in Hv. destruct Hv as [_ [<- _]]. apply clip01_range.
Qed.

Definition prior_leaves (_ _ : unit) (X : Matrix) (y : Labels) : nat :=
  length (nodup Z.eq_dec y).

Definition prior_leftover_proba (classes : nat) (X : Matrix) : Column1 :=
  if (classes <? 2)%nat then Narrow classes else HoldsNaN.

Lemma prior_leftover_shape (classes : nat) (X : Matrix) (p : list Q) :
  prior_leftover_proba classes X = Numbers p -> length p = length X.
Proof. unfold prior_leftover_proba. destruct (classes <? 2)%nat; discriminate. Qed.

Lemma prior_leftover_range (classes : nat) (X : Matrix) (p : list Q) :
  prior_leftover_proba classes X = Numbers p -> Forall (fun v => 0 <= v <= 1) p.
Proof. unfold prior_leftover_proba. destruct (classes <? 2)%nat; discriminate. Qed.

Lemma prior_proba_narrow (m : Q) (X : Matrix) (width : nat) :
  prior_proba m X = Narrow width -> (width < 2)%nat.
Proof. discriminate. Qed.

Lemma prior_leftover_narrow (classes : nat) (X : Matrix) (width : nat) :
  prior_leftover_proba classes X = Narrow width -> (width < 2)%nat.
Proof.
  unfold prior_leftover_proba. destruct (Nat.ltb_spec classes 2) as [Hlt|Hge];
    [|discriminate].
  intros E. injection E as <-. exact Hlt.
Qed.

Definition PriorClassifier : Calibrated :=
  {| Estimator := unit; CvScheme := unit; Model := Q; Leftover := nat;
     sk_fit := prior_fit; sk_fit_leaves := prior_leaves;
     sk_predict_proba := prior_proba; sk_leftover_proba := prior_leftover_proba;
     sk_proba_shape := prior_proba_shape; sk_proba_range := prior_proba_range;
     sk_leftover_shape := prior_leftover_shape;
     sk_leftover_range := prior_leftover_range;
     sk_proba_narrow := prior_proba_narrow;
     sk_leftover_narrow := prior_leftover_narrow |}.

(** ** Data: four samples, two features, labels 0 1 0 1 *)

Definition X4 : Matrix := [[0; 0]; [0; 1]; [1; 0]; [1; 1]].
Definition y4 : Labels := [0; 1; 0; 1]%Z.

(** A generator whose draws visit all rows, and one whose every four draws
    are the rows 1, 3, 1, 0: three positive samples and a negative one. *)
Definition gen_mix : RandomState := mkRandomState (fun i => (i * i / 3 + i / 5)%nat) 0.
Definition gen_skew : RandomState :=
  mkRandomState (fun i => nth (i mod 4) [1; 3; 1; 0]%nat O) 0.

(** The base estimator and the calibration scheme carry no information for
    this classifier. *)
Definition est0 : @Estimator PriorClassifier := tt.
Definition cv_none : @CvScheme PriorClassifier := tt.

(** The estimator right after [__init__(estimator, n)]. *)
Definition fresh (n : Z) : @ModelBootstrap PriorClassifier :=
  mkModelBootstrap est0 n [] None None None.

(** The world after [fit(X4, y4)] with [n] members. *)
Definition fitted_world (g : RandomState) (n : Z) (size : option Z) : @World PriorClassifier :=
  snd (fit (NdArray X4) y4 cv_none size (mkWorld (fresh n) g)).

Definition w_mix5 : @World PriorClassifier := fitted_world gen_mix 5 None.
Definition w_skew50 : @World PriorClassifier := fitted_world gen_skew 50 (Some 4%Z).
Definition w_none : @World PriorClassifier := fitted_world gen_mix 0 None.

Example init_fresh : init est0 (PyInt 5) = Ok (fresh 5).
Proof. reflexivity. Qed.

Example init_rejects_negative :
  init est0 (PyInt (-1)) = Raise (Warning n_boot_msg).
Proof. reflexivity. Qed.

Example init_rejects_bool :
  init est0 (PyBool true) = Raise (Warning n_boot_msg).
Proof. reflexivity. Qed.

Example fit_mix5 :
  fit (NdArray X4) y4 cv_none None (mkWorld (fresh 5) gen_mix)
  = (Ok tt, w_mix5).
Proof. vm_compute. reflexivity. Qed.

Example members_mix5 :
  map fitted (b_estimators (self w_mix5)) = [Some (2#4); Some (4#4); Some (1#4); Some (1#4); Some (3#4)].
Proof. vm_compute. reflexivity. Qed.

Example quantile_1d_quartile :
  quantile_1d [3; 1; 2; 4] (1 # 4) == 7 # 4.
Proof. vm_compute. reflexivity. Qed.

Example predict_mix5_80 :
  predict (NdArray X4) (PyInt 80) w_mix5
  = (Ok ([2#4; 2#4; 2#4; 2#4],
         [3200#12800; 3200#12800; 3200#12800; 3200#12800],
         [720#800; 720#800; 720#800; 720#800]), w_mix5).
Proof. vm_compute. reflexivity. Qed.

Example predict_mix5_95 :
  predict (NdArray X4) (PyInt 95) w_mix5
  = (Ok ([2#4; 2#4; 2#4; 2#4],
         [3200#12800; 3200#12800; 3200#12800; 3200#12800],
         [780#800; 780#800; 780#800; 780#800]), w_mix5).
Proof. vm_compute. reflexivity. Qed.

(** A point model whose training raised after it had recorded two classes
    answers with NaN, and [predict] ends there; had it recorded one class
    only, the indexing [[:,1]] raises. *)
Example predict_half_fitted_point_model :
  predict (NdArray X4) (PyInt 95)
    (mkWorld (set_calibrated_estimator (mkObject est0 cv_none None (Some 2%nat))
                                       (self w_mix5)) gen_mix)
  = (NotANumber,
     mkWorld (set_calibrated_estimator (mkObject est0 cv_none None (Some 2%nat))
                                       (self w_mix5)) gen_mix) /\
  predict (NdArray X4) (PyInt 95)
    (mkWorld (set_calibrated_estimator (mkObject est0 cv_none None (Some 1%nat))
                                       (self w_mix5)) gen_mix)
  = (Raise (IndexError (no_column1_msg 1)),
     mkWorld (set_calibrated_estimator (mkObject est0 cv_none None (Some 1%nat))
                                       (self w_mix5)) gen_mix).
Proof. split; vm_compute; reflexivity. Qed.

(** ** Instances of the theorems *)

Definition point4 : list Q := [2#4; 2#4; 2#4; 2#4].
Definition lower_mix : list Q := [3200#12800; 3200#12800; 3200#12800; 3200#12800].
Definition upper_mix80 : list Q := [720#800; 720#800; 720#800; 720#800].
Definition upper_mix95 : list Q := [780#800; 780#800; 780#800; 780#800].
Definition skewed4 : list Q := [9600#12800; 9600#12800; 9600#12800; 9600#12800].

Lemma predict_lower_le_upper_witness :
  predict (NdArray X4) (PyInt 95) w_mix5 = (Ok (point4, lower_mix, upper_mix95), w_mix5) /\
  forall i, (i < 4)%nat -> nth i lower_mix 0 <= nth i upper_mix95 0.
Proof.
  assert (H : predict (NdArray X4) (PyInt 95) w_mix5
              = (Ok (point4, lower_mix, upper_mix95), w_mix5))
    by (vm_compute; reflexivity).
  split; [exact H|].
  exact (proj2 (proj2 (proj2 (proj2 (proj2 (proj2 (proj2
           (predict_lower_le_upper (NdArray X4) 95 w_mix5 w_mix5
              point4 lower_mix upper_mix95 H)))))))).
Defined.

Lemma predict_interval_monotone_witness :
  (80 < 95)%Z /\
  predict (NdArray X4) (PyInt 80) w_mix5 = (Ok (point4, lower_mix, upper_mix80), w_mix5) /\
  predict (NdArray X4) (PyInt 95) w_mix5 = (Ok (point4, lower_mix, upper_mix95), w_mix5) /\
  forall i, (i < 4)%nat ->
    nth i upper_mix80 0 - nth i lower_mix 0 <= nth i upper_mix95 0 - nth i lower_mix 0.
Proof.
  assert (H0 : (80 < 95)%Z) by lia.
  assert (H1 : predict (NdArray X4) (PyInt 80) w_mix5
               = (Ok (point4, lower_mix, upper_mix80), w_mix5))
    by (vm_compute; reflexivity).
  assert (H2 : predict (NdArray X4) (PyInt 95) w_mix5
               = (Ok (point4, lower_mix, upper_mix95), w_mix5))
    by (vm_compute; reflexivity).
  split; [exact H0|]. split; [exact H1|]. split; [exact H2|].
  exact (predict_interval_monotone (NdArray X4) 80 95 w_mix5 w_mix5 w_mix5
           point4 lower_mix upper_mix80 point4 lower_mix upper_mix95 H0 H1 H2).
Defined.

Lemma predict_triple_in_unit_interval_witness :
  predict (NdArray X4) (PyInt 95) w_mix5 = (Ok (point4, lower_mix, upper_mix95), w_mix5) /\
  forall i, (i < 4)%nat ->
    prob (nth i point4 0) /\ prob (nth i lower_mix 0) /\ prob (nth i upper_mix95 0) /\
    nth i lower_mix 0 <= nth i upper_mix95 0.
Proof.
  assert (H : predict (NdArray X4) (PyInt 95) w_mix5
              = (Ok (point4, lower_mix, upper_mix95), w_mix5))
    by (vm_compute; reflexivity).
  split; [exact H|].
  exact (proj2 (proj2 (proj2 (proj2 (proj2
           (predict_triple_in_unit_interval (NdArray X4) (PyInt 95) w_mix5 w_mix5
              point4 lower_mix upper_mix95 H)))))).
Defined.

Lemma predict_bounds_are_interpolated_quantiles_witness :
  predict (NdArray X4) (PyInt 95) w_mix5 = (Ok (point4, lower_mix, upper_mix95), w_mix5) /\
  Z.of_nat (length (b_estimators (self w_mix5))) = n_boot (self w_mix5) /\
  exists P : Matrix,
    Forall2 (fun est p => ccv_predict_proba est X4 = Ok p) (b_estimators (self w_mix5)) P /\
    forall i, (i < 4)%nat ->
      length (column P i) = 5%nat /\
      nth i lower_mix 0 == spec_quantile (np_sort (column P i)) ((1 - inject_Z 95 / 100) / 2) /\
      nth i upper_mix95 0
        == spec_quantile (np_sort (column P i)) (1 - (1 - inject_Z 95 / 100) / 2).
Proof.
  assert (H : predict (NdArray X4) (PyInt 95) w_mix5
              = (Ok (point4, lower_mix, upper_mix95), w_mix5))
    by (vm_compute; reflexivity).
  assert (Hn : Z.of_nat (length (b_estimators (self w_mix5))) = n_boot (self w_mix5))
    by (vm_compute; reflexivity).
  split; [exact H|]. split; [exact Hn|].
  exact (proj2 (predict_bounds_are_interpolated_quantiles (NdArray X4) 95 w_mix5 w_mix5
                  point4 lower_mix upper_mix95 H Hn)).
Defined.

Lemma resample_rows_from_dataset_witness :
  (0 < length X4)%nat /\ length y4 = length X4 /\
  (0 <= resolve_boot_size (Some 3%Z) (length X4))%Z /\
  exists (b_idx : list nat) (X_resampled : Matrix) (y_resampled : Labels)
         (w' : @World PriorClassifier),
    resample X4 y4 (resolve_boot_size (Some 3%Z) (length X4)) (mkWorld (fresh 5) gen_mix)
      = (Ok (X_resampled, y_resampled), w') /\
    length X_resampled = 3%nat /\ length y_resampled = length X_resampled /\
    (forall m v, length v = length X_resampled ->
       Forall (fun i => (i < length X4)%nat) v ->
       count_occ (list_eq_dec Nat.eq_dec)
         (map (fun r => fst (draws (length X4) (length X_resampled) (replaying r)))
              (index_vectors (m * length X4) (length X_resampled))) v
       = (m ^ length X_resampled)%nat) /\
    np_random w'
    = mkRandomState (entropy gen_mix) (consumed gen_mix + length X_resampled).
Proof.
  assert (H1 : (0 < length X4)%nat) by (simpl; lia).
  assert (H2 : length y4 = length X4) by reflexivity.
  assert (H3 : (0 <= resolve_boot_size (Some 3%Z) (length X4))%Z) by (simpl; lia).
  split; [exact H1|]. split; [exact H2|]. split; [exact H3|].
  destruct (resample_rows_from_dataset (C := PriorClassifier) X4 y4 (Some 3%Z)
              (mkWorld (fresh 5) gen_mix) H1 H2 H3)
    as [b_idx [Xr [yr [w' [Hr [_ [Hl [Hy [_ [_ [_ [_ [_ [_ [_ [Hu Hg]]]]]]]]]]]]]]]].
  exists b_idx, Xr, yr, w'. split; [exact Hr|]. split; [exact Hl|]. split; [exact Hy|].
  split; [|exact Hg].
  intros m v Hv Hrange. exact (proj2 (Hu m v Hv Hrange)).
Defined.

Lemma fit_postcondition_witness :
  fit (NdArray X4) y4 cv_none None (mkWorld (fresh 5) gen_mix)
    = (Ok tt, w_mix5) /\
  state_of (self w_mix5) = Fitted /\
  length (b_estimators (self w_mix5)) = Z.to_nat (n_boot (self w_mix5)).
Proof.
  assert (H : fit (NdArray X4) y4 cv_none None
                  (mkWorld (fresh 5) gen_mix) = (Ok tt, w_mix5))
    by (vm_compute; reflexivity).
  split; [exact H|].
  pose proof (fit_postcondition (NdArray X4) y4 cv_none None (mkWorld (fresh 5) gen_mix)
                w_mix5 H) as [Hs [_ [Hl _]]].
  split; [exact Hs | exact Hl].
Defined.

(** A second [fit], on the estimator that holds the fifty members of
    [w_skew50], ends in the state of a first [fit] with five members. *)
Example refit_discards_members :
  fit (NdArray X4) y4 cv_none None
      (mkWorld (mkModelBootstrap est0 5 (b_estimators (self w_skew50))
                  (calibration_cv (self w_skew50))
                  (calibrated_estimator (self w_skew50))
                  (boot_size (self w_skew50)))
               gen_mix)
  = (Ok tt, w_mix5).
Proof. vm_compute. reflexivity. Qed.

Lemma fit_predict_without_members_witness :
  init est0 (PyInt 0) = Ok (fresh 0) /\
  sk_fit est0 cv_none (to_numpy (NdArray X4)) y4 = inr (2 # 4) /\
  exists w1 : @World PriorClassifier,
    fit (NdArray X4) y4 cv_none None (mkWorld (fresh 0) gen_mix) = (Ok tt, w1) /\
    b_estimators (self w1) = [] /\
    predict (NdArray X4) (PyInt 95) w1 = (Raise (Warning not_fitted_msg), w1).
Proof.
  assert (H1 : init est0 (PyInt 0) = Ok (fresh 0)) by reflexivity.
  assert (H2 : sk_fit est0 cv_none (to_numpy (NdArray X4)) y4 = inr (2 # 4))
    by reflexivity.
  split; [exact H1|]. split; [exact H2|].
  destruct (fit_predict_without_members est0 (NdArray X4) y4 cv_none None
              gen_mix (fresh 0) (2 # 4) H1 H2) as [w1 [Hf [Hb [_ [_ Hp]]]]].
  exists w1. split; [exact Hf|]. split; [exact Hb | apply Hp].
Defined.

Lemma fit_passes_boot_size_unchecked_witness :
  ((-1) <= 0)%Z /\
  ccv_fit (new_ccv (estimator (fresh 2)) cv_none) (to_numpy (NdArray X4)) y4
    = Ok (mkCCV est0 cv_none
                (Some (2 # 4))) /\
  (1 <= n_boot (fresh 2))%Z /\
  fit (NdArray X4) y4 cv_none (Some (-1)%Z)
      (mkWorld (fresh 2) gen_mix)
  = (Raise (ValueError negative_size_msg),
     mkWorld (before_loop (fresh 2) cv_none (mkCCV est0 cv_none (Some (2 # 4))) (-1)) gen_mix).
Proof.
  assert (H1 : ((-1) <= 0)%Z) by lia.
  assert (H2 : ccv_fit (new_ccv (estimator (fresh 2)) cv_none) (to_numpy (NdArray X4)) y4
               = Ok (mkCCV est0
                           cv_none (Some (2 # 4))))
    by reflexivity.
  assert (H3 : (1 <= n_boot (fresh 2))%Z) by (simpl; lia).
  split; [exact H1|]. split; [exact H2|]. split; [exact H3|].
  assert (Hneg : ((-1) < 0)%Z) by lia.
  assert (HR : (0 < length (to_numpy (NdArray X4)))%nat) by (simpl; lia).
  exact (proj2 (proj1 (proj2 (fit_passes_boot_size_unchecked
                  (NdArray X4) y4 cv_none (-1)
                  (mkWorld (fresh 2) gen_mix) _ H1 H2 H3)) Hneg HR)).
Defined.

(** ** Inputs on which the specification's wording fails *)

(** C1, as stated, fails on the scenario of four samples, two features, labels
    0 1 0 1, fifty members and resamples of size four: when every resample
    holds three positive samples and a negative one, every member predicts
    3/4 while the full-data model predicts 1/2, so the point estimate lies
    below the lower bound. *)
Lemma predict_point_outside_interval :
  fit (NdArray X4) y4 cv_none (Some 4%Z) (mkWorld (fresh 50) gen_skew)
    = (Ok tt, w_skew50) /\
  predict (NdArray X4) (PyInt 95) w_skew50 = (Ok (point4, skewed4, skewed4), w_skew50) /\
  ~ point_within_bounds point4 skewed4 skewed4.
Proof.
  split; [vm_compute; reflexivity|]. split; [vm_compute; reflexivity|].
  intros H. specialize (H 0%nat). simpl in H.
  destruct (H ltac:(lia)) as [Hlo _]. vm_compute in Hlo. apply Hlo. reflexivity.
Qed.

(** C2, as stated, fails: with [n_boot = 0] the [fit] succeeds with no member,
    and the [predict] that follows raises. *)
Lemma predict_after_fit_without_members_raises :
  init est0 (PyInt 0) = Ok (fresh 0) /\
  fit (NdArray X4) y4 cv_none None (mkWorld (fresh 0) gen_mix)
    = (Ok tt, w_none) /\
  b_estimators (self w_none) = [] /\
  ~ (exists r, fst (predict (NdArray X4) (PyInt 95) w_none) = Ok r).
Proof.
  split; [reflexivity|]. split; [vm_compute; reflexivity|]. split; [reflexivity|].
  intros [r H]. vm_compute in H. discriminate.
Qed.

(** C8, as stated, fails twice: on an estimator that was never fitted,
    [ci = 100] is answered with the not-fitted warning, not the
    invalid-argument one; and an estimator fitted with [n_boot = 0] is
    answered with the not-fitted warning although it is fitted. *)
Lemma predict_validation_not_as_specified :
  ~ predict_validation_as_specified (NdArray X4) (PyInt 100) (mkWorld (fresh 5) gen_mix) /\
  ~ predict_validation_as_specified (NdArray X4) (PyInt 95) w_none.
Proof.
  split.
  - intros [_ [[_ H] _]].
    assert (Hinv : ~ valid_ci (PyInt 100))
      by (intros [c [E Hc]]; injection E as <-; lia).
    specialize (H Hinv). vm_compute in H. discriminate.
  - intros [[H _] _].
    assert (Hnf : fst (predict (NdArray X4) (PyInt 95) w_none)
                  = Raise (Warning not_fitted_msg)) by (vm_compute; reflexivity).
    specialize (H Hnf). vm_compute in H. discriminate.
Qed.

(** C9, as stated, fails: [fit] with [boot_size = -1] is not rejected by the
    estimator; the resampling step is reached and it is NumPy's draw that
    raises. With [boot_size = 0] the resampling step returns an empty
    dataset, and it is the training of the first member on it that raises. *)
Lemma fit_negative_boot_size_reaches_resample :
  fit (NdArray X4) y4 cv_none (Some (-1)%Z) (mkWorld (fresh 2) gen_mix)
    = (Raise (ValueError negative_size_msg),
       mkWorld (before_loop (fresh 2) cv_none (mkCCV est0 cv_none (Some (2 # 4))) (-1))
               gen_mix) /\
  resample X4 y4 (-1)
      (mkWorld (before_loop (fresh 2) cv_none (mkCCV est0 cv_none (Some (2 # 4))) (-1))
               gen_mix)
    = (Raise (ValueError negative_size_msg),
       mkWorld (before_loop (fresh 2) cv_none (mkCCV est0 cv_none (Some (2 # 4))) (-1))
               gen_mix) /\
  ~ fit_rejects_boot_size (NdArray X4) y4 cv_none (-1) (mkWorld (fresh 2) gen_mix) /\
  resample X4 y4 0
      (mkWorld (before_loop (fresh 2) cv_none (mkCCV est0 cv_none (Some (2 # 4))) 0)
               gen_mix)
    = (Ok ([], []),
       mkWorld (before_loop (fresh 2) cv_none (mkCCV est0 cv_none (Some (2 # 4))) 0)
               gen_mix) /\
  fit (NdArray X4) y4 cv_none (Some 0%Z) (mkWorld (fresh 2) gen_mix)
    = (Raise (SklearnError "ValueError"),
       mkWorld (before_loop (fresh 2) cv_none (mkCCV est0 cv_none (Some (2 # 4))) 0)
               gen_mix) /\
  ~ fit_rejects_boot_size (NdArray X4) y4 cv_none 0 (mkWorld (fresh 2) gen_mix).
Proof.
  split; [vm_compute; reflexivity|]. split; [vm_compute; reflexivity|].
  split; [intros [msg [w' [H _]]]; vm_compute in H; discriminate|].
  split; [vm_compute; reflexivity|]. split; [vm_compute; reflexivity|].
  intros [msg [w' [H _]]]. vm_compute in H. discriminate.
Qed.

(** ** Instances of the further properties *)

(** A renderer that draws and never fails. *)
Definition render_ok (shown : list PlotRow) (threshold : Q) (r : bool) : Result unit :=
  Ok tt.

(** [w_mix5] with its members in reverse order. *)
Definition w_mix5_rev : @World PriorClassifier :=
  mkWorld (set_b_estimators (rev (b_estimators (self w_mix5))) (self w_mix5)) gen_mix.

Definition triple95 : list Q * list Q * list Q := (point4, lower_mix, upper_mix95).

Lemma fit_keeps_consistent_witness :
  consistent (self (mkWorld (fresh 5) gen_mix)) /\
  consistent (self (snd (fit (NdArray X4) y4 cv_none None (mkWorld (fresh 5) gen_mix)))).
Proof.
  assert (H : consistent (self (mkWorld (fresh 5) gen_mix))).
  { unfold consistent. simpl. repeat split; try lia.
    - constructor.
    - intros E. contradiction. }
  split; [exact H|].
  exact (proj1 (fit_keeps_consistent (NdArray X4) y4 cv_none None
                  (mkWorld (fresh 5) gen_mix) H)).
Defined.

(** A classifier like the one above, except that a model trained on one
    class only answers with one column: there is no column 1. *)
Definition picky_proba (m : Q) (X : Matrix) : Column1 :=
  if Qeq_bool m 0 || Qeq_bool m 1 then Narrow 1 else prior_proba m X.

Lemma picky_proba_shape (m : Q) (X : Matrix) (p : list Q) :
  picky_proba m X = Numbers p -> length p = length X.
Proof.
  unfold picky_proba. destruct (Qeq_bool m 0 || Qeq_bool m 1); [discriminate|].
  apply prior_proba_shape.
Qed.

Lemma picky_proba_range (m : Q) (X : Matrix) (p : list Q) :
  picky_proba m X = Numbers p -> Forall (fun v => 0 <= v <= 1) p.
Proof.
  unfold picky_proba. destruct (Qeq_bool m 0 || Qeq_bool m 1); [discriminate|].
  apply prior_proba_range.
Qed.

Lemma picky_proba_narrow (m : Q) (X : Matrix) (width : nat) :
  picky_proba m X = Narrow width -> (width < 2)%nat.
Proof.
  unfold picky_proba. destruct (Qeq_bool m 0 || Qeq_bool m 1); [|discriminate].
  intros H. injection H as <-. lia.
Qed.

Definition PickyClassifier : Calibrated :=
  {| Estimator := unit; CvScheme := unit; Model := Q; Leftover := nat;
     sk_fit := prior_fit; sk_fit_leaves := prior_leaves;
     sk_predict_proba := picky_proba; sk_leftover_proba := prior_leftover_proba;
     sk_proba_shape := picky_proba_shape; sk_proba_range := picky_proba_range;
     sk_leftover_shape := prior_leftover_shape;
     sk_leftover_range := prior_leftover_range;
     sk_proba_narrow := picky_proba_narrow;
     sk_leftover_narrow := prior_leftover_narrow |}.

(** The world after [fit(X4, y4)] with five members of that classifier: the
    second member has seen positive labels only. *)
Definition w_picky : @World PickyClassifier :=
  snd (fit (C := PickyClassifier) (NdArray X4) y4 tt None
         (mkWorld (mkModelBootstrap (C := PickyClassifier) tt 5 [] None None None)
                  gen_mix)).

Lemma predict_raises_only_warnings_or_classifier_errors_witness :
  consistent (self w_picky) /\
  fst (predict (NdArray X4) (PyInt 95) w_picky) = Raise (IndexError (no_column1_msg 1)) /\
  exists obj,
    (calibrated_estimator (self w_picky) = Some obj \/
     In obj (b_estimators (self w_picky))) /\
    ccv_predict_proba obj (to_numpy (NdArray X4)) = Raise (IndexError (no_column1_msg 1)).
Proof.
  assert (H : consistent (self w_picky)).
  { unfold consistent. split; [vm_compute; discriminate|].
    split; [vm_compute; lia|]. split.
    - vm_compute. repeat (apply Forall_cons; [discriminate|]). apply Forall_nil.
    - intros _. vm_compute. discriminate. }
  assert (Hr : fst (predict (NdArray X4) (PyInt 95) w_picky)
               = Raise (IndexError (no_column1_msg 1))) by (vm_compute; reflexivity).
  split; [exact H|]. split; [exact Hr|].
  destruct (predict_raises_only_warnings_or_classifier_errors (NdArray X4) (PyInt 95)
              w_picky (IndexError (no_column1_msg 1)) H Hr) as [E|[E|Hobj]];
    [discriminate | discriminate | exact Hobj].
Defined.


Lemma fit_members_are_trained_on_resamples_witness :
  fit (NdArray X4) y4 cv_none None (mkWorld (fresh 5) gen_mix) = (Ok tt, w_mix5) /\
  boot_size (self w_mix5) = Some 4%Z /\
  np_random w_mix5 = mkRandomState (entropy gen_mix) 20.
Proof.
  assert (H : fit (NdArray X4) y4 cv_none None (mkWorld (fresh 5) gen_mix)
              = (Ok tt, w_mix5)) by (vm_compute; reflexivity).
  split; [exact H|].
  pose proof (fit_members_are_trained_on_resamples (NdArray X4) y4 cv_none None
                (mkWorld (fresh 5) gen_mix) w_mix5 H) as [_ [Hs [Hg _]]].
  split; [exact Hs | exact Hg].
Defined.

Lemma predict_bounds_within_member_range_witness :
  predict (NdArray X4) (PyInt 95) w_mix5 = (Ok triple95, w_mix5) /\
  (1 # 4) <= nth 0 lower_mix 0 <= 1 /\ (1 # 4) <= nth 0 upper_mix95 0 <= 1.
Proof.
  assert (H : predict (NdArray X4) (PyInt 95) w_mix5 = (Ok triple95, w_mix5))
    by (vm_compute; reflexivity).
  assert (Hfull : length (b_estimators (self w_mix5)) = Z.to_nat (n_boot (self w_mix5)))
    by (vm_compute; reflexivity).
  assert (Hi : (0 < length (to_numpy (NdArray X4)))%nat) by (simpl; lia).
  assert (Hrange : forall est p, In est (b_estimators (self w_mix5)) ->
            ccv_predict_proba est (to_numpy (NdArray X4)) = Ok p ->
            (1 # 4) <= nth 0 p 0 <= 1).
  { intros est p Hin Hp. vm_compute in Hin.
    repeat (destruct Hin as [<-|Hin]; [vm_compute in Hp; injection Hp as <-;
                                        vm_compute; split; discriminate|]).
    contradiction. }
  split; [exact H|].
  pose proof (predict_bounds_within_member_range (NdArray X4) 95 w_mix5 w_mix5
                point4 lower_mix upper_mix95 0 (1 # 4) 1 H Hfull Hi Hrange)
    as [Hlo [Hup _]].
  split; [exact Hlo | exact Hup].
Defined.

Lemma predict_ignores_member_order_witness :
  Permutation (b_estimators (self w_mix5)) (b_estimators (self w_mix5_rev)) /\
  predict (NdArray X4) (PyInt 95) w_mix5 = (Ok triple95, w_mix5) /\
  exists lo2 up2,
    predict (NdArray X4) (PyInt 95) w_mix5_rev = (Ok (point4, lo2, up2), w_mix5_rev).
Proof.
  assert (Hperm : Permutation (b_estimators (self w_mix5))
                              (b_estimators (self w_mix5_rev)))
    by (apply Permutation_rev).
  assert (H : predict (NdArray X4) (PyInt 95) w_mix5 = (Ok triple95, w_mix5))
    by (vm_compute; reflexivity).
  split; [exact Hperm|]. split; [exact H|].
  destruct (predict_ignores_member_order (NdArray X4) 95 w_mix5 w_mix5 w_mix5_rev
              point4 lower_mix upper_mix95 Hperm eq_refl eq_refl H)
    as [lo2 [up2 [Hp _]]].
  exists lo2, up2. exact Hp.
Defined.

Lemma plot_predict_returns_the_triple_without_labels_witness :
  plot_predict render_ok (NdArray X4) None (PyInt 95) (1 # 2) (PyStr "all") w_mix5
    = (Ok (Some triple95), w_mix5) /\
  exists y_pred lower_bound upper_bound,
    predict (NdArray X4) (PyInt 95) w_mix5
      = (Ok (y_pred, lower_bound, upper_bound), w_mix5) /\
    Some triple95 = Some (y_pred, lower_bound, upper_bound).
Proof.
  assert (H : plot_predict render_ok (NdArray X4) None (PyInt 95) (1 # 2) (PyStr "all")
                w_mix5 = (Ok (Some triple95), w_mix5)) by (vm_compute; reflexivity).
  split; [exact H|].
  destruct (plot_predict_returns_the_triple_without_labels render_ok (NdArray X4) None
              (PyInt 95) (1 # 2) (PyStr "all") w_mix5 w_mix5 (Some triple95) H)
    as [y_pred [lo [up [Hp [Hnone _]]]]].
  exists y_pred, lo, up. split; [exact Hp | apply Hnone; reflexivity].
Defined.

Lemma plot_predict_checks_after_predict_witness :
  b_estimators (self w_mix5) <> [] /\
  predict (NdArray X4) (PyInt 95) w_mix5 = (Ok triple95, w_mix5) /\
  (exists msg,
     plot_predict render_ok (NdArray X4) (Some [0; 1; 1]%Z) (PyInt 95) (1 # 2)
       (PyStr "all") w_mix5 = (Raise (ValueError msg), w_mix5)) /\
  plot_predict render_ok (NdArray X4) (Some y4) (PyInt 95) (1 # 2) (PyInt 5) w_mix5
    = (Raise (Warning n_samples_msg), w_mix5) /\
  plot_predict render_ok (NdArray X4) (Some y4) (PyInt 95) (1 # 2) (PyInt (-1)) w_mix5
    = (Raise (ValueError negative_size_msg), w_mix5).
Proof.
  assert (Hne : b_estimators (self w_mix5) <> []) by (vm_compute; discriminate).
  assert (Hp : predict (NdArray X4) (PyInt 95) w_mix5 = (Ok triple95, w_mix5))
    by (vm_compute; reflexivity).
  split; [exact Hne|]. split; [exact Hp|].
  split; [|split].
  - apply (proj1 (plot_predict_checks_after_predict render_ok (NdArray X4)
                    (Some [0; 1; 1]%Z) (PyInt 95) (1 # 2) w_mix5 triple95 Hne Hp)
                 [0; 1; 1]%Z (PyStr "all")); [reflexivity | reflexivity | simpl; lia].
  - assert (Hlab : any_label (Some y4) = false \/
                   exists l, Some y4 = Some l /\ length l = length (to_numpy (NdArray X4)))
      by (right; exists y4; split; reflexivity).
    apply (proj2 (proj2 (plot_predict_checks_after_predict render_ok (NdArray X4)
                    (Some y4) (PyInt 95) (1 # 2) w_mix5 triple95 Hne Hp)) Hlab).
    simpl. lia.
  - assert (Hlab : any_label (Some y4) = false \/
                   exists l, Some y4 = Some l /\ length l = length (to_numpy (NdArray X4)))
      by (right; exists y4; split; reflexivity).
    apply (proj2 (proj2 (plot_predict_checks_after_predict render_ok (NdArray X4)
                    (Some y4) (PyInt 95) (1 # 2) w_mix5 triple95 Hne Hp)) Hlab);
      simpl; lia.
Defined.

Lemma plot_predict_renders_chosen_rows_witness :
  b_estimators (self w_mix5) <> [] /\
  predict (NdArray X4) (PyInt 95) w_mix5 = (Ok triple95, w_mix5) /\
  exists shown,
    length shown = 3%nat /\
    plot_predict render_ok (NdArray X4) (Some y4) (PyInt 95) (1 # 2) (PyInt 3) w_mix5
    = (match render_ok shown (1 # 2) (negb (any_label (Some y4))) with
       | Ok _ => Ok (returned triple95 (Some y4))
       | Raise e => Raise e
       | NotANumber => NotANumber
       end,
       mkWorld (self w_mix5)
               (mkRandomState (entropy (np_random w_mix5))
                              (consumed (np_random w_mix5) + 3))).
Proof.
  assert (Hne : b_estimators (self w_mix5) <> []) by (vm_compute; discriminate).
  assert (Hp : predict (NdArray X4) (PyInt 95) w_mix5 = (Ok triple95, w_mix5))
    by (vm_compute; reflexivity).
  assert (Hlab : any_label (Some y4) = false \/
                 exists l, Some y4 = Some l /\ length l = length (to_numpy (NdArray X4)))
    by (right; exists y4; split; reflexivity).
  split; [exact Hne|]. split; [exact Hp|].
  destruct (proj2 (plot_predict_renders_chosen_rows render_ok (NdArray X4) (Some y4)
                     (PyInt 95) (1 # 2) w_mix5 triple95 Hne Hp Hlab)
                  3%Z ltac:(simpl; lia) ltac:(simpl; lia))
    as [shown [Hl [_ [_ Hplot]]]].
  exists shown. split; [exact Hl | exact Hplot].
Defined.

(** [w_mix5] after losing all members but the first, as a [fit] leaves the
    estimator when the training of its second member raises. *)
Definition w_partial : @World PriorClassifier :=
  mkWorld (set_b_estimators (firstn 1 (b_estimators (self w_mix5))) (self w_mix5)) gen_mix.

Lemma predict_lower_bound_zero_on_partial_ensemble_witness :
  exists lo up,
    predict (NdArray X4) (PyInt 95) w_partial = (Ok (point4, lo, up), w_partial) /\
    tail_mass 95 * inject_Z (n_boot (self w_partial) - 1) + 1
      < inject_Z (n_boot (self w_partial)
                  - Z.of_nat (length (b_estimators (self w_partial)))) /\
    forall i, (i < 4)%nat -> nth i lo 0 == 0.
Proof.
  eexists _, _.
  assert (Hm : tail_mass 95 * inject_Z (n_boot (self w_partial) - 1) + 1
               < inject_Z (n_boot (self w_partial)
                           - Z.of_nat (length (b_estimators (self w_partial)))))
    by (vm_compute; reflexivity).
  split; [vm_compute; reflexivity|]. split; [exact Hm|].
  refine (predict_lower_bound_zero_on_partial_ensemble (NdArray X4) 95 w_partial w_partial
            point4 _ _ _ Hm).
  vm_compute. reflexivity.
Defined.

Lemma predict_point_estimate_ignores_level_and_members_witness :
  calibrated_estimator (self w_mix5) = calibrated_estimator (self w_partial) /\
  predict (NdArray X4) (PyInt 80) w_mix5 = (Ok (point4, lower_mix, upper_mix80), w_mix5) /\
  exists lo up,
    predict (NdArray X4) (PyInt 95) w_partial = (Ok (point4, lo, up), w_partial).
Proof.
  assert (Hpt : calibrated_estimator (self w_mix5) = calibrated_estimator (self w_partial))
    by reflexivity.
  assert (H1 : predict (NdArray X4) (PyInt 80) w_mix5
               = (Ok (point4, lower_mix, upper_mix80), w_mix5))
    by (vm_compute; reflexivity).
  split; [exact Hpt|]. split; [exact H1|].
  destruct (predict (NdArray X4) (PyInt 95) w_partial) as [[[[y lo] up]|e|] w1] eqn:H2;
    [|vm_compute in H2; discriminate|vm_compute in H2; discriminate].
  pose proof (predict_point_estimate_ignores_level_and_members (NdArray X4) 80 95
                w_mix5 w_mix5 w_partial w1 point4 lower_mix upper_mix80 y lo up
                Hpt H1 H2) as Hy.
  exists lo, up. rewrite Hy.
  pose proof (read_only_predict (NdArray X4) (PyInt 95) w_partial) as Hro.
  rewrite H2 in Hro. simpl in Hro. rewrite Hro. reflexivity.
Defined.

Lemma predict_intervals_nested_witness :
  (80 < 95)%Z /\
  predict (NdArray X4) (PyInt 80) w_mix5 = (Ok (point4, lower_mix, upper_mix80), w_mix5) /\
  predict (NdArray X4) (PyInt 95) w_mix5 = (Ok (point4, lower_mix, upper_mix95), w_mix5) /\
  forall i, (i < 4)%nat ->
    nth i lower_mix 0 <= nth i lower_mix 0 /\ nth i lower_mix 0 <= nth i upper_mix80 0 /\
    nth i upper_mix80 0 <= nth i upper_mix95 0.
Proof.
  assert (H0 : (80 < 95)%Z) by lia.
  assert (H1 : predict (NdArray X4) (PyInt 80) w_mix5
               = (Ok (point4, lower_mix, upper_mix80), w_mix5))
    by (vm_compute; reflexivity).
  assert (H2 : predict (NdArray X4) (PyInt 95) w_mix5
               = (Ok (point4, lower_mix, upper_mix95), w_mix5))
    by (vm_compute; reflexivity).
  split; [exact H0|]. split; [exact H1|]. split; [exact H2|].
  exact (predict_intervals_nested (NdArray X4) 80 95 w_mix5 w_mix5 w_mix5
           point4 lower_mix upper_mix80 point4 lower_mix upper_mix95 H0 H1 H2).
Defined.

Lemma fit_then_predict_returns_witness :
  fit (NdArray X4) y4 cv_none None (mkWorld (fresh 5) gen_mix) = (Ok tt, w_mix5) /\
  exists y_pred lo up,
    predict (NdArray X4) (PyInt 95) w_mix5 = (Ok (y_pred, lo, up), w_mix5) /\
    length y_pred = 4%nat.
Proof.
  assert (H : fit (NdArray X4) y4 cv_none None (mkWorld (fresh 5) gen_mix)
              = (Ok tt, w_mix5)) by (vm_compute; reflexivity).
  assert (Hn : (1 <= n_boot (self (mkWorld (fresh 5) gen_mix)))%Z) by (simpl; lia).
  assert (Hc : (0 < 95 < 100)%Z) by lia.
  assert (Hans : forall obj,
             calibrated_estimator (self w_mix5) = Some obj \/
             In obj (b_estimators (self w_mix5)) ->
             exists p, ccv_predict_proba obj (to_numpy (NdArray X4)) = Ok p).
  { intros obj [Hobj|Hin].
    - vm_compute in Hobj. injection Hobj as <-. eexists. vm_compute. reflexivity.
    - vm_compute in Hin.
      repeat (destruct Hin as [<-|Hin]; [eexists; vm_compute; reflexivity|]).
      contradiction. }
  split; [exact H|].
  destruct (fit_then_predict_returns (NdArray X4) (NdArray X4) y4 cv_none None
              (mkWorld (fresh 5) gen_mix) w_mix5 95 H Hn Hc Hans)
    as [y_pred [lo [up [Hp [Hl _]]]]].
  exists y_pred, lo, up. split; [exact Hp | exact Hl].
Defined.
